(** * InvokeAI latent invocations: a shallow embedding of
      [invokeai/app/invocations/latent.py]

    The module is orchestration code over torch and diffusers.  Python
    values are modelled as follows:
    - [int] is [Z], [float] is the kernel's binary64 [float], [str] is
      [string], [Optional[T]] is [option T];
    - an exception is the [Raise] branch of [result];
    - a [dict] with string keys is a [gmap string _];
    - the tensor runtime, the VAE, the model manager and the image store are
      external collaborators: their operations are fields of the [Runtime]
      and [InvocationServices] interfaces, and the calls into torch that
      the invocations make are recorded, with their arguments, in the
      [trace] of the [World]. *)

From Stdlib Require Import ZArith Floats.
From stdpp Require Import base tactics option list sorting gmap strings.

Local Open Scope string_scope.
Local Open Scope list_scope.
Local Open Scope Z_scope.

(** ** Exceptions and the two monads *)

Inductive exn : Type :=
| AttributeError
| IndexError
| KeyError
| TypeError
| ValueError
| OverflowError
| RuntimeError
| ExternalError (who : string).

Inductive result (A : Type) : Type :=
| Ok (a : A)
| Raise (e : exn).
Arguments Ok {A} a.
Arguments Raise {A} e.

#[global] Instance result_ret : MRet result := fun A a => Ok a.
#[global] Instance result_bind : MBind result := fun A B f m =>
  match m with
  | Ok a => f a
  | Raise e => Raise e
  end.

(** [d[k]] on a dict: [KeyError] when the key is absent. *)
Definition getitem {V : Type} (d : gmap string V) (k : string) : result V :=
  match d !! k with
  | Some v => Ok v
  | None => Raise KeyError
  end.

(** [l[i]] on a sequence, for an index that is a non-negative literal. *)
Definition index {A : Type} (l : list A) (i : nat) : result A :=
  match l !! i with
  | Some a => Ok a
  | None => Raise IndexError
  end.

(** ** Python numbers *)

(** [float(n)] for an [int]: round to nearest even; an [int] beyond the
    binary64 range raises [OverflowError]. *)
Definition float_of_int (n : Z) : result float :=
  let f := SF2Prim (binary_normalize prec emax n 0 false) in
  if is_infinity f then Raise OverflowError else Ok f.

(** [round(x)] with one argument: the nearest [int], ties going to the even
    one; [ValueError] on NaN and [OverflowError] on an infinity. *)
Definition round (x : float) : result Z :=
  match Prim2SF x with
  | S754_zero _ => Ok 0
  | S754_infinity _ => Raise OverflowError
  | S754_nan => Raise ValueError
  | S754_finite s m e =>
      let mag :=
        if 0 <=? e then Z.pos m * 2 ^ e
        else
          let d := 2 ^ (- e) in
          let q := Z.pos m / d in
          let r := Z.pos m mod d in
          match 2 * r ?= d with
          | Lt => q
          | Gt => q + 1
          | Eq => if Z.even q then q else q + 1
          end in
      Ok (if s then - mag else mag)
  end.

(** ** Configuration dictionaries *)

#[warnings="-register-all"]
Inductive cfg_val : Type :=
| VNone
| VBool (b : bool)
| VInt (n : Z)
| VFloat (f : float)
| VStr (s : string)
| VDict (d : gmap string cfg_val).

(** Truth value of a configuration entry, as [if v:] computes it. *)
Definition truthy (v : cfg_val) : bool :=
  match v with
  | VNone => false
  | VBool b => b
  | VInt n => negb (n =? 0)
  | VFloat f => negb (PrimFloat.eqb f 0)
  | VStr s => negb (String.eqb s "")
  | VDict d => negb (bool_decide (d = ∅))
  end.

(** [{**v}]: only a mapping can be unpacked. *)
Definition unpack (v : cfg_val) : result (gmap string cfg_val) :=
  match v with
  | VDict d => Ok d
  | _ => Raise TypeError
  end.

(** [v * x] for a configuration entry [v] and a float [x]. *)
Definition mul_float (v : cfg_val) (x : float) : result float :=
  match v with
  | VInt n => f ← float_of_int n; Ok (f * x)%float
  | VBool b => Ok ((if b then 1 else 0) * x)%float
  | VFloat f => Ok (f * x)%float
  | _ => Raise TypeError
  end.

(** ** Schedulers *)

Inductive Device : Type :=
| Cpu
| Cuda (n : nat)
| Mps.

Inductive Dtype : Type :=
| Float16
| BFloat16
| Float32
| Float64.

(** The attributes of a diffusers scheduler that this module reads:
    [order], [config], [timesteps] (the tensor of timesteps, as a list of
    integers) and [uses_inpainting_model] ([None] when the object has no
    such attribute, otherwise what the callable returns). *)
Record Scheduler : Type := {
  sched_class : string;
  order : Z;
  config : gmap string cfg_val;
  timesteps : list Z;
  uses_inpainting_model : option bool;
}.

(** [scheduler.config.<name>]: attribute access on the frozen config. *)
Definition config_attr (s : Scheduler) (name : string) : result cfg_val :=
  match config s !! name with
  | Some v => Ok v
  | None => Raise AttributeError
  end.

Definition with_timesteps (s : Scheduler) (ts : list Z) : Scheduler :=
  {| sched_class := sched_class s;
     order := order s;
     config := config s;
     timesteps := ts;
     uses_inpainting_model := uses_inpainting_model s |}.

Definition with_uses_inpainting_model (s : Scheduler) (b : bool) : Scheduler :=
  {| sched_class := sched_class s;
     order := order s;
     config := config s;
     timesteps := timesteps s;
     uses_inpainting_model := Some b |}.

(** The diffusers scheduler library: [set_timesteps] gives the timestep
    sequence a scheduler installs for a step count, [from_config] builds a
    scheduler of a class from a configuration. *)
Class Diffusers : Type := {
  set_timesteps : Scheduler → Z → Device → list Z;
  from_config : string → gmap string cfg_val → Scheduler;
}.

Section scheduler.
Context `{Diffusers}.

(** [int(round(scheduler.config.num_train_timesteps * (1 - denoising)))] *)
Definition t_val (scheduler : Scheduler) (denoising : float) : result Z :=
  n ← config_attr scheduler "num_train_timesteps";
  x ← mul_float n (1 - denoising)%float;
  round x.

(** [DenoiseLatentsInvocation.init_scheduler]: the triple it returns,
    together with the scheduler object after [set_timesteps]. *)
Definition init_scheduler (scheduler : Scheduler) (device : Device) (steps : Z)
    (denoising_start denoising_end : float)
    : result ((Z * list Z * list Z) * Scheduler) :=
  let device :=
    if truthy (default (VBool false) (config scheduler !! "cpu_only"))
    then Cpu else device in
  let num_inference_steps := steps in
  let scheduler :=
    with_timesteps scheduler (set_timesteps scheduler num_inference_steps device) in
  let timesteps := timesteps scheduler in
  (* apply denoising_start *)
  t_start_val ← t_val scheduler denoising_start;
  let t_start_idx := length (filter (λ ts, t_start_val ≤ ts) timesteps) in
  let timesteps := drop t_start_idx timesteps in
  let timesteps :=
    if bool_decide (order scheduler = 2 ∧ (0 < t_start_idx)%nat)
    then drop 1 timesteps else timesteps in
  (* save start timestep to apply noise *)
  let init_timestep := take 1 timesteps in
  (* apply denoising_end *)
  t_end_val ← t_val scheduler denoising_end;
  let t_end_idx := length (filter (λ ts, t_end_val ≤ ts) timesteps) in
  let t_end_idx :=
    if bool_decide (order scheduler = 2 ∧ (0 < t_end_idx)%nat)
    then S t_end_idx else t_end_idx in
  let timesteps := take t_end_idx timesteps in
  (* calculate step count based on scheduler order *)
  let num_inference_steps := Z.of_nat (length timesteps) in
  let num_inference_steps :=
    if bool_decide (order scheduler = 2)
    then (num_inference_steps + num_inference_steps mod 2) / 2
    else num_inference_steps in
  Ok ((num_inference_steps, timesteps, init_timestep), scheduler).

End scheduler.

(** ** Fields passed between invocations *)

(** [Union[float, List[float]]] *)
Inductive float_or_list : Type :=
| OneFloat (f : float)
| FloatList (l : list float).

Module LatentsField.
(** A latents field used for passing latents between invocations. *)
Record t : Type := {
  latents_name : option string;
  seed : option Z;
}.
End LatentsField.

Module LatentsOutput.
Record t : Type := {
  latents : LatentsField.t;
  width : Z;
  height : Z;
}.
End LatentsOutput.

Module ImageField.
Record t : Type := { image_name : string }.
End ImageField.

Module ImageOutput.
Record t : Type := {
  image : ImageField.t;
  width : Z;
  height : Z;
}.
End ImageOutput.

(** [ModelInfo], from [invocations/model.py]: the key of a model in the
    model manager. *)
Module ModelInfo.
Record t : Type := {
  model_name : string;
  base_model : string;
  model_type : string;
  submodel : option string;
}.
End ModelInfo.

Module VaeField.
Record t : Type := { vae : ModelInfo.t }.
End VaeField.

Module ControlNetModelField.
Record t : Type := {
  model_name : string;
  base_model : string;
}.
End ControlNetModelField.

(** [ControlField], from [invocations/controlnet_image_processors.py], with
    the attributes [prep_control_data] reads. *)
Module ControlField.
Record t : Type := {
  image : ImageField.t;
  control_model : ControlNetModelField.t;
  control_weight : float_or_list;
  begin_step_percent : float;
  end_step_percent : float;
  control_mode : string;
  resize_mode : string;
}.
End ControlField.

(** The value bound to a [control] input at run time. *)
#[warnings="-register-all"]
Inductive py_value : Type :=
| PyNone
| PyControlField (c : ControlField.t)
| PyList (l : list py_value)
| PyOther.

(** ** Models handed out by the model manager *)

Inductive AttnProcessor : Type :=
| AttnProcessor_
| AttnProcessor2_0
| XFormersAttnProcessor
| LoRAAttnProcessor
| LoRAAttnProcessor2_0
| LoRAXFormersAttnProcessor.

(** The state of an [AutoencoderKL] that the invocations read or change. *)
Record Vae : Type := {
  vae_device : Device;
  vae_dtype : Dtype;
  post_quant_conv_dtype : Dtype;
  decoder_conv_in_dtype : Dtype;
  decoder_mid_block_dtype : Dtype;
  attn_processor : AttnProcessor;
  use_tiling : bool;
  scaling_factor : float;
}.

Record ControlNetModel : Type := {
  cn_device : Device;
  cn_dtype : Dtype;
  cn_weights : string;
}.

(** [vae.to(dtype=d)] moves the module and all its submodules. *)
Definition vae_to (d : Dtype) (v : Vae) : Vae :=
  {| vae_device := vae_device v;
     vae_dtype := d;
     post_quant_conv_dtype := d;
     decoder_conv_in_dtype := d;
     decoder_mid_block_dtype := d;
     attn_processor := attn_processor v;
     use_tiling := use_tiling v;
     scaling_factor := scaling_factor v |}.

(** [vae.post_quant_conv.to(d)], [vae.decoder.conv_in.to(d)] and
    [vae.decoder.mid_block.to(d)]: a submodule moves alone. *)
Definition post_quant_conv_to (d : Dtype) (v : Vae) : Vae :=
  {| vae_device := vae_device v;
     vae_dtype := vae_dtype v;
     post_quant_conv_dtype := d;
     decoder_conv_in_dtype := decoder_conv_in_dtype v;
     decoder_mid_block_dtype := decoder_mid_block_dtype v;
     attn_processor := attn_processor v;
     use_tiling := use_tiling v;
     scaling_factor := scaling_factor v |}.

Definition decoder_conv_in_to (d : Dtype) (v : Vae) : Vae :=
  {| vae_device := vae_device v;
     vae_dtype := vae_dtype v;
     post_quant_conv_dtype := post_quant_conv_dtype v;
     decoder_conv_in_dtype := d;
     decoder_mid_block_dtype := decoder_mid_block_dtype v;
     attn_processor := attn_processor v;
     use_tiling := use_tiling v;
     scaling_factor := scaling_factor v |}.

Definition decoder_mid_block_to (d : Dtype) (v : Vae) : Vae :=
  {| vae_device := vae_device v;
     vae_dtype := vae_dtype v;
     post_quant_conv_dtype := post_quant_conv_dtype v;
     decoder_conv_in_dtype := decoder_conv_in_dtype v;
     decoder_mid_block_dtype := d;
     attn_processor := attn_processor v;
     use_tiling := use_tiling v;
     scaling_factor := scaling_factor v |}.

Definition set_tiling (b : bool) (v : Vae) : Vae :=
  {| vae_device := vae_device v;
     vae_dtype := vae_dtype v;
     post_quant_conv_dtype := post_quant_conv_dtype v;
     decoder_conv_in_dtype := decoder_conv_in_dtype v;
     decoder_mid_block_dtype := decoder_mid_block_dtype v;
     attn_processor := attn_processor v;
     use_tiling := b;
     scaling_factor := scaling_factor v |}.

Definition enable_tiling : Vae → Vae := set_tiling true.
Definition disable_tiling : Vae → Vae := set_tiling false.

(** [isinstance(vae.decoder.mid_block.attentions[0].processor,
    (AttnProcessor2_0, XFormersAttnProcessor, LoRAXFormersAttnProcessor,
    LoRAAttnProcessor2_0))] *)
Definition use_torch_2_0_or_xformers (v : Vae) : bool :=
  match attn_processor v with
  | AttnProcessor2_0 | XFormersAttnProcessor
  | LoRAXFormersAttnProcessor | LoRAAttnProcessor2_0 => true
  | AttnProcessor_ | LoRAAttnProcessor => false
  end.

(** ** Interpolation *)

(** [LATENTS_INTERPOLATION_MODE] *)
Inductive InterpolationMode : Type :=
| nearest
| linear
| bilinear
| bicubic
| trilinear
| area
| nearest_exact.

(** [mode in ["bilinear", "bicubic"]] *)
Definition mode_in_bilinear_bicubic (mode : InterpolationMode) : bool :=
  match mode with
  | bilinear | bicubic => true
  | _ => false
  end.

(** What [interpolate] is asked for: [size=(h, w)] or [scale_factor=f]. *)
Inductive InterpolateTarget : Type :=
| TargetSize (h w : Z)
| TargetScaleFactor (f : float).

Inductive Model : Type :=
| SchedulerModel (s : Scheduler)
| VaeModel (v : Vae)
| ControlNet (c : ControlNetModel).

(** Using a loaded model as a scheduler ([.config]), as a VAE or as a
    ControlNet ([.device], [.dtype]): another kind of object lacks the
    attribute. *)
Definition as_scheduler (m : Model) : result Scheduler :=
  match m with
  | SchedulerModel s => Ok s
  | _ => Raise AttributeError
  end.

Definition as_vae (m : Model) : result Vae :=
  match m with
  | VaeModel v => Ok v
  | _ => Raise AttributeError
  end.

Definition as_controlnet (m : Model) : result ControlNetModel :=
  match m with
  | ControlNet c => Ok c
  | _ => Raise AttributeError
  end.

(** ** The tensor runtime *)

(** torch, torchvision, the VAE's forward passes and the control-image
    preprocessor.  [interpolate] raises for a mode that does not fit the
    input's rank; the other operations are total. *)
Class Runtime : Type := {
  Tensor : Type;
  PILImage : Type;
  tensor_size : Tensor → list Z;
  tensor_dtype : Tensor → Dtype;
  tensor_to : option Device → option Dtype → Tensor → Tensor;
  zeros_like : Tensor → Tensor;
  interpolate :
    Tensor → InterpolateTarget → InterpolationMode → bool → result Tensor;
  div_scalar : Tensor → float → Tensor;
  add_scalar : Tensor → float → Tensor;
  scalar_mul : float → Tensor → Tensor;
  clamp : float → float → Tensor → Tensor;
  rearrange_chw_1chw : Tensor → Tensor;
  vae_decode : Vae → Tensor → Tensor;
  vae_encode_sample : Vae → Tensor → Tensor;
  numpy_to_pil : Tensor → PILImage;
  convert : PILImage → string → PILImage;
  image_resized_to_grid_as_tensor : PILImage → Tensor;
  prepare_control_image :
    PILImage → bool → Z → Z → Device → Dtype → string → string → Tensor;
  choose_torch_device : Device;
}.

Section invocations.
Context `{Runtime, Diffusers}.

(** [ControlNetData], from [backend/stable_diffusion/diffusers_pipeline.py] *)
Record ControlNetData : Type := {
  cnd_model : ControlNetModel;
  cnd_image_tensor : Tensor;
  cnd_weight : float_or_list;
  cnd_begin_step_percent : float;
  cnd_end_step_percent : float;
  cnd_control_mode : string;
  cnd_resize_mode : string;
}.

Record ImageDTO : Type := {
  dto_image_name : string;
  dto_width : Z;
  dto_height : Z;
}.

(** The services an invocation reaches through [context.services]. *)
Record InvocationServices : Type := {
  get_model : ModelInfo.t → result Model;
  get_pil_image : string → result PILImage;
  images_create :
    PILImage → string → string → string → string → bool →
    option (gmap string cfg_val) → ImageDTO;
  tiled_decode : bool;
}.

Record InvocationContext : Type := {
  services : InvocationServices;
  graph_execution_state_id : string;
}.

(** *** The world: the latents store and the calls made so far *)

Inductive Call : Type :=
| CallInterpolate (input : Tensor) (target : InterpolateTarget)
    (mode : InterpolationMode) (antialias : bool)
| CallPrepareControlImage (image : PILImage)
    (do_classifier_free_guidance : bool) (width height : Z)
    (device : Device) (dtype : Dtype) (control_mode resize_mode : string)
| CallVaeDecode (vae : Vae) (latents : Tensor)
| CallVaeEncode (vae : Vae) (image_tensor : Tensor)
| CallImagesCreate (image : PILImage) (node_id session_id : string)
| CallEmptyCache.

Record World : Type := {
  latents_store : gmap string Tensor;
  trace : list Call;
}.

Definition M (A : Type) : Type := World → result (A * World).

#[global] Instance M_ret : MRet M := λ A a w, Ok (a, w).
#[global] Instance M_bind : MBind M := λ A B f m w,
  match m w with
  | Ok (a, w') => f a w'
  | Raise e => Raise e
  end.

Definition lift {A : Type} (r : result A) : M A := λ w,
  match r with
  | Ok a => Ok (a, w)
  | Raise e => Raise e
  end.

Definition record (c : Call) : M unit := λ w,
  Ok ((), {| latents_store := latents_store w; trace := trace w ++ [c] |}).

(** [context.services.latents.get(name)] *)
Definition latents_get (name : option string) : M Tensor := λ w,
  match name with
  | Some n =>
      match latents_store w !! n with
      | Some t => Ok (t, w)
      | None => Raise (ExternalError "latents.get")
      end
  | None => Raise (ExternalError "latents.get")
  end.

(** [context.services.latents.save(name, tensor)] *)
Definition latents_save (name : string) (t : Tensor) : M unit := λ w,
  Ok ((), {| latents_store := <[name := t]> (latents_store w);
             trace := trace w |}).

(** [x.attr] on an [Optional] field: [None] has no attributes. *)
Definition attr_of {A : Type} (x : option A) : result A :=
  match x with
  | Some a => Ok a
  | None => Raise AttributeError
  end.

(** *** [build_latents_output] *)

Definition build_latents_output (latents_name : string) (latents : Tensor)
    (seed : option Z) : result LatentsOutput.t :=
  w ← index (tensor_size latents) 3;
  h ← index (tensor_size latents) 2;
  Ok {| LatentsOutput.latents :=
          {| LatentsField.latents_name := Some latents_name;
             LatentsField.seed := seed |};
        LatentsOutput.width := w * 8;
        LatentsOutput.height := h * 8 |}.

(** *** [get_scheduler] *)

(** [SCHEDULER_MAP], from [backend/stable_diffusion/schedulers]: for each
    sampler name a scheduler class and its extra configuration. *)
Variable SCHEDULER_MAP : gmap string (string * gmap string cfg_val).

Definition get_scheduler (context : InvocationContext)
    (scheduler_info : ModelInfo.t) (scheduler_name : string)
    : result Scheduler :=
  ddim ← getitem SCHEDULER_MAP "ddim";
  let '(scheduler_class, scheduler_extra_config) :=
    default ddim (SCHEDULER_MAP !! scheduler_name) in
  orig_scheduler_info ← get_model (services context) scheduler_info;
  orig_scheduler ← as_scheduler orig_scheduler_info;
  let scheduler_config := VDict (config orig_scheduler) in
  scheduler_config ←
    match config orig_scheduler !! "_backup" with
    | Some backup => Ok backup
    | None => Ok scheduler_config
    end;
  base ← unpack scheduler_config;
  let scheduler_config :=
    <["_backup" := scheduler_config]> (scheduler_extra_config ∪ base) in
  let scheduler := from_config scheduler_class scheduler_config in
  (* hack copied over from generate.py *)
  let scheduler :=
    match uses_inpainting_model scheduler with
    | None => with_uses_inpainting_model scheduler false
    | Some _ => scheduler
    end in
  Ok scheduler.

(** *** [DenoiseLatentsInvocation.prep_control_data] *)

(** The keyword arguments [model_name=..., model_type=ModelType.ControlNet,
    base_model=...] of the [get_model] call. *)
Definition controlnet_info (control_model : ControlNetModelField.t) : ModelInfo.t :=
  {| ModelInfo.model_name := ControlNetModelField.model_name control_model;
     ModelInfo.base_model := ControlNetModelField.base_model control_model;
     ModelInfo.model_type := "controlnet";
     ModelInfo.submodel := None |}.

(** The body of [for control_info in control_list], with the lists it
    appends to and the exit stack it enters the models on. *)
Fixpoint prep_control_loop (context : InvocationContext)
    (control_list : list py_value)
    (control_width_resize control_height_resize : Z)
    (do_classifier_free_guidance : bool)
    (control_data : list ControlNetData)
    (control_models : list Model) (exit_stack : list Model)
    : M (list ControlNetData * list Model) :=
  match control_list with
  | [] => mret (control_data, exit_stack)
  | control_info :: rest =>
      control_info ← lift
        match control_info with
        | PyControlField c => Ok c
        | _ => Raise AttributeError
        end;
      control_model ← lift (get_model (services context)
        (controlnet_info (ControlField.control_model control_info)));
      let exit_stack := exit_stack ++ [control_model] in
      let control_models := control_models ++ [control_model] in
      let control_image_field := ControlField.image control_info in
      input_image ← lift (get_pil_image (services context)
        (ImageField.image_name control_image_field));
      control_model ← lift (as_controlnet control_model);
      record (CallPrepareControlImage input_image do_classifier_free_guidance
        control_width_resize control_height_resize
        (cn_device control_model) (cn_dtype control_model)
        (ControlField.control_mode control_info)
        (ControlField.resize_mode control_info));;
      let control_image :=
        prepare_control_image input_image do_classifier_free_guidance
          control_width_resize control_height_resize
          (cn_device control_model) (cn_dtype control_model)
          (ControlField.control_mode control_info)
          (ControlField.resize_mode control_info) in
      let control_item :=
        {| cnd_model := control_model;
           cnd_image_tensor := control_image;
           cnd_weight := ControlField.control_weight control_info;
           cnd_begin_step_percent := ControlField.begin_step_percent control_info;
           cnd_end_step_percent := ControlField.end_step_percent control_info;
           cnd_control_mode := ControlField.control_mode control_info;
           cnd_resize_mode := ControlField.resize_mode control_info |} in
      prep_control_loop context rest control_width_resize control_height_resize
        do_classifier_free_guidance (control_data ++ [control_item])
        control_models exit_stack
  end.

(** The [if]/[elif] chain that normalises [control_input] to
    [control_list]. *)
Definition control_list_of (control_input : py_value) : option (list py_value) :=
  match control_input with
  | PyNone => None
  | PyList [] => None
  | PyControlField c => Some [control_input]
  | PyList ((PyControlField _ :: _) as l) => Some l
  | _ => None
  end.

(** Returns [control_data] and the exit stack with the models entered. *)
Definition prep_control_data (context : InvocationContext)
    (control_input : py_value) (latents_shape : list Z)
    (exit_stack : list Model) (do_classifier_free_guidance : bool)
    : M (option (list ControlNetData) * list Model) :=
  (* assuming fixed dimensional scaling of 8:1 for image:latents *)
  control_height_resize ← lift (h ← index latents_shape 2; Ok (h * 8));
  control_width_resize ← lift (w ← index latents_shape 3; Ok (w * 8));
  match control_list_of control_input with
  | None => mret (None, exit_stack)
  | Some control_list =>
      '(control_data, exit_stack) ←
        prep_control_loop context control_list control_width_resize
          control_height_resize do_classifier_free_guidance [] [] exit_stack;
      mret (Some control_data, exit_stack)
  end.

End invocations.

(** ** The invocations *)

Module DenoiseLatentsInvocation.
(** The inputs of the node that [invoke] reads before it loads the UNet. *)
Record t : Type := {
  id : string;
  noise : option LatentsField.t;
  steps : Z;
  denoising_start : float;
  denoising_end : float;
  scheduler : string;
  control : py_value;
  latents : option LatentsField.t;
  mask : option ImageField.t;
}.

Section invoke.
Context `{Runtime}.

(** The opening of [invoke]: the [seed], the [noise] tensor and the
    initial [latents] it goes on with.  [zeros_like(None)] is a
    [TypeError]. *)
Definition invoke_seed_noise_latents (self : t) (context : InvocationContext)
    : M (Z * option Tensor * Tensor) :=
  let seed : option Z := None in
  let noise : option Tensor := None in
  '(seed, noise) ←
    match DenoiseLatentsInvocation.noise self with
    | Some self_noise =>
        noise ← latents_get (LatentsField.latents_name self_noise);
        mret (LatentsField.seed self_noise, Some noise)
    | None => mret (seed, noise)
    end;
  '(seed, latents) ←
    match DenoiseLatentsInvocation.latents self with
    | Some self_latents =>
        latents ← latents_get (LatentsField.latents_name self_latents);
        let seed :=
          match seed with
          | None => LatentsField.seed self_latents
          | Some _ => seed
          end in
        mret (seed, latents)
    | None =>
        match noise with
        | Some noise => mret (seed, zeros_like noise)
        | None => lift (Raise TypeError)
        end
    end;
  let seed :=
    match seed with
    | None => 0
    | Some seed => seed
    end in
  mret (seed, noise, latents).
End invoke.
End DenoiseLatentsInvocation.

Module LatentsToImageInvocation.
Record t : Type := {
  id : string;
  is_intermediate : bool;
  latents : option LatentsField.t;
  vae : option VaeField.t;
  tiled : bool;
  fp32 : bool;
  metadata : option (gmap string cfg_val);
}.

Section invoke.
Context `{Runtime}.

Definition invoke (self : t) (context : InvocationContext) : M ImageOutput.t :=
  self_latents ← lift (attr_of (latents self));
  latents ← latents_get (LatentsField.latents_name self_latents);
  self_vae ← lift (attr_of (vae self));
  vae_info ← lift (get_model (services context) (VaeField.vae self_vae));
  vae ← lift (as_vae vae_info);
  let latents := tensor_to (Some (vae_device vae)) None latents in
  let '(vae, latents) :=
    if fp32 self then
      let vae := vae_to Float32 vae in
      (* if xformers or torch_2_0 is used attention block does not need
         to be in float32 which can save lots of memory *)
      if use_torch_2_0_or_xformers vae then
        let vae := post_quant_conv_to (tensor_dtype latents) vae in
        let vae := decoder_conv_in_to (tensor_dtype latents) vae in
        let vae := decoder_mid_block_to (tensor_dtype latents) vae in
        (vae, latents)
      else (vae, tensor_to None (Some Float32) latents)
    else
      (vae_to Float16 vae, tensor_to None (Some Float16) latents) in
  let vae :=
    if tiled self || tiled_decode (services context)
    then enable_tiling vae
    else disable_tiling vae in
  (* clear memory as vae decode can request a lot *)
  record CallEmptyCache;;
  let latents := div_scalar latents (scaling_factor vae) in
  record (CallVaeDecode vae latents);;
  let image := vae_decode vae latents in
  let image := clamp 0 1 (add_scalar (div_scalar image 2) 0.5) in
  let image := numpy_to_pil image in
  record CallEmptyCache;;
  record (CallImagesCreate image (id self) (graph_execution_state_id context));;
  let image_dto :=
    images_create (services context) image "internal" "general" (id self)
      (graph_execution_state_id context) (is_intermediate self)
      (metadata self) in
  mret {| ImageOutput.image := {| ImageField.image_name := dto_image_name image_dto |};
          ImageOutput.width := dto_width image_dto;
          ImageOutput.height := dto_height image_dto |}.
End invoke.
End LatentsToImageInvocation.

Module ResizeLatentsInvocation.
(** Resizes latents to explicit width/height (in pixels). *)
Record t : Type := {
  id : string;
  latents : option LatentsField.t;
  width : option Z;
  height : option Z;
  mode : InterpolationMode;
  antialias : bool;
}.

(** [x // 8] on a [Union[int, None]] field. *)
Definition floordiv8 (x : option Z) : result Z :=
  match x with
  | Some n => Ok (n / 8)
  | None => Raise TypeError
  end.

Section invoke.
Context `{Runtime}.

Definition invoke (self : t) (context : InvocationContext) : M LatentsOutput.t :=
  self_latents ← lift (attr_of (latents self));
  latents ← latents_get (LatentsField.latents_name self_latents);
  let device := choose_torch_device in
  let input := tensor_to (Some device) None latents in
  size_h ← lift (floordiv8 (height self));
  size_w ← lift (floordiv8 (width self));
  let antialias :=
    if mode_in_bilinear_bicubic (mode self) then antialias self else false in
  record (CallInterpolate input (TargetSize size_h size_w) (mode self) antialias);;
  resized_latents ←
    lift (interpolate input (TargetSize size_h size_w) (mode self) antialias);
  let resized_latents := tensor_to (Some Cpu) None resized_latents in
  record CallEmptyCache;;
  let name := graph_execution_state_id context +:+ "__" +:+ id self in
  latents_save name resized_latents;;
  self_latents ← lift (attr_of (ResizeLatentsInvocation.latents self));
  lift (build_latents_output name resized_latents (LatentsField.seed self_latents)).
End invoke.
End ResizeLatentsInvocation.

Module ScaleLatentsInvocation.
(** Scales latents by a given factor. *)
Record t : Type := {
  id : string;
  latents : option LatentsField.t;
  scale_factor : float;
  mode : InterpolationMode;
  antialias : bool;
}.

Section invoke.
Context `{Runtime}.

Definition invoke (self : t) (context : InvocationContext) : M LatentsOutput.t :=
  self_latents ← lift (attr_of (latents self));
  latents ← latents_get (LatentsField.latents_name self_latents);
  let device := choose_torch_device in
  let input := tensor_to (Some device) None latents in
  let antialias :=
    if mode_in_bilinear_bicubic (mode self) then antialias self else false in
  record (CallInterpolate input (TargetScaleFactor (scale_factor self))
            (mode self) antialias);;
  resized_latents ←
    lift (interpolate input (TargetScaleFactor (scale_factor self))
            (mode self) antialias);
  let resized_latents := tensor_to (Some Cpu) None resized_latents in
  record CallEmptyCache;;
  let name := graph_execution_state_id context +:+ "__" +:+ id self in
  latents_save name resized_latents;;
  self_latents ← lift (attr_of (ScaleLatentsInvocation.latents self));
  lift (build_latents_output name resized_latents (LatentsField.seed self_latents)).
End invoke.
End ScaleLatentsInvocation.

Module ImageToLatentsInvocation.
(** Encodes an image into latents. *)
Record t : Type := {
  id : string;
  image : option ImageField.t;
  vae : option VaeField.t;
  tiled : bool;
  fp32 : bool;
}.

Section invoke.
Context `{Runtime}.

Definition invoke (self : t) (context : InvocationContext) : M LatentsOutput.t :=
  self_image ← lift (attr_of (image self));
  image ← lift (get_pil_image (services context) (ImageField.image_name self_image));
  self_vae ← lift (attr_of (vae self));
  vae_info ← lift (get_model (services context) (VaeField.vae self_vae));
  let image_tensor := image_resized_to_grid_as_tensor (convert image "RGB") in
  let image_tensor :=
    if bool_decide (length (tensor_size image_tensor) = 3%nat)
    then rearrange_chw_1chw image_tensor
    else image_tensor in
  vae ← lift (as_vae vae_info);
  let orig_dtype := vae_dtype vae in
  let vae :=
    if fp32 self then
      let vae := vae_to Float32 vae in
      if use_torch_2_0_or_xformers vae then
        let vae := post_quant_conv_to orig_dtype vae in
        let vae := decoder_conv_in_to orig_dtype vae in
        decoder_mid_block_to orig_dtype vae
      else vae
    else vae_to Float16 vae in
  let vae :=
    if tiled self then enable_tiling vae else disable_tiling vae in
  (* non_noised_latents_from_image *)
  let image_tensor :=
    tensor_to (Some (vae_device vae)) (Some (vae_dtype vae)) image_tensor in
  record (CallVaeEncode vae image_tensor);;
  let latents :=
    tensor_to None (Some (vae_dtype vae)) (vae_encode_sample vae image_tensor) in
  let latents := scalar_mul (scaling_factor vae) latents in
  let latents := tensor_to None (Some orig_dtype) latents in
  let name := graph_execution_state_id context +:+ "__" +:+ id self in
  let latents := tensor_to (Some Cpu) None latents in
  latents_save name latents;;
  lift (build_latents_output name latents None).
End invoke.
End ImageToLatentsInvocation.

(** ** The rest of the denoising node *)

(** *** The [cfg_scale] validator *)

(** The [for i in v] loop of [ge_one]. *)
Fixpoint ge_one_loop (v : list float) : result unit :=
  match v with
  | [] => Ok ()
  | i :: v' => if (i <? 1)%float then Raise ValueError else ge_one_loop v'
  end.

(** [DenoiseLatentsInvocation.ge_one]: validate that all [cfg_scale]
    values are >= 1. *)
Definition ge_one (v : float_or_list) : result float_or_list :=
  match v with
  | FloatList l => ge_one_loop l;; Ok v
  | OneFloat f => if (f <? 1)%float then Raise ValueError else Ok v
  end.

(** *** Collaborators of the denoising loop *)

Module ConditioningField.
Record t : Type := { conditioning_name : string }.
End ConditioningField.

(** [LoraInfo], from [invocations/model.py]: a model key and a weight. *)
Module LoraInfo.
Record t : Type := {
  info : ModelInfo.t;
  weight : float;
}.
End LoraInfo.

(** [UNetField], from [invocations/model.py]. *)
Module UNetField.
Record t : Type := {
  unet : ModelInfo.t;
  scheduler : ModelInfo.t;
  loras : list LoraInfo.t;
}.
End UNetField.

(** The attributes of the loaded UNet that the node reads, and the LoRAs
    patched into it. *)
Record Unet : Type := {
  unet_device : Device;
  unet_dtype : Dtype;
  unet_weights : string;
  unet_loras : list (string * float);
}.

Record PostprocessingSettings : Type := {
  threshold : float;
  warmup : float;
  h_symmetry_time_pct : option float;
  v_symmetry_time_pct : option float;
}.

(** A [torch.Generator]: its device and the seed it was given. *)
Record Generator : Type := {
  generator_device : Device;
  generator_seed : Z;
}.

(** [torch.Generator(device=d).manual_seed(n)]: torch unpacks the seed as
    a 64-bit integer, unsigned or signed; an [int] outside
    [-2^63, 2^64 - 1] is a [RuntimeError]. *)
Definition manual_seed (device : Device) (seed : Z) : result Generator :=
  if bool_decide (- 2 ^ 63 ≤ seed ≤ 2 ^ 64 - 1)
  then Ok {| generator_device := device; generator_seed := seed |}
  else Raise RuntimeError.

(** [FakeVae]: a VAE that has nothing but [config.block_out_channels]. *)
Record FakeVae : Type := { block_out_channels : list Z }.

(** The [StableDiffusionGeneratorPipeline] that [create_pipeline] builds.
    [pipeline_scheduler] is the scheduler object the pipeline refers to;
    the options stand for the arguments passed as [None]. *)
Record Pipeline : Type := {
  pipeline_vae : FakeVae;
  pipeline_text_encoder : option string;
  pipeline_tokenizer : option string;
  pipeline_unet : Unet;
  pipeline_scheduler : Scheduler;
  pipeline_safety_checker : option string;
  pipeline_feature_extractor : option string;
  pipeline_requires_safety_checker : bool;
}.

(** What the step callback closes over. *)
Record StepCallback : Type := {
  callback_source_node_id : string;
  callback_base_model : string;
}.

(** PIL and torchvision for the mask, and the types of the conditioning
    subsystem. *)
Class DenoiseRuntime `{Runtime} : Type := {
  image_mode : PILImage → string;
  image_resized_to_grid_as_tensor_unnormalized : PILImage → Tensor;
  unsqueeze_0 : Tensor → Tensor;
  tv_resize_bilinear : Tensor → list Z → Tensor;
  one_minus : Tensor → Tensor;
  ConditioningInfo : Type;
  ExtraConditioningInfo : Type;
  SchedulerArgs : Type;
  AttentionMapSaver : Type;
  conditioning_to : Device → Dtype → ConditioningInfo → ConditioningInfo;
  extra_conditioning : ConditioningInfo → ExtraConditioningInfo;
  no_scheduler_args : SchedulerArgs;
}.

Section denoise.
Context `{DenoiseRuntime, Diffusers}.
Variable SCHEDULER_MAP : gmap string (string * gmap string cfg_val).

(** [ConditioningData], from [backend/stable_diffusion/diffusers_pipeline.py] *)
Record ConditioningData : Type := {
  unconditioned_embeddings : ConditioningInfo;
  text_embeddings : ConditioningInfo;
  guidance_scale : float_or_list;
  extra : ExtraConditioningInfo;
  postprocessing_settings : PostprocessingSettings;
  scheduler_args : SchedulerArgs;
}.

(** The keyword arguments of [pipeline.latents_from_embeddings]. *)
Record SamplingCall : Type := {
  call_pipeline : Pipeline;
  call_latents : Tensor;
  call_timesteps : list Z;
  call_init_timestep : list Z;
  call_noise : option Tensor;
  call_seed : Z;
  call_mask : option Tensor;
  call_num_inference_steps : Z;
  call_conditioning_data : ConditioningData;
  call_control_data : option (list ControlNetData);
  call_callback : StepCallback;
}.

(** The services and backend calls of the denoising node that are not in
    [InvocationServices]: the model manager for the UNet and for a LoRA,
    the latents service for a conditioning name (the [conditionings] of
    what it stores), the graph execution manager
    ([get(id).prepared_source_mapping]), the LoRA patcher (it loads the
    LoRAs it is given and hands back the patched UNet), and the two
    methods of the backend's pipeline classes. *)
Record DenoiseBackend : Type := {
  get_unet : ModelInfo.t → result Unet;
  get_lora : ModelInfo.t → result string;
  get_conditionings : string → result (list ConditioningInfo);
  prepared_source_mapping : string → result (gmap string string);
  apply_lora_unet : Unet → list (string * float) → result Unet;
  add_scheduler_args_if_applicable :
    ConditioningData → Scheduler → float → Generator → ConditioningData;
  latents_from_embeddings : SamplingCall → result (Tensor * AttentionMapSaver);
}.

End denoise.

Module DenoiseLatents.
(** The whole node: the inputs [DenoiseLatentsInvocation.t] holds and the
    conditioning, guidance and UNet inputs. *)
Record t : Type := {
  inputs : DenoiseLatentsInvocation.t;
  positive_conditioning : option ConditioningField.t;
  negative_conditioning : option ConditioningField.t;
  cfg_scale : float_or_list;
  unet : option UNetField.t;
}.

Section methods.
Context `{DenoiseRuntime, Diffusers}.
Variable SCHEDULER_MAP : gmap string (string * gmap string cfg_val).
Variable backend : DenoiseBackend.

(** [seed ^ 0xFFFFFFFF]: flip all bits to have noise different from
    initial. *)
Definition flipped_seed (seed : Z) : Z := Z.lxor seed 0xFFFFFFFF.

Definition get_conditioning_data (self : t) (context : InvocationContext)
    (scheduler : Scheduler) (unet : Unet) (seed : Z) : result ConditioningData :=
  positive ← attr_of (positive_conditioning self);
  positive_cond_data ←
    get_conditionings backend (ConditioningField.conditioning_name positive);
  c ← index positive_cond_data 0;
  let c := conditioning_to (unet_device unet) (unet_dtype unet) c in
  let extra_conditioning_info := extra_conditioning c in
  negative ← attr_of (negative_conditioning self);
  negative_cond_data ←
    get_conditionings backend (ConditioningField.conditioning_name negative);
  uc ← index negative_cond_data 0;
  let uc := conditioning_to (unet_device unet) (unet_dtype unet) uc in
  let conditioning_data :=
    {| unconditioned_embeddings := uc;
       text_embeddings := c;
       guidance_scale := cfg_scale self;
       extra := extra_conditioning_info;
       postprocessing_settings :=
         {| threshold := 0;
            warmup := 0x1.999999999999ap-3 (* 0.2 *);
            h_symmetry_time_pct := None;
            v_symmetry_time_pct := None |};
       scheduler_args := no_scheduler_args |} in
  (* for ancestral and sde schedulers *)
  generator ← manual_seed (unet_device unet) (flipped_seed seed);
  let conditioning_data :=
    add_scheduler_args_if_applicable backend conditioning_data scheduler
      (* for ddim scheduler *)
      0
      generator in
  Ok conditioning_data.

Definition create_pipeline (unet : Unet) (scheduler : Scheduler) : Pipeline :=
  {| pipeline_vae := {| block_out_channels := [0] |};
     pipeline_text_encoder := None;
     pipeline_tokenizer := None;
     pipeline_unet := unet;
     pipeline_scheduler := scheduler;
     pipeline_safety_checker := None;
     pipeline_feature_extractor := None;
     pipeline_requires_safety_checker := false |}.

(** [shape[-2:]] *)
Definition last_two {A : Type} (shape : list A) : list A :=
  drop (length shape - 2) shape.

Definition prep_mask_tensor (mask : option ImageField.t) (context : InvocationContext)
    (lantents : Tensor) : result (option Tensor) :=
  match mask with
  | None => Ok None
  | Some mask =>
      mask_image ← get_pil_image (services context) (ImageField.image_name mask);
      let mask_image :=
        if negb (String.eqb (image_mode mask_image) "L")
        then convert mask_image "L" else mask_image in
      let mask_tensor := image_resized_to_grid_as_tensor_unnormalized mask_image in
      let mask_tensor :=
        if bool_decide (length (tensor_size mask_tensor) = 3%nat)
        then unsqueeze_0 mask_tensor else mask_tensor in
      let mask_tensor :=
        tv_resize_bilinear mask_tensor (last_two (tensor_size lantents)) in
      Ok (Some (one_minus mask_tensor))
  end.

(** [_lora_loader]: the LoRAs of the UNet field, loaded in order, each with
    its weight. *)
Fixpoint lora_loader (loras : list LoraInfo.t) : result (list (string * float)) :=
  match loras with
  | [] => Ok []
  | lora :: rest =>
      lora_info ← get_lora backend (LoraInfo.info lora);
      loaded ← lora_loader rest;
      Ok ((lora_info, LoraInfo.weight lora) :: loaded)
  end.

(** [DenoiseLatentsInvocation.invoke].  The pipeline refers to the
    scheduler object, so it samples with the timesteps [init_scheduler]
    installed after the pipeline was created. *)
Definition invoke (self : t) (context : InvocationContext) : M LatentsOutput.t :=
  '(seed, noise, latents) ←
    DenoiseLatentsInvocation.invoke_seed_noise_latents (inputs self) context;
  mask ← lift (prep_mask_tensor (DenoiseLatentsInvocation.mask (inputs self))
                 context latents);
  (* Get the source node id (we are invoking the prepared node) *)
  mapping ← lift (prepared_source_mapping backend (graph_execution_state_id context));
  source_node_id ← lift (getitem mapping (DenoiseLatentsInvocation.id (inputs self)));
  self_unet ← lift (attr_of (unet self));
  let step_callback :=
    {| callback_source_node_id := source_node_id;
       callback_base_model := ModelInfo.base_model (UNetField.unet self_unet) |} in
  unet_info ← lift (get_unet backend (UNetField.unet self_unet));
  loras ← lift (lora_loader (UNetField.loras self_unet));
  unet ← lift (apply_lora_unet backend unet_info loras);
  let latents := tensor_to (Some (unet_device unet)) (Some (unet_dtype unet)) latents in
  let noise := tensor_to (Some (unet_device unet)) (Some (unet_dtype unet)) <$> noise in
  let mask := tensor_to (Some (unet_device unet)) (Some (unet_dtype unet)) <$> mask in
  scheduler ← lift (get_scheduler SCHEDULER_MAP context (UNetField.scheduler self_unet)
                      (DenoiseLatentsInvocation.scheduler (inputs self)));
  let pipeline := create_pipeline unet scheduler in
  conditioning_data ← lift (get_conditioning_data self context scheduler unet seed);
  '(control_data, exit_stack) ←
    prep_control_data context (DenoiseLatentsInvocation.control (inputs self))
      (tensor_size latents) [] true;
  '(num_inference_steps, timesteps, init_timestep, scheduler) ←
    lift (init_scheduler scheduler (unet_device unet)
            (DenoiseLatentsInvocation.steps (inputs self))
            (DenoiseLatentsInvocation.denoising_start (inputs self))
            (DenoiseLatentsInvocation.denoising_end (inputs self)));
  let pipeline := create_pipeline unet scheduler in
  '(result_latents, result_attention_map_saver) ←
    lift (latents_from_embeddings backend
            {| call_pipeline := pipeline;
               call_latents := latents;
               call_timesteps := timesteps;
               call_init_timestep := init_timestep;
               call_noise := noise;
               call_seed := seed;
               call_mask := mask;
               call_num_inference_steps := num_inference_steps;
               call_conditioning_data := conditioning_data;
               call_control_data := control_data;
               call_callback := step_callback |});
  let result_latents := tensor_to (Some Cpu) None result_latents in
  record CallEmptyCache;;
  let name :=
    graph_execution_state_id context +:+ "__" +:+
    DenoiseLatentsInvocation.id (inputs self) in
  latents_save name result_latents;;
  lift (build_latents_output name result_latents (Some seed)).
End methods.
End DenoiseLatents.

(** ** The timestep window as the specification words it *)

Fixpoint drop_while {A : Type} (p : A → bool) (l : list A) : list A :=
  match l with
  | [] => []
  | x :: l' => if p x then drop_while p l' else l
  end.

(** Drop from the front every timestep at or above [t_start_val]; of the
    remainder keep the timesteps at or above [t_end_val]; the initial
    timestep is the head of the remainder. *)
Definition timestep_window (timesteps : list Z) (t_start_val t_end_val : Z)
    : list Z * list Z :=
  let remainder := drop_while (λ ts, bool_decide (t_start_val ≤ ts)) timesteps in
  (filter (λ ts, t_end_val ≤ ts) remainder, take 1 remainder).

(** The timesteps [init_scheduler] reads after [set_timesteps]. *)
Definition installed_timesteps `{Diffusers} (s : Scheduler) (device : Device)
    (steps : Z) : list Z :=
  set_timesteps s steps
    (if truthy (default (VBool false) (config s !! "cpu_only")) then Cpu else device).

(** The claim of the specification about first-order schedulers, as it is
    worded: whatever the scheduler's timesteps, the result is the window
    of [timestep_window]. *)
Definition window_claim `{Diffusers} (s : Scheduler) (device : Device) (steps : Z)
    (denoising_start denoising_end : float) : Prop :=
  ∀ t_start_val t_end_val,
    order s = 1 →
    t_val s denoising_start = Ok t_start_val →
    t_val s denoising_end = Ok t_end_val →
    let window :=
      timestep_window (installed_timesteps s device steps) t_start_val t_end_val in
    ∃ n s', init_scheduler s device steps denoising_start denoising_end
            = Ok ((n, window.1, window.2), s').

(** The scheduler's timesteps never increase. *)
Definition descending (timesteps : list Z) : Prop :=
  Sorted (λ a b, b ≤ a) timesteps.

(** ** Control data as the specification words it *)

(** The ControlNet and the control image of a control entry load. *)
Definition control_loads `{Runtime} (context : InvocationContext)
    (c : ControlField.t) : Prop :=
  (∃ m, get_model (services context) (controlnet_info (ControlField.control_model c))
        = Ok (ControlNet m)) ∧
  (∃ img, get_pil_image (services context) (ImageField.image_name (ControlField.image c))
          = Ok img).

(** A [ControlNetData] carries the weight, step percents, control mode and
    resize mode of a control entry. *)
Definition carries `{Runtime} (c : ControlField.t) (d : ControlNetData) : Prop :=
  cnd_weight d = ControlField.control_weight c ∧
  cnd_begin_step_percent d = ControlField.begin_step_percent c ∧
  cnd_end_step_percent d = ControlField.end_step_percent c ∧
  cnd_control_mode d = ControlField.control_mode c ∧
  cnd_resize_mode d = ControlField.resize_mode c.

(** A call of [prepare_control_image] for a control entry with a target
    width and height. *)
Definition prepares `{Runtime} (do_classifier_free_guidance : bool)
    (width height : Z) (c : ControlField.t) (call : Call) : Prop :=
  ∃ img device dtype,
    call = CallPrepareControlImage img do_classifier_free_guidance width height
             device dtype (ControlField.control_mode c) (ControlField.resize_mode c).

(** The item made for a control entry: it holds the ControlNet the model
    manager hands out for the entry, and its image tensor is what
    [prepare_control_image] returns for the entry's image at a target
    width and height, on the ControlNet's device and in its dtype. *)
Definition prepared `{Runtime} (context : InvocationContext)
    (do_classifier_free_guidance : bool) (width height : Z)
    (c : ControlField.t) (d : ControlNetData) : Prop :=
  ∃ cn img,
    get_model (services context) (controlnet_info (ControlField.control_model c))
    = Ok (ControlNet cn) ∧
    get_pil_image (services context) (ImageField.image_name (ControlField.image c))
    = Ok img ∧
    cnd_model d = cn ∧
    cnd_image_tensor d
    = prepare_control_image img do_classifier_free_guidance width height
        (cn_device cn) (cn_dtype cn)
        (ControlField.control_mode c) (ControlField.resize_mode c).

(** A recorded [prepare_control_image] call and the item that holds what
    the call returned. *)
Definition prepared_by `{Runtime} (do_classifier_free_guidance : bool)
    (width height : Z) (call : Call) (d : ControlNetData) : Prop :=
  ∃ img,
    call = CallPrepareControlImage img do_classifier_free_guidance width height
             (cn_device (cnd_model d)) (cn_dtype (cnd_model d))
             (cnd_control_mode d) (cnd_resize_mode d) ∧
    cnd_image_tensor d
    = prepare_control_image img do_classifier_free_guidance width height
        (cn_device (cnd_model d)) (cn_dtype (cnd_model d))
        (cnd_control_mode d) (cnd_resize_mode d).

(** ** The invocations as the specification words them *)

(** The latents store of a world holds tensor [t] under the name of field
    [field]. *)
Definition stored `{Runtime} (w : World) (field : LatentsField.t) (t : Tensor) : Prop :=
  ∃ name, LatentsField.latents_name field = Some name ∧ latents_store w !! name = Some t.

(** The name invocations save their result under:
    ['<graph_execution_state_id>__<node id>']. *)
Definition result_name `{Runtime} (context : InvocationContext) (id : string) : string :=
  graph_execution_state_id context +:+ "__" +:+ id.

(** The seed of the denoising node: the seed the noise field carries,
    else the seed the latents field carries, else 0. *)
Definition resolved_seed (self : DenoiseLatentsInvocation.t) : Z :=
  match DenoiseLatentsInvocation.noise self ≫= LatentsField.seed with
  | Some seed => seed
  | None =>
      match DenoiseLatentsInvocation.latents self ≫= LatentsField.seed with
      | Some seed => seed
      | None => 0
      end
  end.

(** The seed rule as the specification words it: a noise field, when
    provided, decides the seed; otherwise a latents field, when provided,
    does; otherwise the seed is 0.  Without a latents field the initial
    latents are the zeros of the noise tensor. *)
Definition seed_claim `{Runtime} (self : DenoiseLatentsInvocation.t)
    (context : InvocationContext) (w : World) : Prop :=
  ∀ seed noise latents w',
    DenoiseLatentsInvocation.invoke_seed_noise_latents self context w
    = Ok ((seed, noise, latents), w') →
    match DenoiseLatentsInvocation.noise self, DenoiseLatentsInvocation.latents self with
    | Some noise_field, _ => LatentsField.seed noise_field = Some seed
    | None, Some latents_field => LatentsField.seed latents_field = Some seed
    | None, None => seed = 0
    end ∧
    (DenoiseLatentsInvocation.latents self = None →
     ∃ noise_tensor, noise = Some noise_tensor ∧ latents = zeros_like noise_tensor).

(** The same context with another [configuration.tiled_decode]. *)
Definition with_tiled_decode `{Runtime} (b : bool) (context : InvocationContext)
    : InvocationContext :=
  {| services :=
       {| get_model := get_model (services context);
          get_pil_image := get_pil_image (services context);
          images_create := images_create (services context);
          tiled_decode := b |};
     graph_execution_state_id := graph_execution_state_id context |}.

(** The values a [cfg_scale] holds. *)
Definition cfg_scale_values (v : float_or_list) : list float :=
  match v with
  | OneFloat f => [f]
  | FloatList l => l
  end.

(** ** Concrete collaborators, for running the model *)

(** Evenly spaced timesteps [(steps-1)*r, ..., r, 0] with
    [r = num_train_timesteps // steps], as DDIM's leading spacing. *)
Definition leading_timesteps (s : Scheduler) (steps : Z) : list Z :=
  match config s !! "num_train_timesteps" with
  | Some (VInt n) =>
      reverse ((λ i, Z.of_nat i * (n / steps)) <$> seq 0 (Z.to_nat steps))
  | _ => []
  end.

Definition make_scheduler (cls : string) (cfg : gmap string cfg_val) : Scheduler :=
  {| sched_class := cls;
     order := if String.eqb cls "HeunDiscreteScheduler" then 2 else 1;
     config := cfg;
     timesteps := [];
     uses_inpainting_model := None |}.

Definition leading_diffusers : Diffusers :=
  {| set_timesteps := λ s steps _, leading_timesteps s steps;
     from_config := make_scheduler |}.

(** A scheduler library that hands the same timesteps out in increasing
    order. *)
Definition ascending_diffusers : Diffusers :=
  {| set_timesteps := λ s steps _, reverse (leading_timesteps s steps);
     from_config := make_scheduler |}.

Definition ddim_1000 : Scheduler :=
  make_scheduler "DDIMScheduler" {[ "num_train_timesteps" := VInt 1000 ]}.

Definition heun_1000 : Scheduler :=
  make_scheduler "HeunDiscreteScheduler" {[ "num_train_timesteps" := VInt 1000 ]}.

(** A small tensor runtime: a tensor is its shape, device and dtype with
    the list of operations that produced it. *)
Record toy_tensor : Type := {
  tt_shape : list Z;
  tt_device : Device;
  tt_dtype : Dtype;
  tt_ops : list string;
}.

Definition toy_op (op : string) (t : toy_tensor) : toy_tensor :=
  {| tt_shape := tt_shape t;
     tt_device := tt_device t;
     tt_dtype := tt_dtype t;
     tt_ops := tt_ops t ++ [op] |}.

Definition toy_reshape (shape : list Z) (t : toy_tensor) : toy_tensor :=
  {| tt_shape := shape;
     tt_device := tt_device t;
     tt_dtype := tt_dtype t;
     tt_ops := tt_ops t |}.

Definition toy_to (device : option Device) (dtype : option Dtype)
    (t : toy_tensor) : toy_tensor :=
  {| tt_shape := tt_shape t;
     tt_device := default (tt_device t) device;
     tt_dtype := default (tt_dtype t) dtype;
     tt_ops := tt_ops t |}.

(** [floor(n * f)] for a non-negative product, as [interpolate] sizes its
    output for a scale factor. *)
Definition toy_scaled_dim (n : Z) (f : float) : Z :=
  match float_of_int n with
  | Ok x =>
      match Prim2SF (x * f)%float with
      | S754_finite false m e =>
          if 0 <=? e then Z.pos m * 2 ^ e else Z.pos m / 2 ^ (- e)
      | _ => 0
      end
  | Raise _ => 0
  end.

(** Two spatial dimensions are resized only on a rank-4 input, and not in
    the [linear] and [trilinear] modes. *)
Definition toy_interpolate (t : toy_tensor) (target : InterpolateTarget)
    (mode : InterpolationMode) (antialias : bool) : result toy_tensor :=
  match mode, tt_shape t with
  | (linear | trilinear), _ => Raise (ExternalError "interpolate")
  | _, [b; c; h; w] =>
      let shape :=
        match target with
        | TargetSize h' w' => [b; c; h'; w']
        | TargetScaleFactor f => [b; c; toy_scaled_dim h f; toy_scaled_dim w f]
        end in
      Ok (toy_op (if antialias then "interpolate(antialias)" else "interpolate")
            (toy_reshape shape t))
  | _, _ => Raise (ExternalError "interpolate")
  end.

Definition toy_runtime : Runtime :=
  {| Tensor := toy_tensor;
     PILImage := string;
     tensor_size := tt_shape;
     tensor_dtype := tt_dtype;
     tensor_to := toy_to;
     zeros_like := λ t,
       {| tt_shape := tt_shape t; tt_device := tt_device t;
          tt_dtype := tt_dtype t; tt_ops := ["zeros_like"] |};
     interpolate := toy_interpolate;
     div_scalar := λ t _, toy_op "div" t;
     add_scalar := λ t _, toy_op "add" t;
     scalar_mul := λ _ t, toy_op "mul" t;
     clamp := λ _ _ t, toy_op "clamp" t;
     rearrange_chw_1chw := λ t, toy_reshape (1 :: tt_shape t) t;
     vae_decode := λ v t,
       match tt_shape t with
       | [b; _; h; w] => toy_op "decode" (toy_reshape [b; 3; h * 8; w * 8] t)
       | _ => toy_op "decode" t
       end;
     vae_encode_sample := λ v t,
       match tt_shape t with
       | [b; _; h; w] => toy_op "encode" (toy_reshape [b; 4; h / 8; w / 8] t)
       | _ => toy_op "encode" t
       end;
     numpy_to_pil := λ t, "decoded";
     convert := λ img _, img;
     image_resized_to_grid_as_tensor := λ img,
       {| tt_shape := [3; 512; 512]; tt_device := Cpu; tt_dtype := Float32;
          tt_ops := [img] |};
     prepare_control_image := λ img _ w h device dtype _ _,
       {| tt_shape := [2; 3; h; w]; tt_device := device; tt_dtype := dtype;
          tt_ops := [img] |};
     choose_torch_device := Cuda 0 |}.

Definition toy_vae : Vae :=
  {| vae_device := Cuda 0;
     vae_dtype := Float16;
     post_quant_conv_dtype := Float16;
     decoder_conv_in_dtype := Float16;
     decoder_mid_block_dtype := Float16;
     attn_processor := AttnProcessor2_0;
     use_tiling := false;
     scaling_factor := 0.25 |}.

Definition toy_controlnet : ControlNetModel :=
  {| cn_device := Cuda 0; cn_dtype := Float16; cn_weights := "canny" |}.

(** A model manager holding one scheduler (saved with a [_backup] of its
    original configuration), one VAE and one ControlNet. *)
Definition toy_get_model (info : ModelInfo.t) : result Model :=
  if String.eqb (ModelInfo.model_type info) "controlnet" then
    if String.eqb (ModelInfo.model_name info) "canny"
    then Ok (ControlNet toy_controlnet)
    else Raise (ExternalError "get_model")
  else if String.eqb (ModelInfo.model_type info) "vae" then Ok (VaeModel toy_vae)
  else if String.eqb (ModelInfo.model_type info) "scheduler" then
    Ok (SchedulerModel
          (make_scheduler "PNDMScheduler"
             {[ "num_train_timesteps" := VInt 1000;
                "skip_prk_steps" := VBool true;
                "_backup" := VDict {[ "num_train_timesteps" := VInt 1000 ]} ]}))
  else Raise (ExternalError "get_model").

Definition toy_services : @InvocationServices toy_runtime :=
  @Build_InvocationServices toy_runtime
    toy_get_model
    (λ name, Ok name)
    (λ _ _ _ node_id _ _ _,
       {| dto_image_name := node_id; dto_width := 512; dto_height := 512 |})
    false.

Definition toy_context : @InvocationContext toy_runtime :=
  {| services := toy_services;
     graph_execution_state_id := "session" |}.

Definition toy_scheduler_map : gmap string (string * gmap string cfg_val) :=
  {[ "ddim" := ("DDIMScheduler", ∅);
     "heun" := ("HeunDiscreteScheduler", ∅);
     "dpmpp_2m_k" := ("DPMSolverMultistepScheduler",
                      {[ "use_karras_sigmas" := VBool true ]}) ]}.

Definition toy_model_info (model_type : string) : ModelInfo.t :=
  {| ModelInfo.model_name := "stable-diffusion-v1-5";
     ModelInfo.base_model := "sd-1";
     ModelInfo.model_type := model_type;
     ModelInfo.submodel := Some model_type |}.

Definition toy_control (image : string) (weight : float) : ControlField.t :=
  {| ControlField.image := {| ImageField.image_name := image |};
     ControlField.control_model :=
       {| ControlNetModelField.model_name := "canny";
          ControlNetModelField.base_model := "sd-1" |};
     ControlField.control_weight := OneFloat weight;
     ControlField.begin_step_percent := 0;
     ControlField.end_step_percent := 1;
     ControlField.control_mode := "balanced";
     ControlField.resize_mode := "just_resize" |}.

Definition empty_world : @World toy_runtime :=
  {| latents_store := ∅; trace := [] |}.

Definition toy_latents (h w : Z) : toy_tensor :=
  {| tt_shape := [1; 4; h; w]; tt_device := Cpu; tt_dtype := Float32; tt_ops := [] |}.

(** A world whose store holds a 64x96 latent under ["latents"] and a noise
    tensor of the same shape under ["noise"]. *)
Definition toy_world : @World toy_runtime :=
  {| latents_store :=
       {[ "latents" := toy_latents 64 96;
          "noise" := toy_op "randn" (toy_latents 64 96) ]};
     trace := [] |}.

Definition toy_field (name : string) (seed : option Z) : LatentsField.t :=
  {| LatentsField.latents_name := Some name; LatentsField.seed := seed |}.

Definition toy_denoise (noise latents : option LatentsField.t)
    : DenoiseLatentsInvocation.t :=
  {| DenoiseLatentsInvocation.id := "denoise";
     DenoiseLatentsInvocation.noise := noise;
     DenoiseLatentsInvocation.steps := 10;
     DenoiseLatentsInvocation.denoising_start := 0;
     DenoiseLatentsInvocation.denoising_end := 1;
     DenoiseLatentsInvocation.scheduler := "euler";
     DenoiseLatentsInvocation.control := PyNone;
     DenoiseLatentsInvocation.latents := latents;
     DenoiseLatentsInvocation.mask := None |}.

Definition toy_resize (mode : InterpolationMode) (antialias : bool)
    : ResizeLatentsInvocation.t :=
  {| ResizeLatentsInvocation.id := "resize";
     ResizeLatentsInvocation.latents := Some (toy_field "latents" (Some 42));
     ResizeLatentsInvocation.width := Some 516;
     ResizeLatentsInvocation.height := Some 260;
     ResizeLatentsInvocation.mode := mode;
     ResizeLatentsInvocation.antialias := antialias |}.

Definition toy_scale (mode : InterpolationMode) (antialias : bool)
    : ScaleLatentsInvocation.t :=
  {| ScaleLatentsInvocation.id := "scale";
     ScaleLatentsInvocation.latents := Some (toy_field "latents" (Some 42));
     ScaleLatentsInvocation.scale_factor := 0.5;
     ScaleLatentsInvocation.mode := mode;
     ScaleLatentsInvocation.antialias := antialias |}.

Definition toy_l2i (tiled : bool) : LatentsToImageInvocation.t :=
  {| LatentsToImageInvocation.id := "l2i";
     LatentsToImageInvocation.is_intermediate := false;
     LatentsToImageInvocation.latents := Some (toy_field "latents" None);
     LatentsToImageInvocation.vae := Some {| VaeField.vae := toy_model_info "vae" |};
     LatentsToImageInvocation.tiled := tiled;
     LatentsToImageInvocation.fp32 := false;
     LatentsToImageInvocation.metadata := None |}.

Definition toy_i2l (tiled : bool) : ImageToLatentsInvocation.t :=
  {| ImageToLatentsInvocation.id := "i2l";
     ImageToLatentsInvocation.image := Some {| ImageField.image_name := "photo" |};
     ImageToLatentsInvocation.vae := Some {| VaeField.vae := toy_model_info "vae" |};
     ImageToLatentsInvocation.tiled := tiled;
     ImageToLatentsInvocation.fp32 := true |}.

(** The same services with a model manager that hands out scheduler [s]
    for every key. *)
Definition toy_context_with_scheduler (s : Scheduler) : @InvocationContext toy_runtime :=
  {| services :=
       @Build_InvocationServices toy_runtime
         (λ _, Ok (SchedulerModel s))
         (λ name, Ok name)
         (λ _ _ _ node_id _ _ _,
            {| dto_image_name := node_id; dto_width := 512; dto_height := 512 |})
         false;
     graph_execution_state_id := "session" |}.

(** The mask and conditioning side of the small runtime: a conditioning
    is its name, scheduler arguments are the generator seeds added. *)
Definition toy_denoise_runtime : @DenoiseRuntime toy_runtime :=
  @Build_DenoiseRuntime toy_runtime
    (λ img, if String.eqb img "mask" then "L" else "RGB")
    (λ img,
       {| tt_shape := [1; 512; 768]; tt_device := Cpu; tt_dtype := Float32;
          tt_ops := [img] |})
    (λ t, toy_reshape (1 :: tt_shape t) t)
    (λ t size,
       toy_op "resize"
         (toy_reshape (take (length (tt_shape t) - 2) (tt_shape t) ++ size) t))
    (toy_op "one_minus")
    string string (list Z) unit
    (λ _ _ c, c)
    (λ c, "extra of " +:+ c)
    [].

Definition toy_unet : Unet :=
  {| unet_device := Cuda 0; unet_dtype := Float16; unet_weights := "unet";
     unet_loras := [] |}.

(** A backend that knows the conditionings ["positive"] and ["negative"],
    maps the node ["denoise"] to its source node, and whose sampler marks
    the latents it was given. *)
Definition toy_backend : @DenoiseBackend toy_runtime toy_denoise_runtime :=
  @Build_DenoiseBackend toy_runtime toy_denoise_runtime
    (λ _, Ok toy_unet)
    (λ info, Ok (ModelInfo.model_name info))
    (λ name,
       if String.eqb name "positive" || String.eqb name "negative"
       then Ok [name] else Raise (ExternalError "latents.get"))
    (λ _, Ok {[ "denoise" := "source" ]})
    (λ unet loras,
       Ok {| unet_device := unet_device unet; unet_dtype := unet_dtype unet;
             unet_weights := unet_weights unet; unet_loras := loras |})
    (λ data _ _ generator,
       {| unconditioned_embeddings := unconditioned_embeddings data;
          text_embeddings := text_embeddings data;
          guidance_scale := guidance_scale data;
          extra := extra data;
          postprocessing_settings := postprocessing_settings data;
          scheduler_args := [generator_seed generator] |})
    (λ call, Ok (toy_op "denoise" (call_latents call), ())).

Definition toy_denoise_inputs : DenoiseLatentsInvocation.t :=
  {| DenoiseLatentsInvocation.id := "denoise";
     DenoiseLatentsInvocation.noise := Some (toy_field "noise" (Some 7));
     DenoiseLatentsInvocation.steps := 10;
     DenoiseLatentsInvocation.denoising_start := 0.25;
     DenoiseLatentsInvocation.denoising_end := 0.75;
     DenoiseLatentsInvocation.scheduler := "euler";
     DenoiseLatentsInvocation.control := PyControlField (toy_control "edges" 1);
     DenoiseLatentsInvocation.latents := None;
     DenoiseLatentsInvocation.mask := Some {| ImageField.image_name := "mask" |} |}.

Definition toy_denoise_node : DenoiseLatents.t :=
  {| DenoiseLatents.inputs := toy_denoise_inputs;
     DenoiseLatents.positive_conditioning :=
       Some {| ConditioningField.conditioning_name := "positive" |};
     DenoiseLatents.negative_conditioning :=
       Some {| ConditioningField.conditioning_name := "negative" |};
     DenoiseLatents.cfg_scale := OneFloat 7.5;
     DenoiseLatents.unet :=
       Some {| UNetField.unet := toy_model_info "unet";
               UNetField.scheduler := toy_model_info "scheduler";
               UNetField.loras :=
                 [{| LoraInfo.info := toy_model_info "lora"; LoraInfo.weight := 0.75 |}] |} |}.

(** * Properties *)

(** ** The numeric helpers on examples *)

Example round_ties_to_even :
  round 0.5 = Ok 0 ∧ round 1.5 = Ok 2 ∧ round 2.5 = Ok 2 ∧
  round (-2.5) = Ok (-2) ∧ round 2.75 = Ok 3 ∧ round (-0.25) = Ok 0.
Proof. repeat split; reflexivity. Qed.

Example round_exceptions :
  round infinity = Raise OverflowError ∧ round nan = Raise ValueError.
Proof. split; reflexivity. Qed.

Example float_of_int_exact :
  float_of_int 1000 = Ok 1000%float ∧ float_of_int (2 ^ 1024) = Raise OverflowError.
Proof. split; reflexivity. Qed.

Example t_val_ddim_1000 :
  t_val ddim_1000 0 = Ok 1000 ∧ t_val ddim_1000 0.25 = Ok 750 ∧
  t_val ddim_1000 1 = Ok 0.
Proof. repeat split; reflexivity. Qed.

(** A second-order scheduler loses one more timestep at the start, keeps
    one more at the end, and counts two timesteps per step. *)
Example init_scheduler_heun :
  @init_scheduler leading_diffusers heun_1000 Cpu 10 0.25 0.75
  = Ok ((3, [600; 500; 400; 300; 200], [600]),
        with_timesteps heun_1000 [900; 800; 700; 600; 500; 400; 300; 200; 100; 0]).
Proof. reflexivity. Qed.

(** ** Timestep windowing *)

Section window_lemmas.
Implicit Types (l : list Z) (t x : Z).

Lemma descending_cons x l :
  descending (x :: l) → Forall (λ y, y ≤ x) l ∧ descending l.
Proof.
  unfold descending. intros Hs. split.
  - apply Sorted_StronglySorted in Hs; [| intros a b c; lia].
    inversion Hs; subst. done.
  - by inversion Hs.
Qed.

Lemma filter_below_nil t x l :
  x < t → Forall (λ y, y ≤ x) l → filter (λ ts, t ≤ ts) l = [].
Proof.
  intros Hx Hall. induction Hall as [| y l Hy _ IH]; [done |].
  rewrite filter_cons_False; [done | lia].
Qed.

Lemma drop_count_descending t l :
  descending l →
  drop (length (filter (λ ts, t ≤ ts) l)) l
  = drop_while (λ ts, bool_decide (t ≤ ts)) l.
Proof.
  induction l as [| x l IH]; [done |]. intros Hs.
  apply descending_cons in Hs as [Hall Hs]. simpl.
  case_bool_decide as Hx.
  - rewrite filter_cons_True by done. simpl. by apply IH.
  - rewrite filter_cons_False by done.
    rewrite (filter_below_nil t x l) by (done || lia). done.
Qed.

Lemma take_count_descending t l :
  descending l →
  take (length (filter (λ ts, t ≤ ts) l)) l = filter (λ ts, t ≤ ts) l.
Proof.
  induction l as [| x l IH]; [done |]. intros Hs.
  apply descending_cons in Hs as [Hall Hs].
  destruct (decide (t ≤ x)) as [Hx | Hx].
  - rewrite filter_cons_True by done. simpl. f_equal. by apply IH.
  - rewrite filter_cons_False by done.
    rewrite (filter_below_nil t x l) by (done || lia). done.
Qed.

Lemma drop_while_descending (p : Z → bool) l :
  descending l → descending (drop_while p l).
Proof.
  induction l as [| x l IH]; [done |]. intros Hs. simpl.
  destruct (p x); [| done].
  apply IH. by apply descending_cons in Hs as [_ Hs].
Qed.
End window_lemmas.

Section scheduler_properties.
Context `{Diffusers}.

Lemma t_val_with_timesteps s ts d :
  t_val (with_timesteps s ts) d = t_val s d.
Proof. reflexivity. Qed.

(** C1 (amended): for a first-order scheduler whose timesteps never
    increase, [init_scheduler] returns exactly the window of the
    specification: the leading timesteps at or above [t_start_val] are
    dropped, of the remainder exactly those at or above [t_end_val] are
    kept, in their order, and [init_timestep] is the head of the
    remainder. *)
Theorem init_scheduler_window s device steps denoising_start denoising_end
    t_start_val t_end_val :
  order s = 1 →
  descending (installed_timesteps s device steps) →
  t_val s denoising_start = Ok t_start_val →
  t_val s denoising_end = Ok t_end_val →
  let window :=
    timestep_window (installed_timesteps s device steps) t_start_val t_end_val in
  init_scheduler s device steps denoising_start denoising_end
  = Ok ((Z.of_nat (length window.1), window.1, window.2),
        with_timesteps s (installed_timesteps s device steps)).
Proof.
  intros Hord Hdesc Hstart Hend window.
  unfold init_scheduler. fold (installed_timesteps s device steps).
  rewrite !t_val_with_timesteps, Hstart, Hend. simpl.
  rewrite Hord.
  rewrite !bool_decide_eq_false_2 by (intros ?; lia).
  rewrite drop_count_descending by done.
  rewrite take_count_descending by (by apply drop_while_descending).
  reflexivity.
Qed.

End scheduler_properties.

(** C1, as worded, fails on a scheduler whose timesteps increase:
    with timesteps [0; 100; ...; 900], [t_start_val = 1000] and
    [t_end_val = 250] the code keeps the first seven timesteps,
    [0 .. 600], where the wording asks for [300 .. 900]. *)
Lemma window_claim_fails_on_ascending_timesteps :
  ¬ @window_claim ascending_diffusers ddim_1000 Cpu 10 0 0.75.
Proof.
  intros Hclaim.
  destruct (Hclaim 1000 250 eq_refl eq_refl eq_refl) as (n & s' & Heq).
  vm_compute in Heq. discriminate Heq.
Qed.

Lemma init_scheduler_window_witness :
  @init_scheduler leading_diffusers ddim_1000 Cpu 10 0.25 0.75
  = Ok ((5, [700; 600; 500; 400; 300], [700]),
        with_timesteps ddim_1000 [900; 800; 700; 600; 500; 400; 300; 200; 100; 0]).
Proof.
  apply (@init_scheduler_window leading_diffusers ddim_1000 Cpu 10 0.25 0.75 750 250).
  - reflexivity.
  - change (descending [900; 800; 700; 600; 500; 400; 300; 200; 100; 0]).
    unfold descending. repeat constructor; lia.
  - reflexivity.
  - reflexivity.
Defined.


(** ** Scheduler selection *)

Section get_scheduler_properties.
Context `{Runtime, Diffusers}.
Variable SCHEDULER_MAP : gmap string (string * gmap string cfg_val).

(** C2: [get_scheduler] looks the name up in [SCHEDULER_MAP], taking the
    ["ddim"] entry for a name that is not there, and builds the scheduler
    of the entry's class from the original configuration (its ["_backup"]
    when it has one) overridden by the entry's extra configuration, with
    the configuration before the merge stored under ["_backup"]. *)
Theorem get_scheduler_spec context scheduler_info scheduler_name ddim orig :
  SCHEDULER_MAP !! "ddim" = Some ddim →
  get_model (services context) scheduler_info = Ok (SchedulerModel orig) →
  (∀ v, config orig !! "_backup" = Some v → ∃ d, v = VDict d) →
  let entry := default ddim (SCHEDULER_MAP !! scheduler_name) in
  let base :=
    match config orig !! "_backup" with
    | Some (VDict d) => d
    | _ => config orig
    end in
  (SCHEDULER_MAP !! scheduler_name = None → entry = ddim) ∧
  (∀ e, SCHEDULER_MAP !! scheduler_name = Some e → entry = e) ∧
  ∃ merged,
    merged !! "_backup" = Some (VDict base) ∧
    (∀ k, k ≠ "_backup" →
       merged !! k = match entry.2 !! k with
                     | Some v => Some v
                     | None => base !! k
                     end) ∧
    get_scheduler SCHEDULER_MAP context scheduler_info scheduler_name
    = Ok (let scheduler := from_config entry.1 merged in
          match uses_inpainting_model scheduler with
          | None => with_uses_inpainting_model scheduler false
          | Some _ => scheduler
          end).
Proof.
  intros Hddim Hmodel Hbackup entry base.
  split; [| split].
  - intros Hnone. unfold entry. by rewrite Hnone.
  - intros e Hsome. unfold entry. by rewrite Hsome.
  - exists (<["_backup" := VDict base]> (entry.2 ∪ base)).
    split; [by rewrite lookup_insert_eq |]. split.
    + intros k Hk. rewrite lookup_insert_ne by done.
      rewrite lookup_union. by destruct (entry.2 !! k), (base !! k).
    + unfold get_scheduler, getitem. rewrite Hddim. simpl.
      fold entry. destruct entry as [scheduler_class scheduler_extra_config].
      rewrite Hmodel. simpl. subst base.
      destruct (config orig !! "_backup") as [v |] eqn:Hv; simpl.
      * destruct (Hbackup v eq_refl) as [d ->]. reflexivity.
      * reflexivity.
Qed.
End get_scheduler_properties.

Lemma get_scheduler_spec_witness :
  @get_scheduler toy_runtime leading_diffusers toy_scheduler_map toy_context
    (toy_model_info "scheduler") "no_such_sampler"
  = Ok (with_uses_inpainting_model
          (make_scheduler "DDIMScheduler"
             {[ "num_train_timesteps" := VInt 1000;
                "_backup" := VDict {[ "num_train_timesteps" := VInt 1000 ]} ]})
          false).
Proof.
  pose proof (@get_scheduler_spec toy_runtime leading_diffusers toy_scheduler_map
    toy_context (toy_model_info "scheduler") "no_such_sampler"
    ("DDIMScheduler", ∅)
    (make_scheduler "PNDMScheduler"
       {[ "num_train_timesteps" := VInt 1000;
          "skip_prk_steps" := VBool true;
          "_backup" := VDict {[ "num_train_timesteps" := VInt 1000 ]} ]})
    eq_refl eq_refl) as Hspec.
  destruct Hspec as (_ & _ & merged & Hbackup & Hother & Heq).
  - intros v Hv. vm_compute in Hv. injection Hv as <-. by eexists.
  - rewrite Heq. clear Heq.
    assert (merged = {[ "num_train_timesteps" := VInt 1000;
                        "_backup" := VDict {[ "num_train_timesteps" := VInt 1000 ]} ]})
      as ->; [| reflexivity].
    apply map_eq. intros k. destruct (decide (k = "_backup")) as [-> | Hk].
    + rewrite Hbackup. reflexivity.
    + rewrite (Hother k Hk).
      change (match (∅ : gmap string cfg_val) !! k with
              | Some v => Some v
              | None => ({[ "num_train_timesteps" := VInt 1000 ]}
                         : gmap string cfg_val) !! k
              end
              = ({[ "num_train_timesteps" := VInt 1000;
                    "_backup" := VDict {[ "num_train_timesteps" := VInt 1000 ]} ]}
                 : gmap string cfg_val) !! k).
      rewrite lookup_empty.
      destruct (decide (k = "num_train_timesteps")) as [-> | Hk']; [reflexivity |].
      rewrite lookup_insert_ne by done.
      rewrite !lookup_singleton_ne by done. reflexivity.
Defined.

(** ** Control data *)

Ltac run_M :=
  unfold mbind, M_bind, mret, M_ret, lift, record; simpl.

Section monad_lemmas.
Context `{Runtime}.

Lemma M_bind_inv {A B : Type} (m : M A) (f : A → M B) (w : World) r :
  (m ≫= f) w = Ok r → ∃ a w1, m w = Ok (a, w1) ∧ f a w1 = Ok r.
Proof.
  unfold mbind, M_bind. destruct (m w) as [[a w1] |]; [| done]. by eexists _, _.
Qed.

Lemma lift_inv {A : Type} (x : result A) (w : World) a w1 :
  lift x w = Ok (a, w1) → x = Ok a ∧ w1 = w.
Proof. unfold lift. destruct x; [| done]. by intros [= -> ->]. Qed.
End monad_lemmas.

(** One step of a run that returned: the first action returned too. *)
Ltac bind_inv H :=
  apply M_bind_inv in H as (? & ? & ? & H);
  repeat match goal with x : (_ * _)%type |- _ => destruct x end;
  cbv beta iota zeta in H.

Section control_properties.
Context `{Runtime}.
Implicit Types (context : InvocationContext) (cfs : list ControlField.t).

Lemma control_list_of_fields cfs :
  cfs ≠ [] →
  control_list_of (PyList (PyControlField <$> cfs)) = Some (PyControlField <$> cfs).
Proof. by destruct cfs. Qed.

(** The loop over a list of control entries that all load: one item and
    one [prepare_control_image] call per entry, in order, the item holding
    what the call returned. *)
Lemma prep_control_loop_spec context cfs wd ht cfg data models stack w :
  Forall (control_loads context) cfs →
  ∃ items entered calls,
    prep_control_loop context (PyControlField <$> cfs) wd ht cfg data models stack w
    = Ok ((data ++ items, stack ++ entered),
          {| latents_store := latents_store w; trace := trace w ++ calls |}) ∧
    Forall2 carries cfs items ∧
    Forall2 (prepares cfg wd ht) cfs calls ∧
    Forall2 (prepared context cfg wd ht) cfs items.
Proof.
  intros Hloads. revert data models stack w.
  induction Hloads as [| c cfs [[m Hm] [img Himg]] _ IH]; intros data models stack w.
  - exists [], [], []. rewrite !app_nil_r. by destruct w.
  - simpl. run_M. rewrite Hm, Himg. simpl.
    edestruct IH as (items & entered & calls & -> & Hitems & Hcalls & Hprepared).
    eexists (_ :: items), (_ :: entered), (_ :: calls).
    simpl. rewrite <- !app_assoc. simpl. split; [reflexivity |].
    split; [by constructor |]. split; constructor; try done.
    + by repeat eexists.
    + by exists m, img.
Qed.

(** C4: control input is optional.  [prep_control_data] returns [None]
    for [None], for the empty list and for any value that is neither a
    [ControlField] nor a list that starts with one; a single
    [ControlField] is handled as the one-element list; and a non-empty list
    of [ControlField]s gives one [ControlNetData] per entry, in order,
    carrying the entry's weight, step percents, control mode and resize
    mode. *)
Theorem prep_control_data_spec context latents_shape exit_stack cfg w ht wd :
  latents_shape !! 2%nat = Some ht →
  latents_shape !! 3%nat = Some wd →
  prep_control_data context PyNone latents_shape exit_stack cfg w
  = Ok ((None, exit_stack), w) ∧
  prep_control_data context (PyList []) latents_shape exit_stack cfg w
  = Ok ((None, exit_stack), w) ∧
  (∀ v, (∀ c, v ≠ PyControlField c) → (∀ c l, v ≠ PyList (PyControlField c :: l)) →
     prep_control_data context v latents_shape exit_stack cfg w
     = Ok ((None, exit_stack), w)) ∧
  (∀ c, prep_control_data context (PyControlField c) latents_shape exit_stack cfg w
        = prep_control_data context (PyList [PyControlField c]) latents_shape
            exit_stack cfg w) ∧
  (∀ cfs, cfs ≠ [] → Forall (control_loads context) cfs →
     ∃ control_data exit_stack' w',
       prep_control_data context (PyList (PyControlField <$> cfs)) latents_shape
         exit_stack cfg w
       = Ok ((Some control_data, exit_stack'), w') ∧
       Forall2 carries cfs control_data).
Proof.
  intros Hht Hwd.
  assert (∀ v, control_list_of v = None →
            prep_control_data context v latents_shape exit_stack cfg w
            = Ok ((None, exit_stack), w)) as Hnone.
  { intros v Hv. unfold prep_control_data, index. rewrite Hht, Hwd. run_M.
    by rewrite Hv. }
  split; [by apply Hnone |]. split; [by apply Hnone |]. split; [| split].
  - intros v Hfield Hlist. apply Hnone.
    destruct v as [| c | [| [| c | |] l] |]; try done.
    + by destruct (Hfield c).
    + by destruct (Hlist c l).
  - reflexivity.
  - intros cfs Hne Hloads.
    unfold prep_control_data, index.
    rewrite Hht, Hwd, control_list_of_fields by done. run_M.
    destruct (prep_control_loop_spec context cfs (wd * 8) (ht * 8) cfg [] []
                exit_stack w Hloads) as (items & entered & calls & -> & Hitems & _).
    simpl. by eexists _, _, _.
Qed.

(** C5: the control image of every control entry is prepared at eight
    pixels per latent.  The image tensor of the item returned for an entry
    is what [prepare_control_image] gives for the entry's image with
    [width = latents_shape[3] * 8] and [height = latents_shape[2] * 8];
    and one such call per entry, with that width and height, is
    recorded. *)
Theorem prep_control_data_image_size context control_input latents_shape
    exit_stack cfg w ht wd cfs :
  latents_shape !! 2%nat = Some ht →
  latents_shape !! 3%nat = Some wd →
  control_list_of control_input = Some (PyControlField <$> cfs) →
  Forall (control_loads context) cfs →
  ∃ control_data exit_stack' w' calls,
    prep_control_data context control_input latents_shape exit_stack cfg w
    = Ok ((Some control_data, exit_stack'), w') ∧
    Forall2 (prepared context cfg (wd * 8) (ht * 8)) cfs control_data ∧
    trace w' = trace w ++ calls ∧
    Forall2 (prepares cfg (wd * 8) (ht * 8)) cfs calls.
Proof.
  intros Hht Hwd Hlist Hloads.
  unfold prep_control_data, index. rewrite Hht, Hwd. run_M. rewrite Hlist.
  destruct (prep_control_loop_spec context cfs (wd * 8) (ht * 8) cfg [] []
              exit_stack w Hloads)
    as (items & entered & calls & -> & _ & Hcalls & Hprepared).
  simpl. by eexists _, _, _, calls.
Qed.
End control_properties.

Lemma prep_control_data_spec_witness :
  @prep_control_data toy_runtime toy_context PyNone [1; 4; 64; 96] [] true empty_world
  = Ok ((None, []), empty_world) ∧
  ∃ control_data exit_stack' w',
    @prep_control_data toy_runtime toy_context
      (PyList (PyControlField <$> [toy_control "edges" 1; toy_control "depth" 0.5]))
      [1; 4; 64; 96] [] true empty_world
    = Ok ((Some control_data, exit_stack'), w') ∧
    Forall2 carries [toy_control "edges" 1; toy_control "depth" 0.5] control_data.
Proof.
  destruct (@prep_control_data_spec toy_runtime toy_context [1; 4; 64; 96] [] true
              empty_world 64 96 eq_refl eq_refl) as (Hnone & _ & _ & _ & Hlist).
  split; [exact Hnone |].
  apply Hlist; [done |].
  repeat constructor; by eexists.
Defined.

Lemma prep_control_data_image_size_witness :
  ∃ control_data exit_stack' w' calls,
    @prep_control_data toy_runtime toy_context (PyControlField (toy_control "edges" 1))
      [1; 4; 64; 96] [] true empty_world
    = Ok ((Some control_data, exit_stack'), w') ∧
    Forall2 (prepared toy_context true (96 * 8) (64 * 8)) [toy_control "edges" 1]
      control_data ∧
    trace w' = trace empty_world ++ calls ∧
    Forall2 (prepares true (96 * 8) (64 * 8)) [toy_control "edges" 1] calls.
Proof.
  apply (@prep_control_data_image_size toy_runtime toy_context
           (PyControlField (toy_control "edges" 1)) [1; 4; 64; 96] [] true
           empty_world 64 96 [toy_control "edges" 1]); try reflexivity.
  repeat constructor; by eexists.
Defined.

(** ** Latents outputs, resizing and scaling *)

Section latents_properties.
Context `{Runtime}.
Implicit Types (context : InvocationContext) (w : World).

Lemma latents_get_stored w field t :
  stored w field t → latents_get (LatentsField.latents_name field) w = Ok (t, w).
Proof. intros (name & Hname & Hstore). unfold latents_get. by rewrite Hname, Hstore. Qed.

Lemma latents_get_inv w name t w' :
  latents_get name w = Ok (t, w') →
  w' = w ∧ ∃ n, name = Some n ∧ latents_store w !! n = Some t.
Proof.
  unfold latents_get. destruct name as [n |]; [| done].
  destruct (latents_store w !! n) as [t' |] eqn:Hn; [| done].
  intros [= -> ->]. eauto.
Qed.

Lemma build_latents_output_inv name latents seed out :
  build_latents_output name latents seed = Ok out →
  ∃ wd ht,
    tensor_size latents !! 3%nat = Some wd ∧
    tensor_size latents !! 2%nat = Some ht ∧
    out = {| LatentsOutput.latents :=
               {| LatentsField.latents_name := Some name; LatentsField.seed := seed |};
             LatentsOutput.width := wd * 8;
             LatentsOutput.height := ht * 8 |}.
Proof.
  unfold build_latents_output, index.
  destruct (tensor_size latents !! 3%nat) as [wd |]; [| done].
  destruct (tensor_size latents !! 2%nat) as [ht |]; [| done].
  simpl. intros [= <-]. eexists _, _. by repeat split.
Qed.

(** What a run of [ResizeLatentsInvocation.invoke] that returns went
    through. *)
Lemma resize_invoke_inv self context w out w' :
  ResizeLatentsInvocation.invoke self context w = Ok (out, w') →
  ∃ field resized input target,
    ResizeLatentsInvocation.latents self = Some field ∧
    latents_store w' = <[result_name context (ResizeLatentsInvocation.id self) := resized]>
                         (latents_store w) ∧
    build_latents_output (result_name context (ResizeLatentsInvocation.id self))
      resized (LatentsField.seed field) = Ok out ∧
    trace w' = trace w ++
      [CallInterpolate input target (ResizeLatentsInvocation.mode self)
         (if mode_in_bilinear_bicubic (ResizeLatentsInvocation.mode self)
          then ResizeLatentsInvocation.antialias self else false);
       CallEmptyCache].
Proof.
  unfold ResizeLatentsInvocation.invoke, ResizeLatentsInvocation.floordiv8, attr_of.
  destruct (ResizeLatentsInvocation.latents self) as [field |]; [| done].
  run_M.
  destruct (latents_get _ w) as [[t w1] |] eqn:Hget; [| done].
  apply latents_get_inv in Hget as [-> _].
  destruct (ResizeLatentsInvocation.height self) as [ht |]; [| done].
  destruct (ResizeLatentsInvocation.width self) as [wd |]; [| done].
  simpl. destruct (interpolate _ _ _ _) as [resized |]; [| done].
  unfold latents_save. simpl.
  destruct (build_latents_output _ _ _) as [out' |] eqn:Hout; [| done].
  intros [= <- <-]. eexists _, _, _, _. repeat split; try done.
  simpl. by rewrite <- app_assoc.
Qed.

Lemma scale_invoke_inv self context w out w' :
  ScaleLatentsInvocation.invoke self context w = Ok (out, w') →
  ∃ field resized input target,
    ScaleLatentsInvocation.latents self = Some field ∧
    latents_store w' = <[result_name context (ScaleLatentsInvocation.id self) := resized]>
                         (latents_store w) ∧
    build_latents_output (result_name context (ScaleLatentsInvocation.id self))
      resized (LatentsField.seed field) = Ok out ∧
    trace w' = trace w ++
      [CallInterpolate input target (ScaleLatentsInvocation.mode self)
         (if mode_in_bilinear_bicubic (ScaleLatentsInvocation.mode self)
          then ScaleLatentsInvocation.antialias self else false);
       CallEmptyCache].
Proof.
  unfold ScaleLatentsInvocation.invoke, attr_of.
  destruct (ScaleLatentsInvocation.latents self) as [field |]; [| done].
  run_M.
  destruct (latents_get _ w) as [[t w1] |] eqn:Hget; [| done].
  apply latents_get_inv in Hget as [-> _].
  destruct (interpolate _ _ _ _) as [resized |]; [| done].
  unfold latents_save. simpl.
  destruct (build_latents_output _ _ _) as [out' |] eqn:Hout; [| done].
  intros [= <- <-]. eexists _, _, _, _. repeat split; try done.
  simpl. by rewrite <- app_assoc.
Qed.

(** C6: [ResizeLatentsInvocation.invoke] interpolates the input latents to
    the spatial size [(height // 8, width // 8)] in the node's mode, saves
    the result under ['<graph_execution_state_id>__<node id>'] and returns
    a [LatentsOutput] for that name whose seed is the seed of the input
    latents field. *)
Theorem resize_invoke_spec self context w field t ht wd resized :
  ResizeLatentsInvocation.latents self = Some field →
  stored w field t →
  ResizeLatentsInvocation.height self = Some ht →
  ResizeLatentsInvocation.width self = Some wd →
  let input := tensor_to (Some choose_torch_device) None t in
  let antialias :=
    if mode_in_bilinear_bicubic (ResizeLatentsInvocation.mode self)
    then ResizeLatentsInvocation.antialias self else false in
  interpolate input (TargetSize (ht / 8) (wd / 8))
    (ResizeLatentsInvocation.mode self) antialias = Ok resized →
  (4 ≤ length (tensor_size (tensor_to (Some Cpu) None resized)))%nat →
  ∃ out w',
    ResizeLatentsInvocation.invoke self context w = Ok (out, w') ∧
    trace w' = trace w ++
      [CallInterpolate input (TargetSize (ht / 8) (wd / 8))
         (ResizeLatentsInvocation.mode self) antialias;
       CallEmptyCache] ∧
    latents_store w' =
      <[graph_execution_state_id context +:+ "__" +:+ ResizeLatentsInvocation.id self
        := tensor_to (Some Cpu) None resized]> (latents_store w) ∧
    LatentsField.latents_name (LatentsOutput.latents out)
    = Some (graph_execution_state_id context +:+ "__" +:+ ResizeLatentsInvocation.id self) ∧
    LatentsField.seed (LatentsOutput.latents out) = LatentsField.seed field.
Proof.
  intros Hfield Hstored Hht Hwd input antialias Hinterp Hrank.
  unfold ResizeLatentsInvocation.invoke, ResizeLatentsInvocation.floordiv8, attr_of.
  rewrite Hfield, Hht, Hwd. run_M.
  rewrite (latents_get_stored _ _ _ Hstored).
  fold input. fold antialias. rewrite Hinterp.
  unfold latents_save, build_latents_output, index. simpl.
  destruct (lookup_lt_is_Some_2 (tensor_size (tensor_to (Some Cpu) None resized)) 3)
    as [d3 ->]; [lia |].
  destruct (lookup_lt_is_Some_2 (tensor_size (tensor_to (Some Cpu) None resized)) 2)
    as [d2 ->]; [lia |].
  simpl. eexists _, _. repeat split. simpl. by rewrite <- app_assoc.
Qed.

(** A run of the encoder node that returns saved a tensor under the
    node's result name and returned the output built for it. *)
Lemma image_to_latents_inv self context w out w' :
  ImageToLatentsInvocation.invoke self context w = Ok (out, w') →
  ∃ saved,
    latents_store w'
    = <[result_name context (ImageToLatentsInvocation.id self) := saved]>
        (latents_store w) ∧
    build_latents_output (result_name context (ImageToLatentsInvocation.id self))
      saved None = Ok out.
Proof.
  unfold ImageToLatentsInvocation.invoke, attr_of.
  destruct (ImageToLatentsInvocation.image self) as [image_field |]; [| done].
  run_M.
  destruct (get_pil_image _ _) as [image |]; [| done]. simpl.
  destruct (ImageToLatentsInvocation.vae self) as [vae_field |]; [| done]. simpl.
  destruct (get_model _ _) as [m |]; [| done]. simpl.
  destruct (as_vae m) as [v |]; [| done]. simpl.
  unfold latents_save. simpl.
  destruct (build_latents_output _ _ _) as [out' |] eqn:Hout; [| done].
  intros [= <- <-]. by eexists.
Qed.

(** A run of the denoising node that returns ended by saving a tensor
    under the node's result name and returning the output built for it. *)
Lemma denoise_invoke_saved `{!DenoiseRuntime, !Diffusers}
    (SCHEDULER_MAP : gmap string (string * gmap string cfg_val))
    (backend : DenoiseBackend) self context w out w' :
  DenoiseLatents.invoke SCHEDULER_MAP backend self context w = Ok (out, w') →
  ∃ saved seed w1,
    latents_store w'
    = <[result_name context (DenoiseLatentsInvocation.id (DenoiseLatents.inputs self))
        := saved]> (latents_store w1) ∧
    build_latents_output
      (result_name context (DenoiseLatentsInvocation.id (DenoiseLatents.inputs self)))
      saved (Some seed) = Ok out.
Proof.
  intros Hrun. unfold DenoiseLatents.invoke in Hrun.
  do 13 bind_inv Hrun.
  apply M_bind_inv in Hrun as ([] & w2 & Hcache & Hrun).
  apply M_bind_inv in Hrun as ([] & w3 & Hsave & Hrun).
  injection Hsave as <-.
  apply lift_inv in Hrun as [Hout ->].
  by eexists _, _, w2.
Qed.

(** C8: a [LatentsOutput] built by [build_latents_output] reports as width
    8 times the tensor's size in dimension 3 and as height 8 times its
    size in dimension 2; so do the outputs of the resize, scale, encoder
    and denoising nodes for the tensor they saved. *)
Theorem build_latents_output_size `{!DenoiseRuntime, !Diffusers}
    (SCHEDULER_MAP : gmap string (string * gmap string cfg_val))
    (backend : DenoiseBackend) context w :
  (∀ name latents seed wd ht,
     tensor_size latents !! 3%nat = Some wd →
     tensor_size latents !! 2%nat = Some ht →
     ∃ out, build_latents_output name latents seed = Ok out ∧
            LatentsOutput.width out = 8 * wd ∧
            LatentsOutput.height out = 8 * ht) ∧
  (∀ self out w',
     ResizeLatentsInvocation.invoke self context w = Ok (out, w') →
     ∃ name saved wd ht,
       LatentsField.latents_name (LatentsOutput.latents out) = Some name ∧
       latents_store w' !! name = Some saved ∧
       tensor_size saved !! 3%nat = Some wd ∧
       tensor_size saved !! 2%nat = Some ht ∧
       LatentsOutput.width out = 8 * wd ∧
       LatentsOutput.height out = 8 * ht) ∧
  (∀ self out w',
     ScaleLatentsInvocation.invoke self context w = Ok (out, w') →
     ∃ name saved wd ht,
       LatentsField.latents_name (LatentsOutput.latents out) = Some name ∧
       latents_store w' !! name = Some saved ∧
       tensor_size saved !! 3%nat = Some wd ∧
       tensor_size saved !! 2%nat = Some ht ∧
       LatentsOutput.width out = 8 * wd ∧
       LatentsOutput.height out = 8 * ht) ∧
  (∀ self out w',
     ImageToLatentsInvocation.invoke self context w = Ok (out, w') →
     ∃ name saved wd ht,
       LatentsField.latents_name (LatentsOutput.latents out) = Some name ∧
       latents_store w' !! name = Some saved ∧
       tensor_size saved !! 3%nat = Some wd ∧
       tensor_size saved !! 2%nat = Some ht ∧
       LatentsOutput.width out = 8 * wd ∧
       LatentsOutput.height out = 8 * ht) ∧
  (∀ self out w',
     DenoiseLatents.invoke SCHEDULER_MAP backend self context w = Ok (out, w') →
     ∃ name saved wd ht,
       LatentsField.latents_name (LatentsOutput.latents out) = Some name ∧
       latents_store w' !! name = Some saved ∧
       tensor_size saved !! 3%nat = Some wd ∧
       tensor_size saved !! 2%nat = Some ht ∧
       LatentsOutput.width out = 8 * wd ∧
       LatentsOutput.height out = 8 * ht).
Proof.
  split; [| split; [| split; [| split]]].
  - intros name latents seed wd ht Hwd Hht.
    unfold build_latents_output, index. rewrite Hwd, Hht. simpl.
    eexists. split; [reflexivity |]. simpl. lia.
  - intros self out w' Hrun.
    apply resize_invoke_inv in Hrun as (field & resized & _ & _ & _ & Hstore & Hout & _).
    apply build_latents_output_inv in Hout as (wd & ht & Hwd & Hht & ->).
    eexists _, resized, wd, ht. simpl. rewrite Hstore, lookup_insert_eq.
    repeat split; (done || lia).
  - intros self out w' Hrun.
    apply scale_invoke_inv in Hrun as (field & resized & _ & _ & _ & Hstore & Hout & _).
    apply build_latents_output_inv in Hout as (wd & ht & Hwd & Hht & ->).
    eexists _, resized, wd, ht. simpl. rewrite Hstore, lookup_insert_eq.
    repeat split; (done || lia).
  - intros self out w' Hrun.
    apply image_to_latents_inv in Hrun as (saved & Hstore & Hout).
    apply build_latents_output_inv in Hout as (wd & ht & Hwd & Hht & ->).
    eexists _, saved, wd, ht. simpl. rewrite Hstore, lookup_insert_eq.
    repeat split; (done || lia).
  - intros self out w' Hrun.
    apply denoise_invoke_saved in Hrun as (saved & seed & w1 & Hstore & Hout).
    apply build_latents_output_inv in Hout as (wd & ht & Hwd & Hht & ->).
    eexists _, saved, wd, ht. simpl. rewrite Hstore, lookup_insert_eq.
    repeat split; (done || lia).
Qed.

(** C9: outside the bilinear and bicubic modes the antialias flag has no
    effect: two resize nodes, or two scale nodes, that differ in nothing
    but [antialias] end with the same output and the same world, and the
    call to [interpolate] of a run in such a mode has [antialias=False]. *)
Theorem antialias_ignored_outside_bilinear_bicubic context w :
  (∀ self1 self2,
     ResizeLatentsInvocation.id self1 = ResizeLatentsInvocation.id self2 →
     ResizeLatentsInvocation.latents self1 = ResizeLatentsInvocation.latents self2 →
     ResizeLatentsInvocation.width self1 = ResizeLatentsInvocation.width self2 →
     ResizeLatentsInvocation.height self1 = ResizeLatentsInvocation.height self2 →
     ResizeLatentsInvocation.mode self1 = ResizeLatentsInvocation.mode self2 →
     ResizeLatentsInvocation.mode self1 ≠ bilinear →
     ResizeLatentsInvocation.mode self1 ≠ bicubic →
     ResizeLatentsInvocation.invoke self1 context w
     = ResizeLatentsInvocation.invoke self2 context w ∧
     ∀ out w',
       ResizeLatentsInvocation.invoke self1 context w = Ok (out, w') →
       ∃ input target,
         trace w' = trace w ++
           [CallInterpolate input target (ResizeLatentsInvocation.mode self1) false;
            CallEmptyCache]) ∧
  (∀ self1 self2,
     ScaleLatentsInvocation.id self1 = ScaleLatentsInvocation.id self2 →
     ScaleLatentsInvocation.latents self1 = ScaleLatentsInvocation.latents self2 →
     ScaleLatentsInvocation.scale_factor self1 = ScaleLatentsInvocation.scale_factor self2 →
     ScaleLatentsInvocation.mode self1 = ScaleLatentsInvocation.mode self2 →
     ScaleLatentsInvocation.mode self1 ≠ bilinear →
     ScaleLatentsInvocation.mode self1 ≠ bicubic →
     ScaleLatentsInvocation.invoke self1 context w
     = ScaleLatentsInvocation.invoke self2 context w ∧
     ∀ out w',
       ScaleLatentsInvocation.invoke self1 context w = Ok (out, w') →
       ∃ input target,
         trace w' = trace w ++
           [CallInterpolate input target (ScaleLatentsInvocation.mode self1) false;
            CallEmptyCache]).
Proof.
  split.
  - intros self1 self2 Hid Hlatents Hwidth Hheight Hmode Hbl Hbc. split.
    + destruct self1 as [id1 l1 w1 h1 m1 a1], self2 as [id2 l2 w2 h2 m2 a2].
      simpl in *. subst. unfold ResizeLatentsInvocation.invoke; simpl.
      by destruct m2.
    + intros out w' Hrun.
      apply resize_invoke_inv in Hrun
        as (_ & _ & input & target & _ & _ & _ & Htrace).
      exists input, target. rewrite Htrace.
      by destruct (ResizeLatentsInvocation.mode self1).
  - intros self1 self2 Hid Hlatents Hfactor Hmode Hbl Hbc. split.
    + destruct self1 as [id1 l1 f1 m1 a1], self2 as [id2 l2 f2 m2 a2].
      simpl in *. subst. unfold ScaleLatentsInvocation.invoke; simpl.
      by destruct m2.
    + intros out w' Hrun.
      apply scale_invoke_inv in Hrun
        as (_ & _ & input & target & _ & _ & _ & Htrace).
      exists input, target. rewrite Htrace.
      by destruct (ScaleLatentsInvocation.mode self1).
Qed.
End latents_properties.

(** ** VAE tiling *)

Section tiling_properties.
Context `{Runtime}.
Implicit Types (context : InvocationContext) (w : World).

(** C7: the VAE that [LatentsToImageInvocation] decodes with tiles exactly
    when the node's [tiled] flag or the configuration's [tiled_decode] flag
    is set: the image that goes to the image service, and from there into
    the output, is decoded by a VAE in that tiling state.  The VAE that
    [ImageToLatentsInvocation] encodes with tiles exactly when the node's
    [tiled] flag is set, whatever the configuration says: the latents it
    saves are sampled from the encoding of a VAE in that tiling state, and
    the run does not change with [tiled_decode]. *)
Theorem vae_tiling_policy context w :
  (∀ self field t vae_field v,
     LatentsToImageInvocation.latents self = Some field →
     stored w field t →
     LatentsToImageInvocation.vae self = Some vae_field →
     get_model (services context) (VaeField.vae vae_field) = Ok (VaeModel v) →
     ∃ out w' vae latents,
       let image :=
         numpy_to_pil (clamp 0 1 (add_scalar (div_scalar (vae_decode vae latents) 2) 0.5)) in
       let image_dto :=
         images_create (services context) image "internal" "general"
           (LatentsToImageInvocation.id self) (graph_execution_state_id context)
           (LatentsToImageInvocation.is_intermediate self)
           (LatentsToImageInvocation.metadata self) in
       LatentsToImageInvocation.invoke self context w = Ok (out, w') ∧
       out = {| ImageOutput.image := {| ImageField.image_name := dto_image_name image_dto |};
                ImageOutput.width := dto_width image_dto;
                ImageOutput.height := dto_height image_dto |} ∧
       trace w' = trace w ++
         [CallEmptyCache; CallVaeDecode vae latents; CallEmptyCache;
          CallImagesCreate image (LatentsToImageInvocation.id self)
            (graph_execution_state_id context)] ∧
       use_tiling vae
       = LatentsToImageInvocation.tiled self || tiled_decode (services context) ∧
       (use_tiling vae = true ↔
        LatentsToImageInvocation.tiled self = true ∨
        tiled_decode (services context) = true)) ∧
  (∀ self image_field image vae_field v,
     ImageToLatentsInvocation.image self = Some image_field →
     get_pil_image (services context) (ImageField.image_name image_field) = Ok image →
     ImageToLatentsInvocation.vae self = Some vae_field →
     get_model (services context) (VaeField.vae vae_field) = Ok (VaeModel v) →
     let grid := image_resized_to_grid_as_tensor (convert image "RGB") in
     let batched :=
       if bool_decide (length (tensor_size grid) = 3%nat)
       then rearrange_chw_1chw grid else grid in
     let name :=
       graph_execution_state_id context +:+ "__" +:+ ImageToLatentsInvocation.id self in
     (∃ w' vae,
        let image_tensor :=
          tensor_to (Some (vae_device vae)) (Some (vae_dtype vae)) batched in
        let saved :=
          tensor_to (Some Cpu) None
            (tensor_to None (Some (vae_dtype v))
               (scalar_mul (scaling_factor vae)
                  (tensor_to None (Some (vae_dtype vae))
                     (vae_encode_sample vae image_tensor)))) in
        ImageToLatentsInvocation.invoke self context w
        = (out ← build_latents_output name saved None; Ok (out, w')) ∧
        latents_store w' = <[name := saved]> (latents_store w) ∧
        trace w' = trace w ++ [CallVaeEncode vae image_tensor] ∧
        use_tiling vae = ImageToLatentsInvocation.tiled self) ∧
     ∀ b, ImageToLatentsInvocation.invoke self (with_tiled_decode b context) w
          = ImageToLatentsInvocation.invoke self context w).
Proof.
  split.
  - intros self field t vae_field v Hfield Hstored Hvae Hmodel.
    unfold LatentsToImageInvocation.invoke, attr_of.
    rewrite Hfield, Hvae. run_M.
    rewrite (latents_get_stored _ _ _ Hstored), Hmodel. simpl.
    destruct (LatentsToImageInvocation.fp32 self);
      [destruct (use_torch_2_0_or_xformers (vae_to Float32 v)) |];
      simpl;
      (eexists _, _, _, _; split; [reflexivity |];
       split; [reflexivity |];
       simpl; rewrite <- !app_assoc; simpl; split; [reflexivity |];
       destruct (LatentsToImageInvocation.tiled self),
         (tiled_decode (services context)); simpl; intuition congruence).
  - intros self image_field image vae_field v Himage Hpil Hvae Hmodel grid batched name.
    split.
    + unfold ImageToLatentsInvocation.invoke, attr_of.
      rewrite Himage, Hvae. run_M. rewrite Hpil, Hmodel. simpl.
      fold grid. fold batched. fold name. unfold latents_save. simpl.
      destruct (ImageToLatentsInvocation.fp32 self);
        [destruct (use_torch_2_0_or_xformers (vae_to Float32 v)) |];
        destruct (ImageToLatentsInvocation.tiled self);
        (eexists _, _; split; [reflexivity |]; simpl; by repeat split).
    + intros b. reflexivity.
Qed.
End tiling_properties.

(** ** Seed and initial latents of the denoising node *)

Section seed_properties.
Context `{Runtime}.
Implicit Types (context : InvocationContext) (w : World).

(** C10 (amended): the seed of [DenoiseLatentsInvocation.invoke] is the
    seed the noise field carries; when there is no noise field or it
    carries no seed, the seed the latents field carries; when that is
    missing too, 0.  The initial latents are the stored latents of the
    latents field, and without a latents field the zeros of the noise
    tensor; with neither field the node raises. *)
Theorem invoke_seed_noise_latents_spec self context w :
  let seed := resolved_seed self in
  (∀ noise_field noise_tensor,
     DenoiseLatentsInvocation.noise self = Some noise_field →
     stored w noise_field noise_tensor →
     (∀ latents_field latents_tensor,
        DenoiseLatentsInvocation.latents self = Some latents_field →
        stored w latents_field latents_tensor →
        DenoiseLatentsInvocation.invoke_seed_noise_latents self context w
        = Ok ((seed, Some noise_tensor, latents_tensor), w)) ∧
     (DenoiseLatentsInvocation.latents self = None →
      DenoiseLatentsInvocation.invoke_seed_noise_latents self context w
      = Ok ((seed, Some noise_tensor, zeros_like noise_tensor), w))) ∧
  (DenoiseLatentsInvocation.noise self = None →
   (∀ latents_field latents_tensor,
      DenoiseLatentsInvocation.latents self = Some latents_field →
      stored w latents_field latents_tensor →
      DenoiseLatentsInvocation.invoke_seed_noise_latents self context w
      = Ok ((seed, None, latents_tensor), w)) ∧
   (DenoiseLatentsInvocation.latents self = None →
    DenoiseLatentsInvocation.invoke_seed_noise_latents self context w
    = Raise TypeError)).
Proof.
  intros seed. subst seed.
  unfold resolved_seed, DenoiseLatentsInvocation.invoke_seed_noise_latents.
  split.
  - intros noise_field noise_tensor Hnoise Hn. rewrite Hnoise. split.
    + intros latents_field latents_tensor Hlatents Hl. rewrite Hlatents.
      run_M. rewrite (latents_get_stored _ _ _ Hn), (latents_get_stored _ _ _ Hl).
      by destruct (LatentsField.seed noise_field), (LatentsField.seed latents_field).
    + intros Hlatents. rewrite Hlatents.
      run_M. rewrite (latents_get_stored _ _ _ Hn).
      by destruct (LatentsField.seed noise_field).
  - intros Hnoise. rewrite Hnoise. split.
    + intros latents_field latents_tensor Hlatents Hl. rewrite Hlatents.
      run_M. rewrite (latents_get_stored _ _ _ Hl).
      by destruct (LatentsField.seed latents_field).
    + intros Hlatents. by rewrite Hlatents.
Qed.
End seed_properties.

(** ** The properties on concrete runs *)

Lemma toy_latents_stored :
  @stored toy_runtime toy_world (toy_field "latents" (Some 42)) (toy_latents 64 96).
Proof. by exists "latents". Qed.

Lemma resize_invoke_spec_witness :
  ∃ out w',
    @ResizeLatentsInvocation.invoke toy_runtime (toy_resize bilinear true)
      toy_context toy_world = Ok (out, w') ∧
    trace w' =
      [@CallInterpolate toy_runtime (toy_to (Some (Cuda 0)) None (toy_latents 64 96))
         (TargetSize 32 64) bilinear true;
       CallEmptyCache] ∧
    LatentsField.latents_name (LatentsOutput.latents out) = Some "session__resize" ∧
    LatentsField.seed (LatentsOutput.latents out) = Some 42.
Proof.
  edestruct (@resize_invoke_spec toy_runtime (toy_resize bilinear true) toy_context
               toy_world (toy_field "latents" (Some 42)) (toy_latents 64 96) 260 516)
    as (out & w' & Hrun & Htrace & _ & Hname & Hseed).
  - reflexivity.
  - exact toy_latents_stored.
  - reflexivity.
  - reflexivity.
  - reflexivity.
  - simpl. lia.
  - exists out, w'. repeat split; assumption.
Defined.

Lemma build_latents_output_size_witness :
  ∃ out,
    @build_latents_output toy_runtime "session__resize" (toy_latents 64 96) (Some 42)
    = Ok out ∧
    LatentsOutput.width out = 8 * 96 ∧
    LatentsOutput.height out = 8 * 64.
Proof.
  destruct (@build_latents_output_size toy_runtime toy_denoise_runtime
              leading_diffusers toy_scheduler_map toy_backend toy_context toy_world)
    as [Hbuild _].
  apply Hbuild; reflexivity.
Defined.

Lemma antialias_ignored_witness :
  @ResizeLatentsInvocation.invoke toy_runtime (toy_resize area true) toy_context toy_world
  = @ResizeLatentsInvocation.invoke toy_runtime (toy_resize area false) toy_context toy_world ∧
  @ScaleLatentsInvocation.invoke toy_runtime (toy_scale nearest true) toy_context toy_world
  = @ScaleLatentsInvocation.invoke toy_runtime (toy_scale nearest false) toy_context toy_world.
Proof.
  destruct (@antialias_ignored_outside_bilinear_bicubic toy_runtime toy_context toy_world)
    as [Hresize Hscale].
  split.
  - by apply (Hresize (toy_resize area true) (toy_resize area false)).
  - by apply (Hscale (toy_scale nearest true) (toy_scale nearest false)).
Defined.

Lemma vae_tiling_policy_witness :
  (∃ out w' vae latents,
     @LatentsToImageInvocation.invoke toy_runtime (toy_l2i false)
       (with_tiled_decode true toy_context) toy_world = Ok (out, w') ∧
     ImageField.image_name (ImageOutput.image out) = "l2i" ∧
     trace w' = [CallEmptyCache; CallVaeDecode vae latents; CallEmptyCache;
                 @CallImagesCreate toy_runtime "decoded" "l2i" "session"] ∧
     use_tiling vae = true) ∧
  (∃ out w' vae image_tensor,
     @ImageToLatentsInvocation.invoke toy_runtime (toy_i2l false)
       (with_tiled_decode true toy_context) toy_world = Ok (out, w') ∧
     LatentsOutput.latents out = toy_field "session__i2l" None ∧
     trace w' = [CallVaeEncode vae image_tensor] ∧
     use_tiling vae = false).
Proof.
  destruct (@vae_tiling_policy toy_runtime (with_tiled_decode true toy_context) toy_world)
    as [Hdecode Hencode].
  split.
  - destruct (Hdecode (toy_l2i false) (toy_field "latents" None) (toy_latents 64 96)
                {| VaeField.vae := toy_model_info "vae" |} toy_vae)
      as (out & w' & vae & latents & Hrun & Hout & Htrace & Htiling & _);
      [reflexivity | by exists "latents" | reflexivity | reflexivity |].
    exists out, w', vae, latents. split; [exact Hrun |].
    split; [by rewrite Hout |]. by split.
  - destruct (Hencode (toy_i2l false) {| ImageField.image_name := "photo" |} "photo"
                {| VaeField.vae := toy_model_info "vae" |} toy_vae)
      as [(w' & vae & Hrun & _ & Htrace & Htiling) _];
      [reflexivity | reflexivity | reflexivity | reflexivity |].
    eexists _, w', vae, _. split; [rewrite Hrun; reflexivity |].
    split; [reflexivity |]. split; [exact Htrace | exact Htiling].
Defined.

(** C10, as worded, fails when the noise field carries no seed: with a
    noise field of seed [None] and a latents field of seed 5 the node runs
    with seed 5, which is not the noise field's seed. *)
Lemma seed_claim_fails_for_noise_without_seed :
  ¬ @seed_claim toy_runtime
      (toy_denoise (Some (toy_field "noise" None)) (Some (toy_field "latents" (Some 5))))
      toy_context toy_world.
Proof.
  intros Hclaim.
  destruct (Hclaim 5 (Some (toy_op "randn" (toy_latents 64 96))) (toy_latents 64 96)
              toy_world eq_refl) as [Hseed _].
  discriminate Hseed.
Qed.

Lemma invoke_seed_noise_latents_spec_witness :
  @DenoiseLatentsInvocation.invoke_seed_noise_latents toy_runtime
    (toy_denoise (Some (toy_field "noise" None)) (Some (toy_field "latents" (Some 5))))
    toy_context toy_world
  = Ok ((5, Some (toy_op "randn" (toy_latents 64 96)), toy_latents 64 96), toy_world) ∧
  @DenoiseLatentsInvocation.invoke_seed_noise_latents toy_runtime
    (toy_denoise (Some (toy_field "noise" (Some 7))) None) toy_context toy_world
  = Ok ((7, Some (toy_op "randn" (toy_latents 64 96)),
         @zeros_like toy_runtime (toy_op "randn" (toy_latents 64 96))), toy_world) ∧
  @DenoiseLatentsInvocation.invoke_seed_noise_latents toy_runtime
    (toy_denoise None None) toy_context toy_world
  = Raise TypeError.
Proof.
  split; [| split].
  - destruct (@invoke_seed_noise_latents_spec toy_runtime
                (toy_denoise (Some (toy_field "noise" None))
                   (Some (toy_field "latents" (Some 5))))
                toy_context toy_world) as [Hnoise _].
    destruct (Hnoise (toy_field "noise" None) (toy_op "randn" (toy_latents 64 96)))
      as [Hboth _]; [reflexivity | by exists "noise" |].
    apply (Hboth (toy_field "latents" (Some 5)) (toy_latents 64 96));
      [reflexivity | by exists "latents"].
  - destruct (@invoke_seed_noise_latents_spec toy_runtime
                (toy_denoise (Some (toy_field "noise" (Some 7))) None)
                toy_context toy_world) as [Hnoise _].
    destruct (Hnoise (toy_field "noise" (Some 7)) (toy_op "randn" (toy_latents 64 96)))
      as [_ Hzeros]; [reflexivity | by exists "noise" |].
    by apply Hzeros.
  - destruct (@invoke_seed_noise_latents_spec toy_runtime (toy_denoise None None)
                toy_context toy_world) as [_ Hnone].
    destruct (Hnone eq_refl) as [_ Hraise]. by apply Hraise.
Defined.

(** * Further properties of the code *)

(** ** [init_scheduler] beyond the first-order window *)

Section init_scheduler_more.
Context `{Diffusers}.
Implicit Types (s : Scheduler) (l : list Z).

Lemma take_S_drop {A : Type} (k : nat) (l : list A) :
  take (S k) l = take k l ++ take 1 (drop k l).
Proof.
  revert l. induction k as [| k IH]; intros l; [by rewrite take_0, drop_0 |].
  destruct l as [| x l]; [done |].
  change (x :: take (S k) l = (x :: take k l) ++ take 1 (drop k l)).
  by rewrite IH.
Qed.

(** [t_val] raises [AttributeError] exactly when the configuration has no
    [num_train_timesteps]. *)
Lemma t_val_attribute_error s d :
  t_val s d = Raise AttributeError ↔ config s !! "num_train_timesteps" = None.
Proof.
  unfold t_val, config_attr.
  destruct (config s !! "num_train_timesteps") as [v |]; simpl; [| done].
  split; [| done]. unfold mul_float, float_of_int, round.
  destruct v as [| b | n | f | str | d']; simpl; try done.
  - by destruct (Prim2SF _) as [| | | [] ? ?].
  - destruct (is_infinity _); simpl; [done |].
    by destruct (Prim2SF _) as [| | | [] ? ?].
  - by destruct (Prim2SF _) as [| | | [] ? ?].
Qed.

(** What a run of [init_scheduler] that returns comes back with. *)
Lemma init_scheduler_run s device steps ds de n ts init s' :
  init_scheduler s device steps ds de = Ok ((n, ts, init), s') →
  s' = with_timesteps s (installed_timesteps s device steps) ∧
  (∃ before after,
     installed_timesteps s device steps = before ++ ts ++ after ∧
     init = take 1 (ts ++ after)) ∧
  (ts ≠ [] → init = take 1 ts) ∧
  0 ≤ n ≤ Z.of_nat (length ts).
Proof.
  unfold init_scheduler. fold (installed_timesteps s device steps).
  rewrite !t_val_with_timesteps.
  destruct (t_val s ds) as [t_start_val |]; [| done]. simpl.
  destruct (t_val s de) as [t_end_val |]; [| done]. simpl.
  set (installed := installed_timesteps s device steps).
  set (i := length (filter (λ ts, t_start_val ≤ ts) installed)).
  set (rest := if bool_decide (order s = 2 ∧ (0 < i)%nat)
               then drop 1 (drop i installed) else drop i installed).
  set (k := length (filter (λ ts, t_end_val ≤ ts) rest)).
  set (k' := if bool_decide (order s = 2 ∧ (0 < k)%nat) then S k else k).
  intros [= <- <- <- <-].
  assert (∃ before, installed = before ++ rest) as [before Hbefore].
  { unfold rest. case_bool_decide.
    - exists (take (1 + i) installed).
      by rewrite drop_drop, Nat.add_comm, take_drop.
    - exists (take i installed). by rewrite take_drop. }
  split; [done |]. split; [| split].
  - exists before, (drop k' rest).
    by rewrite take_drop.
  - intros Hne. destruct k' as [| k'']; [by rewrite take_0 in Hne |].
    destruct rest; by simpl.
  - pose proof (Z.mod_pos_bound (Z.of_nat (length (take k' rest))) 2 ltac:(lia)).
    pose proof (Z.mod_le (Z.of_nat (length (take k' rest))) 2 ltac:(lia) ltac:(lia)).
    case_bool_decide; [| lia].
    split; [apply Z.div_pos; lia |].
    apply Z.div_le_upper_bound; lia.
Qed.

(** The timesteps [init_scheduler] returns are a contiguous run of the
    scheduler's timesteps, never reordered; [init_timestep] is the first
    timestep of that run and of what follows it, hence the first returned
    timestep whenever one is returned; and the scheduler comes back with
    the timesteps [set_timesteps] installed. *)
Theorem init_scheduler_contiguous s device steps ds de n ts init s' :
  init_scheduler s device steps ds de = Ok ((n, ts, init), s') →
  s' = with_timesteps s (installed_timesteps s device steps) ∧
  (∃ before after,
     installed_timesteps s device steps = before ++ ts ++ after ∧
     init = take 1 (ts ++ after)) ∧
  (ts ≠ [] → init = take 1 ts) ∧
  0 ≤ n ≤ Z.of_nat (length ts).
Proof. apply init_scheduler_run. Qed.

(** When no timestep reaches [t_start_val] and every timestep reaches
    [t_end_val] (as for [denoising_start = 0] and [denoising_end = 1]),
    [init_scheduler] trims nothing, whatever the scheduler's order. *)
Theorem init_scheduler_full_range s device steps ds de t_start_val t_end_val :
  t_val s ds = Ok t_start_val →
  t_val s de = Ok t_end_val →
  Forall (λ ts, t_end_val ≤ ts < t_start_val) (installed_timesteps s device steps) →
  ∃ n,
    init_scheduler s device steps ds de
    = Ok ((n, installed_timesteps s device steps,
           take 1 (installed_timesteps s device steps)),
          with_timesteps s (installed_timesteps s device steps)) ∧
    let len := Z.of_nat (length (installed_timesteps s device steps)) in
    n = if bool_decide (order s = 2) then (len + len mod 2) / 2 else len.
Proof.
  intros Hstart Hend Hall.
  unfold init_scheduler. fold (installed_timesteps s device steps).
  rewrite !t_val_with_timesteps, Hstart, Hend. simpl.
  set (installed := installed_timesteps s device steps) in *.
  assert (filter (λ ts, t_start_val ≤ ts) installed = []) as ->.
  { clear -Hall. induction Hall as [| x l Hx _ IH]; [done |].
    rewrite filter_cons_False; [done | lia]. }
  assert (filter (λ ts, t_end_val ≤ ts) installed = installed) as Hkeep.
  { clear -Hall. induction Hall as [| x l Hx _ IH]; [done |].
    rewrite filter_cons_True by lia. by rewrite IH. }
  simpl. rewrite (bool_decide_eq_false_2 (_ ∧ (0 < 0)%nat)) by lia.
  rewrite drop_0, Hkeep.
  assert (take (if bool_decide (order s = 2 ∧ (0 < length installed)%nat)
                then S (length installed) else length installed) installed
          = installed) as ->.
  { case_bool_decide; apply take_ge; lia. }
  eexists. split; reflexivity.
Qed.

(** For a second-order scheduler whose timesteps never increase, one more
    timestep is dropped after the leading ones at or above [t_start_val]
    (when there are any), and one more timestep is kept after those at or
    above [t_end_val] (when there are any). *)
Theorem init_scheduler_second_order s device steps ds de t_start_val t_end_val :
  order s = 2 →
  descending (installed_timesteps s device steps) →
  t_val s ds = Ok t_start_val →
  t_val s de = Ok t_end_val →
  let installed := installed_timesteps s device steps in
  let trimmed := drop_while (λ ts, bool_decide (t_start_val ≤ ts)) installed in
  let rest := if bool_decide (trimmed = installed) then trimmed else drop 1 trimmed in
  let kept := filter (λ ts, t_end_val ≤ ts) rest in
  let ts := if bool_decide (kept = []) then []
            else kept ++ take 1 (drop (length kept) rest) in
  ∃ n, init_scheduler s device steps ds de
       = Ok ((n, ts, take 1 rest), with_timesteps s installed).
Proof.
  intros Hord Hdesc Hstart Hend installed trimmed rest kept ts.
  unfold init_scheduler. fold (installed_timesteps s device steps). fold installed.
  rewrite !t_val_with_timesteps, Hstart, Hend. simpl. rewrite Hord.
  rewrite drop_count_descending by done. fold trimmed.
  assert ((if bool_decide (2 = 2 ∧
                 (0 < length (filter (λ ts, (t_start_val ≤ ts)%Z) installed))%nat)
           then drop 1 trimmed else trimmed) = rest) as ->.
  { unfold rest.
    assert (length trimmed
            = (length installed
               - length (filter (λ ts, (t_start_val ≤ ts)%Z) installed))%nat) as Hlen.
    { unfold trimmed. rewrite <- drop_count_descending by done. apply length_drop. }
    pose proof (length_filter (λ ts, (t_start_val ≤ ts)%Z) installed) as Hle.
    case_bool_decide as Hidx; case_bool_decide as Hsame; try done.
    - rewrite Hsame in Hlen. lia.
    - destruct Hsame. unfold trimmed.
      rewrite <- drop_count_descending by done.
      assert (length (filter (λ ts, (t_start_val ≤ ts)%Z) installed) = 0%nat) as ->
        by (destruct (length (filter _ installed)); [done | destruct Hidx; split; [done | lia]]).
      done. }
  assert (descending rest) as Hrest.
  { unfold rest. case_bool_decide; [by apply drop_while_descending |].
    pose proof (drop_while_descending (λ ts, bool_decide (t_start_val ≤ ts))
                  installed Hdesc) as Htr. fold trimmed in Htr.
    destruct trimmed as [| x l]; [done |]. simpl. rewrite drop_0.
    by apply descending_cons in Htr as [_ ?]. }
  fold kept. eexists. do 3 f_equal. f_equal.
  assert (take (length kept) rest = kept) as Htake
    by (by apply take_count_descending).
  unfold ts. clearbody kept. destruct kept as [| x kept'].
  - rewrite bool_decide_eq_false_2 by (simpl; lia). done.
  - rewrite bool_decide_eq_true_2 by (simpl; lia).
    rewrite take_S_drop, Htake. done.
Qed.

(** [init_scheduler] raises [AttributeError] exactly when the scheduler's
    configuration has no [num_train_timesteps]. *)
Theorem init_scheduler_attribute_error s device steps ds de :
  init_scheduler s device steps ds de = Raise AttributeError
  ↔ config s !! "num_train_timesteps" = None.
Proof.
  unfold init_scheduler. rewrite !t_val_with_timesteps.
  rewrite <- (t_val_attribute_error s ds).
  destruct (t_val s ds) as [t_start_val | e] eqn:Hstart; simpl.
  - split; [| done].
    destruct (t_val s de) as [t_end_val | e] eqn:Hend; simpl; [done |].
    intros [= ->].
    apply t_val_attribute_error in Hend.
    apply (t_val_attribute_error s ds) in Hend. congruence.
  - split; congruence.
Qed.

End init_scheduler_more.

Lemma init_scheduler_contiguous_witness :
  (∃ before after,
     @installed_timesteps leading_diffusers heun_1000 Cpu 10
     = before ++ [600; 500; 400; 300; 200] ++ after ∧
     [600] = take 1 ([600; 500; 400; 300; 200] ++ after)) ∧
  0 ≤ 3 ≤ Z.of_nat (length [600; 500; 400; 300; 200]).
Proof.
  destruct (@init_scheduler_contiguous leading_diffusers heun_1000 Cpu 10 0.25 0.75
              3 [600; 500; 400; 300; 200] [600]
              (with_timesteps heun_1000 [900; 800; 700; 600; 500; 400; 300; 200; 100; 0])
              eq_refl) as (_ & Hrun & _ & Hbound).
  by split.
Defined.

Lemma init_scheduler_full_range_witness :
  ∃ n,
    @init_scheduler leading_diffusers heun_1000 Cpu 10 0 1
    = Ok ((n, [900; 800; 700; 600; 500; 400; 300; 200; 100; 0], [900]),
          with_timesteps heun_1000 [900; 800; 700; 600; 500; 400; 300; 200; 100; 0]) ∧
    n = 5.
Proof.
  destruct (@init_scheduler_full_range leading_diffusers heun_1000 Cpu 10 0 1 1000 0
              eq_refl eq_refl) as (n & Hrun & Hn).
  - change (Forall (λ ts, 0 ≤ ts < 1000)
              [900; 800; 700; 600; 500; 400; 300; 200; 100; 0]).
    repeat constructor; lia.
  - exists n. split; [exact Hrun | exact Hn].
Defined.

Lemma init_scheduler_second_order_witness :
  ∃ n, @init_scheduler leading_diffusers heun_1000 Cpu 10 0.25 0.75
       = Ok ((n, [600; 500; 400; 300; 200], [600]),
             with_timesteps heun_1000 [900; 800; 700; 600; 500; 400; 300; 200; 100; 0]).
Proof.
  apply (@init_scheduler_second_order leading_diffusers heun_1000 Cpu 10 0.25 0.75
           750 250); try reflexivity.
  change (descending [900; 800; 700; 600; 500; 400; 300; 200; 100; 0]).
  unfold descending. repeat constructor; lia.
Defined.

(** ** [get_scheduler]: failures and switching samplers *)

Section get_scheduler_more.
Context `{Runtime, Diffusers}.
Variable SCHEDULER_MAP : gmap string (string * gmap string cfg_val).
Implicit Types (context : InvocationContext).


(** Switching the sampler of a scheduler that [get_scheduler] built gives
    what switching the original scheduler gives: the first sampler's
    extra configuration does not leak into the second scheduler, because
    the merge starts again from ["_backup"].  (The scheduler library is
    assumed to keep the ["_backup"] entry of the configuration it builds a
    scheduler from.) *)
Theorem get_scheduler_switch context1 context2 scheduler_info name1 name2 s1 :
  (∀ cls cfg, config (from_config cls cfg) !! "_backup" = cfg !! "_backup") →
  get_scheduler SCHEDULER_MAP context1 scheduler_info name1 = Ok s1 →
  get_model (services context2) scheduler_info = Ok (SchedulerModel s1) →
  get_scheduler SCHEDULER_MAP context2 scheduler_info name2
  = get_scheduler SCHEDULER_MAP context1 scheduler_info name2.
Proof.
  intros Hkeeps Hfirst Hmodel2.
  assert (∃ ddim orig base,
            SCHEDULER_MAP !! "ddim" = Some ddim ∧
            get_model (services context1) scheduler_info = Ok (SchedulerModel orig) ∧
            match config orig !! "_backup" with
            | Some backup => backup = VDict base
            | None => config orig = base
            end ∧
            config s1 !! "_backup" = Some (VDict base))
    as (ddim & orig & base & Hddim & Hmodel1 & Hbase & Hs1).
  { revert Hfirst. unfold get_scheduler, getitem.
    destruct (SCHEDULER_MAP !! "ddim") as [ddim |]; [| done]. simpl.
    destruct (default ddim (SCHEDULER_MAP !! name1)) as [cls extra].
    destruct (get_model (services context1) scheduler_info) as [[orig | |] |];
      try done. simpl.
    destruct (config orig !! "_backup") as [backup |] eqn:Hbackup; simpl.
    - destruct backup as [| | | | | base]; try done. simpl.
      intros [= <-]. exists ddim, orig, base. rewrite Hbackup.
      repeat split; try done.
      destruct (uses_inpainting_model _); simpl;
        by rewrite Hkeeps, lookup_insert_eq.
    - intros [= <-]. exists ddim, orig, (config orig). rewrite Hbackup.
      repeat split; try done.
      destruct (uses_inpainting_model _); simpl;
        by rewrite Hkeeps, lookup_insert_eq. }
  unfold get_scheduler, getitem. rewrite Hddim. simpl.
  destruct (default ddim (SCHEDULER_MAP !! name2)) as [cls extra].
  rewrite Hmodel1, Hmodel2. simpl. rewrite Hs1. simpl.
  destruct (config orig !! "_backup") as [backup |]; simpl.
  - by rewrite Hbase.
  - by rewrite Hbase.
Qed.
End get_scheduler_more.

Lemma get_scheduler_switch_witness :
  @get_scheduler toy_runtime leading_diffusers toy_scheduler_map
    (toy_context_with_scheduler
       (with_uses_inpainting_model
          (make_scheduler "DPMSolverMultistepScheduler"
             {[ "num_train_timesteps" := VInt 1000;
                "use_karras_sigmas" := VBool true;
                "_backup" := VDict {[ "num_train_timesteps" := VInt 1000 ]} ]})
          false))
    (toy_model_info "scheduler") "heun"
  = @get_scheduler toy_runtime leading_diffusers toy_scheduler_map toy_context
      (toy_model_info "scheduler") "heun".
Proof.
  apply (@get_scheduler_switch toy_runtime leading_diffusers toy_scheduler_map
           toy_context _ (toy_model_info "scheduler") "dpmpp_2m_k" "heun"
           (with_uses_inpainting_model
              (make_scheduler "DPMSolverMultistepScheduler"
                 {[ "num_train_timesteps" := VInt 1000;
                    "use_karras_sigmas" := VBool true;
                    "_backup" := VDict {[ "num_train_timesteps" := VInt 1000 ]} ]})
              false)).
  - reflexivity.
  - vm_compute. reflexivity.
  - reflexivity.
Defined.

(** ** [prep_control_data]: what it leaves alone and how it fails *)

Section control_more.
Context `{Runtime}.
Implicit Types (context : InvocationContext) (cfs : list ControlField.t) (w : World).

(** A run of the loop that returns went over control entries only.  For
    each it appended the item made of the entry, entered the item's
    ControlNet on the exit stack and recorded the [prepare_control_image]
    call whose result is the item's image tensor; it left the store
    alone. *)
Lemma prep_control_loop_run context l wd ht cfg data models stack w r stack' w' :
  prep_control_loop context l wd ht cfg data models stack w = Ok ((r, stack'), w') →
  latents_store w' = latents_store w ∧
  ∃ cfs items calls,
    l = PyControlField <$> cfs ∧
    r = data ++ items ∧
    stack' = stack ++ ((λ d, ControlNet (cnd_model d)) <$> items) ∧
    trace w' = trace w ++ calls ∧
    Forall2 (prepared context cfg wd ht) cfs items ∧
    Forall2 carries cfs items ∧
    Forall2 (prepared_by cfg wd ht) calls items.
Proof.
  revert data models stack w.
  induction l as [| v l IH]; intros data models stack w; simpl.
  - run_M. intros [= <- <- <-]. split; [done |].
    exists [], [], []. rewrite !app_nil_r. by repeat split.
  - run_M. destruct v as [| c | |]; try done. simpl.
    destruct (get_model _ _) as [m |] eqn:Hm; [| done]. simpl.
    destruct (get_pil_image _ _) as [img |] eqn:Himg; [| done]. simpl.
    destruct m as [| | cn]; try done. simpl.
    intros Hrun. apply IH in Hrun as (Hstore & cfs & items & calls & Hrest).
    destruct Hrest as (-> & -> & -> & Htrace & Hprepared & Hcarries & Hcalls).
    split; [done |].
    eexists (c :: cfs), (_ :: items), (_ :: calls).
    simpl in *. rewrite <- !app_assoc in *. simpl in *.
    split; [done |]. split; [done |]. split; [done |]. split; [done |].
    split; [| split]; constructor; try done.
    + by exists cn, img.
    + by exists img.
Qed.

(** Every call an item was prepared by is a [prepare_control_image] call
    at the given width and height. *)
Lemma prepared_by_calls cfg wd ht calls (items : list ControlNetData) :
  Forall2 (prepared_by cfg wd ht) calls items →
  Forall (λ call, ∃ img device dtype control_mode resize_mode,
            call = CallPrepareControlImage img cfg wd ht device dtype
                     control_mode resize_mode) calls.
Proof.
  induction 1 as [| call d calls items [img [-> _]] _ IH]; constructor; [| done].
  by repeat eexists.
Qed.

(** The loop goes through the entries that load and carries on with the
    rest of the list. *)
Lemma prep_control_loop_app context cfs tail wd ht cfg data models stack w :
  Forall (control_loads context) cfs →
  ∃ items entered calls,
    prep_control_loop context ((PyControlField <$> cfs) ++ tail) wd ht cfg
      data models stack w
    = prep_control_loop context tail wd ht cfg (data ++ items) (models ++ entered)
        (stack ++ entered)
        {| latents_store := latents_store w; trace := trace w ++ calls |}.
Proof.
  intros Hloads. revert data models stack w.
  induction Hloads as [| c cfs [[m Hm] [img Himg]] _ IH]; intros data models stack w.
  - exists [], [], []. rewrite !app_nil_r. by destruct w.
  - simpl. run_M. rewrite Hm, Himg. simpl.
    edestruct IH as (items & entered & calls & ->).
    eexists (_ :: items), (_ :: entered), (_ :: calls).
    simpl. by rewrite <- !app_assoc.
Qed.

(** What a run of [prep_control_data] that returns has done. *)
Lemma prep_control_data_run context control_input latents_shape exit_stack cfg
    w r exit_stack' w' :
  prep_control_data context control_input latents_shape exit_stack cfg w
  = Ok ((r, exit_stack'), w') →
  latents_store w' = latents_store w ∧
  ∃ ht wd,
    latents_shape !! 2%nat = Some ht ∧
    latents_shape !! 3%nat = Some wd ∧
    match r with
    | None => exit_stack' = exit_stack ∧ w' = w
    | Some control_data =>
        control_data ≠ [] ∧
        ∃ entered calls cfs,
          exit_stack' = exit_stack ++ entered ∧
          trace w' = trace w ++ calls ∧
          length entered = length control_data ∧
          length calls = length control_data ∧
          entered = (λ d, ControlNet (cnd_model d)) <$> control_data ∧
          Forall2 (prepared_by cfg (wd * 8) (ht * 8)) calls control_data ∧
          control_list_of control_input = Some (PyControlField <$> cfs) ∧
          Forall2 (prepared context cfg (wd * 8) (ht * 8)) cfs control_data ∧
          Forall2 carries cfs control_data
    end.
Proof.
  unfold prep_control_data, index.
  destruct (latents_shape !! 2%nat) as [ht |]; [| done].
  destruct (latents_shape !! 3%nat) as [wd |]; [| done].
  run_M.
  destruct (control_list_of control_input) as [control_list |] eqn:Hlist.
  - destruct (prep_control_loop _ _ _ _ _ _ _ _ _) as [[[data stack'] w1] |] eqn:Hloop;
      [| done].
    intros [= <- <- <-].
    apply prep_control_loop_run in Hloop
      as (Hstore & cfs & items & calls & -> & -> & -> & Htrace & Hprepared
          & Hcarries & Hcalls).
    split; [done |]. exists ht, wd. split; [done |]. split; [done |].
    simpl. split.
    + intros ->. apply Forall2_nil_inv_r in Hprepared as ->.
      destruct control_input as [| c | [| [] ?] |]; simplify_eq/=.
    + eexists _, calls, cfs. split; [done |]. split; [done |].
      split; [by rewrite length_fmap |].
      split; [by apply Forall2_length in Hcalls |]. done.
  - intros [= <- <- <-]. split; [done |]. by exists ht, wd.
Qed.

(** [prep_control_data] never writes to the latents store and never
    pops the exit stack.  Without control data it changes nothing at all.
    With control data the list it returns is not empty (no control is
    [None], never the empty list), the input was a [ControlField] or a
    list of them, and for each entry, in order: the item carries the
    entry's settings and the entry's ControlNet, which was entered on the
    exit stack, and its image tensor is the result of
    [prepare_control_image] on the entry's image at 8 times the latents'
    width and height, the call that is recorded for it. *)
Theorem prep_control_data_frame context control_input latents_shape exit_stack cfg
    w r exit_stack' w' :
  prep_control_data context control_input latents_shape exit_stack cfg w
  = Ok ((r, exit_stack'), w') →
  latents_store w' = latents_store w ∧
  ∃ ht wd,
    latents_shape !! 2%nat = Some ht ∧
    latents_shape !! 3%nat = Some wd ∧
    match r with
    | None => exit_stack' = exit_stack ∧ w' = w
    | Some control_data =>
        control_data ≠ [] ∧
        ∃ entered calls cfs,
          exit_stack' = exit_stack ++ entered ∧
          trace w' = trace w ++ calls ∧
          length entered = length control_data ∧
          length calls = length control_data ∧
          entered = (λ d, ControlNet (cnd_model d)) <$> control_data ∧
          Forall2 (prepared_by cfg (wd * 8) (ht * 8)) calls control_data ∧
          control_list_of control_input = Some (PyControlField <$> cfs) ∧
          Forall2 (prepared context cfg (wd * 8) (ht * 8)) cfs control_data ∧
          Forall2 carries cfs control_data
    end.
Proof. apply prep_control_data_run. Qed.

(** How [prep_control_data] fails.  A [latents_shape] with fewer than four
    entries is an [IndexError] whatever the control input.  A list that
    starts with [ControlField]s and then holds something else is an
    [AttributeError], raised after the entries before it were loaded.  An
    exception of the model manager for the first entry comes out as it
    is. *)
Theorem prep_control_data_failures context exit_stack cfg w :
  (∀ control_input latents_shape,
     (length latents_shape < 4)%nat →
     prep_control_data context control_input latents_shape exit_stack cfg w
     = Raise IndexError) ∧
  (∀ latents_shape cfs v rest,
     (4 ≤ length latents_shape)%nat →
     cfs ≠ [] →
     Forall (control_loads context) cfs →
     (∀ c, v ≠ PyControlField c) →
     prep_control_data context (PyList ((PyControlField <$> cfs) ++ v :: rest))
       latents_shape exit_stack cfg w
     = Raise AttributeError) ∧
  (∀ latents_shape c rest e,
     (4 ≤ length latents_shape)%nat →
     get_model (services context) (controlnet_info (ControlField.control_model c))
     = Raise e →
     prep_control_data context (PyList (PyControlField c :: rest))
       latents_shape exit_stack cfg w
     = Raise e).
Proof.
  split; [| split].
  - intros control_input latents_shape Hlen.
    unfold prep_control_data, index.
    destruct (latents_shape !! 2%nat) as [ht |] eqn:H2; [| done].
    destruct (latents_shape !! 3%nat) as [wd |] eqn:H3; [| done].
    apply lookup_lt_Some in H3. lia.
  - intros latents_shape cfs v rest Hlen Hne Hloads Hv.
    unfold prep_control_data, index.
    destruct (lookup_lt_is_Some_2 latents_shape 2) as [ht ->]; [lia |].
    destruct (lookup_lt_is_Some_2 latents_shape 3) as [wd ->]; [lia |].
    assert (control_list_of (PyList ((PyControlField <$> cfs) ++ v :: rest))
            = Some ((PyControlField <$> cfs) ++ v :: rest)) as ->
      by (by destruct cfs).
    run_M.
    edestruct (prep_control_loop_app context cfs (v :: rest)) as (? & ? & ? & ->);
      [done |].
    simpl. run_M. destruct v; try done. by destruct (Hv c).
  - intros latents_shape c rest e Hlen Hmodel.
    unfold prep_control_data, index.
    destruct (lookup_lt_is_Some_2 latents_shape 2) as [ht ->]; [lia |].
    destruct (lookup_lt_is_Some_2 latents_shape 3) as [wd ->]; [lia |].
    simpl. run_M. by rewrite Hmodel.
Qed.
End control_more.

Lemma prep_control_data_frame_witness :
  ∃ control_data calls,
    control_data ≠ [] ∧
    length calls = length (control_data : list (@ControlNetData toy_runtime)) ∧
    Forall2 (prepared_by true (96 * 8) (64 * 8)) calls control_data ∧
    Forall2 (prepared toy_context true (96 * 8) (64 * 8)) [toy_control "edges" 1]
      control_data.
Proof.
  pose proof (@prep_control_data_frame toy_runtime toy_context
                (PyControlField (toy_control "edges" 1)) [1; 4; 64; 96] [] true
                empty_world (Some _) _ _ eq_refl)
    as (_ & ht & wd & Hht & Hwd & Hne & entered & calls & cfs & _ & _ & _ & Hlen
        & _ & Hby & Hlist & Hprepared & _).
  injection Hht as <-. injection Hwd as <-.
  injection Hlist as Hcfs.
  destruct cfs as [| c [| c' cfs]]; try discriminate Hcfs.
  injection Hcfs as <-.
  eexists _, calls. split; [exact Hne |]. split; [exact Hlen |].
  split; [exact Hby | exact Hprepared].
Defined.

Lemma prep_control_data_failures_witness :
  @prep_control_data toy_runtime toy_context PyNone [1; 4; 64] [] true empty_world
  = Raise IndexError ∧
  @prep_control_data toy_runtime toy_context
    (PyList ((PyControlField <$> [toy_control "edges" 1]) ++ [PyNone]))
    [1; 4; 64; 96] [] true empty_world
  = Raise AttributeError.
Proof.
  destruct (@prep_control_data_failures toy_runtime toy_context [] true empty_world)
    as (Hshape & Hentry & _).
  split.
  - apply Hshape. simpl. lia.
  - apply Hentry; [simpl; lia | done | | done].
    repeat constructor; by eexists.
Defined.

(** ** Resize and scale: the store, the reported size, failures, chaining *)

Section latents_more.
Context `{Runtime}.
Implicit Types (context : InvocationContext) (w : World).

(** [build_latents_output] fails, with [IndexError], exactly on a tensor
    of fewer than four dimensions. *)
Theorem build_latents_output_index_error name latents seed :
  ((length (tensor_size latents) < 4)%nat ↔
   build_latents_output name latents seed = Raise IndexError) ∧
  ((4 ≤ length (tensor_size latents))%nat ↔
   ∃ out, build_latents_output name latents seed = Ok out).
Proof.
  unfold build_latents_output, index.
  destruct (tensor_size latents !! 3%nat) as [wd |] eqn:H3.
  - pose proof (lookup_lt_Some _ _ _ H3) as Hlen.
    destruct (lookup_lt_is_Some_2 (tensor_size latents) 2) as [ht ->]; [lia |].
    simpl. split; split; try done; try lia. by eexists.
  - pose proof (lookup_ge_None_1 _ _ H3) as Hlen. simpl.
    split; split; try done; try lia. by intros [out ?].
Qed.

(** [ScaleLatentsInvocation.invoke] interpolates the input latents by the
    node's scale factor in the node's mode, saves the result under
    ['<graph_execution_state_id>__<node id>'] and returns a
    [LatentsOutput] for that name with the seed of the input field. *)
Theorem scale_invoke_spec self context w field t resized :
  ScaleLatentsInvocation.latents self = Some field →
  stored w field t →
  let input := tensor_to (Some choose_torch_device) None t in
  let antialias :=
    if mode_in_bilinear_bicubic (ScaleLatentsInvocation.mode self)
    then ScaleLatentsInvocation.antialias self else false in
  interpolate input (TargetScaleFactor (ScaleLatentsInvocation.scale_factor self))
    (ScaleLatentsInvocation.mode self) antialias = Ok resized →
  (4 ≤ length (tensor_size (tensor_to (Some Cpu) None resized)))%nat →
  ∃ out w',
    ScaleLatentsInvocation.invoke self context w = Ok (out, w') ∧
    trace w' = trace w ++
      [CallInterpolate input
         (TargetScaleFactor (ScaleLatentsInvocation.scale_factor self))
         (ScaleLatentsInvocation.mode self) antialias;
       CallEmptyCache] ∧
    latents_store w' =
      <[graph_execution_state_id context +:+ "__" +:+ ScaleLatentsInvocation.id self
        := tensor_to (Some Cpu) None resized]> (latents_store w) ∧
    LatentsField.latents_name (LatentsOutput.latents out)
    = Some (graph_execution_state_id context +:+ "__" +:+ ScaleLatentsInvocation.id self) ∧
    LatentsField.seed (LatentsOutput.latents out) = LatentsField.seed field.
Proof.
  intros Hfield Hstored input antialias Hinterp Hrank.
  unfold ScaleLatentsInvocation.invoke, attr_of.
  rewrite Hfield. run_M.
  rewrite (latents_get_stored _ _ _ Hstored).
  fold input. fold antialias. rewrite Hinterp.
  unfold latents_save, build_latents_output, index. simpl.
  destruct (lookup_lt_is_Some_2 (tensor_size (tensor_to (Some Cpu) None resized)) 3)
    as [d3 ->]; [lia |].
  destruct (lookup_lt_is_Some_2 (tensor_size (tensor_to (Some Cpu) None resized)) 2)
    as [d2 ->]; [lia |].
  simpl. eexists _, _. repeat split. simpl. by rewrite <- app_assoc.
Qed.

(** The field a resize or scale node returns names the tensor it saved:
    reading it back from the new world gives that tensor, so the output
    can be the input of the next node; and no other entry of the store
    changes. *)
Theorem resize_scale_store_round_trip context w :
  (∀ self out w',
     ResizeLatentsInvocation.invoke self context w = Ok (out, w') →
     ∃ saved,
       latents_get (LatentsField.latents_name (LatentsOutput.latents out)) w'
       = Ok (saved, w') ∧
       ∀ name, name ≠ result_name context (ResizeLatentsInvocation.id self) →
               latents_store w' !! name = latents_store w !! name) ∧
  (∀ self out w',
     ScaleLatentsInvocation.invoke self context w = Ok (out, w') →
     ∃ saved,
       latents_get (LatentsField.latents_name (LatentsOutput.latents out)) w'
       = Ok (saved, w') ∧
       ∀ name, name ≠ result_name context (ScaleLatentsInvocation.id self) →
               latents_store w' !! name = latents_store w !! name).
Proof.
  split; intros self out w' Hrun.
  - apply resize_invoke_inv in Hrun
      as (field & resized & _ & _ & _ & Hstore & Hout & _).
    apply build_latents_output_inv in Hout as (wd & ht & _ & _ & ->).
    exists resized. simpl. unfold latents_get. rewrite Hstore, lookup_insert_eq.
    split; [done |]. intros name Hname. by rewrite lookup_insert_ne.
  - apply scale_invoke_inv in Hrun
      as (field & resized & _ & _ & _ & Hstore & Hout & _).
    apply build_latents_output_inv in Hout as (wd & ht & _ & _ & ->).
    exists resized. simpl. unfold latents_get. rewrite Hstore, lookup_insert_eq.
    split; [done |]. intros name Hname. by rewrite lookup_insert_ne.
Qed.

(** When [interpolate] returns a tensor of the size it was asked for, the
    resize node reports the requested width and height rounded down to a
    multiple of 8: exactly the requested ones when they are multiples
    of 8. *)
Theorem resize_invoke_reported_size self context w field t ht wd resized b c :
  ResizeLatentsInvocation.latents self = Some field →
  stored w field t →
  ResizeLatentsInvocation.height self = Some ht →
  ResizeLatentsInvocation.width self = Some wd →
  interpolate (tensor_to (Some choose_torch_device) None t)
    (TargetSize (ht / 8) (wd / 8)) (ResizeLatentsInvocation.mode self)
    (if mode_in_bilinear_bicubic (ResizeLatentsInvocation.mode self)
     then ResizeLatentsInvocation.antialias self else false) = Ok resized →
  tensor_size (tensor_to (Some Cpu) None resized) = [b; c; ht / 8; wd / 8] →
  ∃ out w',
    ResizeLatentsInvocation.invoke self context w = Ok (out, w') ∧
    LatentsOutput.width out = wd - wd mod 8 ∧
    LatentsOutput.height out = ht - ht mod 8 ∧
    wd - 8 < LatentsOutput.width out ≤ wd ∧
    ht - 8 < LatentsOutput.height out ≤ ht ∧
    (wd mod 8 = 0 → LatentsOutput.width out = wd) ∧
    (ht mod 8 = 0 → LatentsOutput.height out = ht).
Proof.
  intros Hfield Hstored Hht Hwd Hinterp Hsize.
  unfold ResizeLatentsInvocation.invoke, ResizeLatentsInvocation.floordiv8, attr_of.
  rewrite Hfield, Hht, Hwd. run_M.
  rewrite (latents_get_stored _ _ _ Hstored), Hinterp.
  unfold latents_save, build_latents_output, index. simpl.
  rewrite Hsize. simpl. eexists _, _. split; [reflexivity |]. simpl.
  pose proof (Z.div_mod wd 8 ltac:(lia)).
  pose proof (Z.div_mod ht 8 ltac:(lia)).
  pose proof (Z.mod_pos_bound wd 8 ltac:(lia)).
  pose proof (Z.mod_pos_bound ht 8 ltac:(lia)).
  lia.
Qed.

(** A run of the resize node that returns saved, moved to the CPU, what
    [interpolate] returned for the stored input. *)
Lemma resize_invoke_run self context w out w' :
  ResizeLatentsInvocation.invoke self context w = Ok (out, w') →
  ∃ field t ht wd resized,
    ResizeLatentsInvocation.latents self = Some field ∧
    stored w field t ∧
    ResizeLatentsInvocation.height self = Some ht ∧
    ResizeLatentsInvocation.width self = Some wd ∧
    interpolate (tensor_to (Some choose_torch_device) None t)
      (TargetSize (ht / 8) (wd / 8)) (ResizeLatentsInvocation.mode self)
      (if mode_in_bilinear_bicubic (ResizeLatentsInvocation.mode self)
       then ResizeLatentsInvocation.antialias self else false) = Ok resized ∧
    latents_store w'
    = <[result_name context (ResizeLatentsInvocation.id self)
        := tensor_to (Some Cpu) None resized]> (latents_store w) ∧
    build_latents_output (result_name context (ResizeLatentsInvocation.id self))
      (tensor_to (Some Cpu) None resized) (LatentsField.seed field) = Ok out ∧
    trace w' = trace w ++
      [CallInterpolate (tensor_to (Some choose_torch_device) None t)
         (TargetSize (ht / 8) (wd / 8)) (ResizeLatentsInvocation.mode self)
         (if mode_in_bilinear_bicubic (ResizeLatentsInvocation.mode self)
          then ResizeLatentsInvocation.antialias self else false);
       CallEmptyCache].
Proof.
  unfold ResizeLatentsInvocation.invoke, ResizeLatentsInvocation.floordiv8, attr_of.
  destruct (ResizeLatentsInvocation.latents self) as [field |]; [| done].
  run_M.
  destruct (latents_get _ w) as [[t w1] |] eqn:Hget; [| done].
  apply latents_get_inv in Hget as (-> & name & Hname & Ht).
  destruct (ResizeLatentsInvocation.height self) as [ht |]; [| done].
  destruct (ResizeLatentsInvocation.width self) as [wd |]; [| done].
  simpl. destruct (interpolate _ _ _ _) as [resized |] eqn:Hinterp; [| done].
  unfold latents_save. simpl.
  destruct (build_latents_output _ _ _) as [out' |] eqn:Hout; [| done].
  intros [= <- <-]. exists field, t, ht, wd, resized.
  split; [done |]. split; [by exists name |].
  repeat split; try done. simpl. by rewrite <- app_assoc.
Qed.

(** The same for the scale node. *)
Lemma scale_invoke_run self context w out w' :
  ScaleLatentsInvocation.invoke self context w = Ok (out, w') →
  ∃ field t resized,
    ScaleLatentsInvocation.latents self = Some field ∧
    stored w field t ∧
    interpolate (tensor_to (Some choose_torch_device) None t)
      (TargetScaleFactor (ScaleLatentsInvocation.scale_factor self))
      (ScaleLatentsInvocation.mode self)
      (if mode_in_bilinear_bicubic (ScaleLatentsInvocation.mode self)
       then ScaleLatentsInvocation.antialias self else false) = Ok resized ∧
    latents_store w'
    = <[result_name context (ScaleLatentsInvocation.id self)
        := tensor_to (Some Cpu) None resized]> (latents_store w) ∧
    build_latents_output (result_name context (ScaleLatentsInvocation.id self))
      (tensor_to (Some Cpu) None resized) (LatentsField.seed field) = Ok out ∧
    trace w' = trace w ++
      [CallInterpolate (tensor_to (Some choose_torch_device) None t)
         (TargetScaleFactor (ScaleLatentsInvocation.scale_factor self))
         (ScaleLatentsInvocation.mode self)
         (if mode_in_bilinear_bicubic (ScaleLatentsInvocation.mode self)
          then ScaleLatentsInvocation.antialias self else false);
       CallEmptyCache].
Proof.
  unfold ScaleLatentsInvocation.invoke, attr_of.
  destruct (ScaleLatentsInvocation.latents self) as [field |]; [| done].
  run_M.
  destruct (latents_get _ w) as [[t w1] |] eqn:Hget; [| done].
  apply latents_get_inv in Hget as (-> & name & Hname & Ht).
  destruct (interpolate _ _ _ _) as [resized |] eqn:Hinterp; [| done].
  unfold latents_save. simpl.
  destruct (build_latents_output _ _ _) as [out' |] eqn:Hout; [| done].
  intros [= <- <-]. exists field, t, resized.
  split; [done |]. split; [by exists name |].
  repeat split; try done. simpl. by rewrite <- app_assoc.
Qed.

(** In the bilinear and bicubic modes the node's antialias flag is what
    [interpolate] is called with: the tensor a resize or scale node that
    returns has saved, and named in its output, is the result of
    [interpolate] on the stored input with the node's own [antialias], moved
    to the CPU. *)
Theorem antialias_passed_in_bilinear_bicubic context w :
  (∀ self out w',
     ResizeLatentsInvocation.mode self = bilinear ∨
     ResizeLatentsInvocation.mode self = bicubic →
     ResizeLatentsInvocation.invoke self context w = Ok (out, w') →
     ∃ field t ht wd resized,
       ResizeLatentsInvocation.latents self = Some field ∧
       stored w field t ∧
       ResizeLatentsInvocation.height self = Some ht ∧
       ResizeLatentsInvocation.width self = Some wd ∧
       interpolate (tensor_to (Some choose_torch_device) None t)
         (TargetSize (ht / 8) (wd / 8)) (ResizeLatentsInvocation.mode self)
         (ResizeLatentsInvocation.antialias self) = Ok resized ∧
       LatentsField.latents_name (LatentsOutput.latents out)
       = Some (result_name context (ResizeLatentsInvocation.id self)) ∧
       latents_store w' !! result_name context (ResizeLatentsInvocation.id self)
       = Some (tensor_to (Some Cpu) None resized) ∧
       trace w' = trace w ++
         [CallInterpolate (tensor_to (Some choose_torch_device) None t)
            (TargetSize (ht / 8) (wd / 8)) (ResizeLatentsInvocation.mode self)
            (ResizeLatentsInvocation.antialias self);
          CallEmptyCache]) ∧
  (∀ self out w',
     ScaleLatentsInvocation.mode self = bilinear ∨
     ScaleLatentsInvocation.mode self = bicubic →
     ScaleLatentsInvocation.invoke self context w = Ok (out, w') →
     ∃ field t resized,
       ScaleLatentsInvocation.latents self = Some field ∧
       stored w field t ∧
       interpolate (tensor_to (Some choose_torch_device) None t)
         (TargetScaleFactor (ScaleLatentsInvocation.scale_factor self))
         (ScaleLatentsInvocation.mode self)
         (ScaleLatentsInvocation.antialias self) = Ok resized ∧
       LatentsField.latents_name (LatentsOutput.latents out)
       = Some (result_name context (ScaleLatentsInvocation.id self)) ∧
       latents_store w' !! result_name context (ScaleLatentsInvocation.id self)
       = Some (tensor_to (Some Cpu) None resized) ∧
       trace w' = trace w ++
         [CallInterpolate (tensor_to (Some choose_torch_device) None t)
            (TargetScaleFactor (ScaleLatentsInvocation.scale_factor self))
            (ScaleLatentsInvocation.mode self)
            (ScaleLatentsInvocation.antialias self);
          CallEmptyCache]).
Proof.
  split; intros self out w' Hmode Hrun.
  - apply resize_invoke_run in Hrun
      as (field & t & ht & wd & resized & Hfield & Hstored & Hht & Hwd & Hinterp
          & Hstore & Hout & Htrace).
    apply build_latents_output_inv in Hout as (? & ? & _ & _ & ->).
    assert (mode_in_bilinear_bicubic (ResizeLatentsInvocation.mode self) = true)
      as Hin by (by destruct Hmode as [-> | ->]).
    rewrite Hin in Hinterp, Htrace.
    exists field, t, ht, wd, resized.
    split; [done |]. split; [done |]. split; [done |]. split; [done |].
    split; [done |]. split; [done |].
    split; [by rewrite Hstore, lookup_insert_eq | done].
  - apply scale_invoke_run in Hrun
      as (field & t & resized & Hfield & Hstored & Hinterp & Hstore & Hout & Htrace).
    apply build_latents_output_inv in Hout as (? & ? & _ & _ & ->).
    assert (mode_in_bilinear_bicubic (ScaleLatentsInvocation.mode self) = true)
      as Hin by (by destruct Hmode as [-> | ->]).
    rewrite Hin in Hinterp, Htrace.
    exists field, t, resized.
    split; [done |]. split; [done |]. split; [done |]. split; [done |].
    split; [by rewrite Hstore, lookup_insert_eq | done].
Qed.

(** How the resize node fails: without a latents field it is an
    [AttributeError]; a field whose tensor is not in the store is the
    store's error; a missing height or width is a [TypeError], raised
    before [interpolate] is called; and an exception of [interpolate] comes
    out as it is. *)
Theorem resize_invoke_failures self context w :
  (ResizeLatentsInvocation.latents self = None →
   ResizeLatentsInvocation.invoke self context w = Raise AttributeError) ∧
  (∀ field,
     ResizeLatentsInvocation.latents self = Some field →
     (∀ t, ¬ stored w field t) →
     ResizeLatentsInvocation.invoke self context w = Raise (ExternalError "latents.get")) ∧
  (∀ field t,
     ResizeLatentsInvocation.latents self = Some field →
     stored w field t →
     ResizeLatentsInvocation.height self = None ∨
     ResizeLatentsInvocation.width self = None →
     ResizeLatentsInvocation.invoke self context w = Raise TypeError) ∧
  (∀ field t ht wd e,
     ResizeLatentsInvocation.latents self = Some field →
     stored w field t →
     ResizeLatentsInvocation.height self = Some ht →
     ResizeLatentsInvocation.width self = Some wd →
     interpolate (tensor_to (Some choose_torch_device) None t)
       (TargetSize (ht / 8) (wd / 8)) (ResizeLatentsInvocation.mode self)
       (if mode_in_bilinear_bicubic (ResizeLatentsInvocation.mode self)
        then ResizeLatentsInvocation.antialias self else false) = Raise e →
     ResizeLatentsInvocation.invoke self context w = Raise e).
Proof.
  unfold ResizeLatentsInvocation.invoke, ResizeLatentsInvocation.floordiv8, attr_of.
  split; [| split; [| split]].
  - by intros ->.
  - intros field -> Hnot. run_M. unfold latents_get.
    destruct (LatentsField.latents_name field) as [name |] eqn:Hname; [| done].
    destruct (latents_store w !! name) as [t |] eqn:Ht; [| done].
    destruct (Hnot t). by exists name.
  - intros field t -> Hstored Hnone. run_M.
    rewrite (latents_get_stored _ _ _ Hstored).
    destruct (ResizeLatentsInvocation.height self); [| done].
    by destruct Hnone as [? | ->].
  - intros field t ht wd e -> Hstored -> -> Hinterp. run_M.
    by rewrite (latents_get_stored _ _ _ Hstored), Hinterp.
Qed.

(** Resizing and then scaling: the scale node takes the field the resize
    node returned, runs on the tensor the resize node saved, and its output
    still carries the seed of the first input. *)
Theorem resize_then_scale self1 self2 context w out1 w1 field scaled :
  ResizeLatentsInvocation.latents self1 = Some field →
  ResizeLatentsInvocation.invoke self1 context w = Ok (out1, w1) →
  ScaleLatentsInvocation.latents self2 = Some (LatentsOutput.latents out1) →
  (∀ saved,
     latents_store w1 !! result_name context (ResizeLatentsInvocation.id self1)
     = Some saved →
     interpolate (tensor_to (Some choose_torch_device) None saved)
       (TargetScaleFactor (ScaleLatentsInvocation.scale_factor self2))
       (ScaleLatentsInvocation.mode self2)
       (if mode_in_bilinear_bicubic (ScaleLatentsInvocation.mode self2)
        then ScaleLatentsInvocation.antialias self2 else false) = Ok scaled) →
  (4 ≤ length (tensor_size (tensor_to (Some Cpu) None scaled)))%nat →
  ∃ out2 w2 saved,
    latents_store w1 !! result_name context (ResizeLatentsInvocation.id self1)
    = Some saved ∧
    ScaleLatentsInvocation.invoke self2 context w1 = Ok (out2, w2) ∧
    trace w2 = trace w1 ++
      [CallInterpolate (tensor_to (Some choose_torch_device) None saved)
         (TargetScaleFactor (ScaleLatentsInvocation.scale_factor self2))
         (ScaleLatentsInvocation.mode self2)
         (if mode_in_bilinear_bicubic (ScaleLatentsInvocation.mode self2)
          then ScaleLatentsInvocation.antialias self2 else false);
       CallEmptyCache] ∧
    LatentsField.seed (LatentsOutput.latents out2) = LatentsField.seed field.
Proof.
  intros Hfield1 Hrun1 Hfield2 Hinterp Hrank.
  apply resize_invoke_inv in Hrun1
    as (field' & saved & _ & _ & Hfield' & Hstore & Hout & _).
  rewrite Hfield1 in Hfield'. injection Hfield' as <-.
  apply build_latents_output_inv in Hout as (wd & ht & _ & _ & ->).
  assert (latents_store w1 !! result_name context (ResizeLatentsInvocation.id self1)
          = Some saved) as Hsaved by (by rewrite Hstore, lookup_insert_eq).
  specialize (Hinterp saved Hsaved).
  assert (stored w1 {| LatentsField.latents_name :=
                         Some (result_name context (ResizeLatentsInvocation.id self1));
                       LatentsField.seed := LatentsField.seed field |} saved)
    as Hstored by (by eexists).
  pose proof (latents_get_stored _ _ _ Hstored) as Hget. simpl in Hget.
  unfold ScaleLatentsInvocation.invoke, attr_of. rewrite Hfield2. run_M.
  rewrite Hget, Hinterp.
  unfold latents_save, build_latents_output, index. simpl.
  destruct (lookup_lt_is_Some_2 (tensor_size (tensor_to (Some Cpu) None scaled)) 3)
    as [d3 ->]; [lia |].
  destruct (lookup_lt_is_Some_2 (tensor_size (tensor_to (Some Cpu) None scaled)) 2)
    as [d2 ->]; [lia |].
  simpl. eexists _, _, saved. repeat split; try done.
  simpl. by rewrite <- app_assoc.
Qed.
End latents_more.

(** ** VAE precision, and what decoding and encoding leave behind *)

Section vae_more.
Context `{Runtime}.
Implicit Types (context : InvocationContext) (w : World).

(** The precision the decoder runs at, for the VAE and the latents that
    the image in the output was decoded from.  With [fp32] unset the VAE
    and all its blocks are float16 and the latents are cast to float16.  With
    [fp32] set the VAE is float32; under a torch-2.0 or xformers attention
    processor [post_quant_conv], [decoder.conv_in] and [decoder.mid_block]
    go back to the dtype of the latents, which are not cast; otherwise
    all blocks stay float32 and the latents are cast to float32.  The
    latents are divided by the VAE's scaling factor, and the latents store
    is not written. *)
Theorem latents_to_image_precision self context w field t vae_field v :
  LatentsToImageInvocation.latents self = Some field →
  stored w field t →
  LatentsToImageInvocation.vae self = Some vae_field →
  get_model (services context) (VaeField.vae vae_field) = Ok (VaeModel v) →
  let moved := tensor_to (Some (vae_device v)) None t in
  ∃ out w' vae latents,
    let image :=
      numpy_to_pil (clamp 0 1 (add_scalar (div_scalar (vae_decode vae latents) 2) 0.5)) in
    let image_dto :=
      images_create (services context) image "internal" "general"
        (LatentsToImageInvocation.id self) (graph_execution_state_id context)
        (LatentsToImageInvocation.is_intermediate self)
        (LatentsToImageInvocation.metadata self) in
    LatentsToImageInvocation.invoke self context w = Ok (out, w') ∧
    out = {| ImageOutput.image := {| ImageField.image_name := dto_image_name image_dto |};
             ImageOutput.width := dto_width image_dto;
             ImageOutput.height := dto_height image_dto |} ∧
    trace w' = trace w ++
      [CallEmptyCache; CallVaeDecode vae latents; CallEmptyCache;
       CallImagesCreate image (LatentsToImageInvocation.id self)
         (graph_execution_state_id context)] ∧
    latents_store w' = latents_store w ∧
    scaling_factor vae = scaling_factor v ∧
    vae_device vae = vae_device v ∧
    vae_dtype vae = (if LatentsToImageInvocation.fp32 self then Float32 else Float16) ∧
    (LatentsToImageInvocation.fp32 self = false →
     post_quant_conv_dtype vae = Float16 ∧
     decoder_conv_in_dtype vae = Float16 ∧
     decoder_mid_block_dtype vae = Float16 ∧
     latents = div_scalar (tensor_to None (Some Float16) moved) (scaling_factor v)) ∧
    (LatentsToImageInvocation.fp32 self = true →
     use_torch_2_0_or_xformers v = true →
     post_quant_conv_dtype vae = tensor_dtype moved ∧
     decoder_conv_in_dtype vae = tensor_dtype moved ∧
     decoder_mid_block_dtype vae = tensor_dtype moved ∧
     latents = div_scalar moved (scaling_factor v)) ∧
    (LatentsToImageInvocation.fp32 self = true →
     use_torch_2_0_or_xformers v = false →
     post_quant_conv_dtype vae = Float32 ∧
     decoder_conv_in_dtype vae = Float32 ∧
     decoder_mid_block_dtype vae = Float32 ∧
     latents = div_scalar (tensor_to None (Some Float32) moved) (scaling_factor v)).
Proof.
  intros Hfield Hstored Hvae Hmodel moved.
  unfold LatentsToImageInvocation.invoke, attr_of.
  rewrite Hfield, Hvae. run_M.
  rewrite (latents_get_stored _ _ _ Hstored), Hmodel. simpl. fold moved.
  change (use_torch_2_0_or_xformers (vae_to Float32 v))
    with (use_torch_2_0_or_xformers v).
  destruct (LatentsToImageInvocation.fp32 self);
    [destruct (use_torch_2_0_or_xformers v) |]; simpl;
    destruct (LatentsToImageInvocation.tiled self || tiled_decode (services context));
    (eexists _, _, _, _; split; [reflexivity |]; split; [reflexivity |]; simpl;
     rewrite <- !app_assoc; simpl;
     repeat first [done | split | intros ?]).
Qed.

(** How the decoder node fails: without a latents field, without a VAE
    field, or when the model manager hands out something that is not a
    VAE, it is an [AttributeError]; an exception of the model manager
    comes out as it is. *)
Theorem latents_to_image_failures self context w :
  (LatentsToImageInvocation.latents self = None →
   LatentsToImageInvocation.invoke self context w = Raise AttributeError) ∧
  (∀ field t,
     LatentsToImageInvocation.latents self = Some field →
     stored w field t →
     (LatentsToImageInvocation.vae self = None →
      LatentsToImageInvocation.invoke self context w = Raise AttributeError) ∧
     (∀ vae_field m,
        LatentsToImageInvocation.vae self = Some vae_field →
        get_model (services context) (VaeField.vae vae_field) = Ok m →
        (∀ v, m ≠ VaeModel v) →
        LatentsToImageInvocation.invoke self context w = Raise AttributeError) ∧
     (∀ vae_field e,
        LatentsToImageInvocation.vae self = Some vae_field →
        get_model (services context) (VaeField.vae vae_field) = Raise e →
        LatentsToImageInvocation.invoke self context w = Raise e)).
Proof.
  unfold LatentsToImageInvocation.invoke, attr_of. split.
  - by intros ->.
  - intros field t -> Hstored. run_M.
    rewrite (latents_get_stored _ _ _ Hstored). split; [| split].
    + by intros ->.
    + intros vae_field m -> -> Hm. simpl.
      destruct m as [s | v | c]; try done. by destruct (Hm v).
    + by intros vae_field e -> ->.
Qed.

(** The encoder node saves the latents it sampled under
    ['<graph_execution_state_id>__<node id>'], back in the dtype the VAE
    had and on the CPU, and changes no other entry of the store; it
    returns what [build_latents_output] makes of the saved latents, an
    output for that name that carries no seed.  It encodes at float16
    with [fp32] unset and at float32 with [fp32] set, where under a
    torch-2.0 or xformers attention processor [post_quant_conv],
    [decoder.conv_in] and [decoder.mid_block] keep the VAE's original
    dtype.  The image tensor is moved to the VAE's device and dtype, after
    a batch dimension was added to a three-dimensional one. *)
Theorem image_to_latents_spec self context w image_field image vae_field v :
  ImageToLatentsInvocation.image self = Some image_field →
  get_pil_image (services context) (ImageField.image_name image_field) = Ok image →
  ImageToLatentsInvocation.vae self = Some vae_field →
  get_model (services context) (VaeField.vae vae_field) = Ok (VaeModel v) →
  let grid := image_resized_to_grid_as_tensor (convert image "RGB") in
  let batched :=
    if bool_decide (length (tensor_size grid) = 3%nat)
    then rearrange_chw_1chw grid else grid in
  let name := graph_execution_state_id context +:+ "__" +:+ ImageToLatentsInvocation.id self in
  ∃ w' vae sampled,
    let image_tensor := tensor_to (Some (vae_device v)) (Some (vae_dtype vae)) batched in
    let saved :=
      tensor_to (Some Cpu) None
        (tensor_to None (Some (vae_dtype v))
           (scalar_mul (scaling_factor v)
              (tensor_to None (Some (vae_dtype vae)) sampled))) in
    ImageToLatentsInvocation.invoke self context w
    = (out ← build_latents_output name saved None; Ok (out, w')) ∧
    (∀ wd ht,
       tensor_size saved !! 3%nat = Some wd →
       tensor_size saved !! 2%nat = Some ht →
       ImageToLatentsInvocation.invoke self context w
       = Ok ({| LatentsOutput.latents :=
                  {| LatentsField.latents_name := Some name;
                     LatentsField.seed := None |};
                LatentsOutput.width := wd * 8;
                LatentsOutput.height := ht * 8 |}, w')) ∧
    (∀ out w'',
       ImageToLatentsInvocation.invoke self context w = Ok (out, w'') →
       w'' = w' ∧
       LatentsOutput.latents out
       = {| LatentsField.latents_name := Some name; LatentsField.seed := None |}) ∧
    sampled = vae_encode_sample vae image_tensor ∧
    trace w' = trace w ++ [CallVaeEncode vae image_tensor] ∧
    latents_store w' = <[name := saved]> (latents_store w) ∧
    vae_dtype vae = (if ImageToLatentsInvocation.fp32 self then Float32 else Float16) ∧
    (let blocks :=
       if ImageToLatentsInvocation.fp32 self
       then if use_torch_2_0_or_xformers v then vae_dtype v else Float32
       else Float16 in
     post_quant_conv_dtype vae = blocks ∧
     decoder_conv_in_dtype vae = blocks ∧
     decoder_mid_block_dtype vae = blocks).
Proof.
  intros Himage Hpil Hvae Hmodel grid batched name.
  unfold ImageToLatentsInvocation.invoke, attr_of.
  rewrite Himage, Hvae. run_M. rewrite Hpil, Hmodel. simpl.
  fold grid. fold batched. fold name. unfold latents_save. simpl.
  change (use_torch_2_0_or_xformers (vae_to Float32 v))
    with (use_torch_2_0_or_xformers v).
  destruct (ImageToLatentsInvocation.fp32 self);
    [destruct (use_torch_2_0_or_xformers v) |]; simpl;
    destruct (ImageToLatentsInvocation.tiled self);
    (eexists _, _, _; split; [reflexivity |]; simpl;
     split;
     [ intros wd ht Hwd Hht; unfold build_latents_output, index;
       by rewrite Hwd, Hht
     | split;
       [ intros out w'';
         destruct (build_latents_output _ _ _) as [out' |] eqn:Hout; [| done];
         simpl; intros [= <- <-];
         apply build_latents_output_inv in Hout as (? & ? & _ & _ & ->); done
       | repeat first [done | split | intros ?] ] ]).
Qed.
End vae_more.

(** ** The guidance scale validator and the generator seed *)

(** [ge_one] accepts a guidance scale, and returns it as it is, exactly
    when none of its values compares below 1; it rejects every other one
    with [ValueError].  The empty list is accepted. *)
Theorem ge_one_spec v :
  (ge_one v = Ok v ↔ Forall (λ i, (i <? 1)%float = false) (cfg_scale_values v)) ∧
  (ge_one v ≠ Ok v → ge_one v = Raise ValueError) ∧
  ge_one (FloatList []) = Ok (FloatList []).
Proof.
  assert (∀ l, (ge_one_loop l = Ok () ↔ Forall (λ i, (i <? 1)%float = false) l) ∧
               (ge_one_loop l ≠ Ok () → ge_one_loop l = Raise ValueError)) as Hloop.
  { induction l as [| i l [IH1 IH2]]; simpl.
    - split; [by split | done].
    - destruct (i <? 1)%float eqn:Hi.
      + split; [| done]. split; [done |]. intros Hall.
        apply Forall_cons in Hall as [Hi' _]. congruence.
      + split; [| done]. rewrite IH1. split.
        * intros Hall. by constructor.
        * intros Hall. by apply Forall_cons in Hall as [_ Hall]. }
  split; [| split; [| done]].
  - destruct v as [f | l]; simpl.
    + destruct (f <? 1)%float eqn:Hf.
      * split; [done |]. intros Hall. apply Forall_cons in Hall as [Hf' _]. congruence.
      * split; [| done]. intros _. by repeat constructor.
    + destruct (Hloop l) as [Hiff _]. rewrite <- Hiff.
      destruct (ge_one_loop l) as [[] |]; simpl; by split.
  - destruct v as [f | l]; simpl.
    + by destruct (f <? 1)%float.
    + destruct (Hloop l) as [_ Helse].
      destruct (ge_one_loop l) as [[] | e] eqn:Hl; simpl; [done |].
      intros _. by injection (Helse ltac:(done)) as ->.
Qed.

(** Flipping the low 32 bits of a seed never gives the seed back, is undone
    by flipping again, and maps a 32-bit seed to [0xFFFFFFFF - seed], again
    a 32-bit seed. *)
Lemma flipped_seed_facts seed :
  DenoiseLatents.flipped_seed seed ≠ seed ∧
  DenoiseLatents.flipped_seed (DenoiseLatents.flipped_seed seed) = seed ∧
  (0 ≤ seed < 2 ^ 32 →
   DenoiseLatents.flipped_seed seed = 2 ^ 32 - 1 - seed ∧
   0 ≤ DenoiseLatents.flipped_seed seed < 2 ^ 32).
Proof.
  unfold DenoiseLatents.flipped_seed. split; [| split].
  - intros Heq.
    assert (Z.lxor seed (Z.lxor seed 0xFFFFFFFF) = Z.lxor seed seed) as Hx
      by (by rewrite Heq).
    rewrite <- Z.lxor_assoc, Z.lxor_nilpotent, Z.lxor_0_l in Hx. discriminate Hx.
  - by rewrite Z.lxor_assoc, Z.lxor_nilpotent, Z.lxor_0_r.
  - intros Hrange.
    assert (Z.lxor seed 0xFFFFFFFF = 2 ^ 32 - 1 - seed) as ->; [| lia].
    change 0xFFFFFFFF with (Z.ones 32). change (2 ^ 32 - 1) with (Z.ones 32).
    assert (Z.ldiff seed (Z.ones 32) = 0) as Hlow.
    { destruct (decide (seed = 0)) as [-> | Hne]; [done |].
      apply Z.ldiff_ones_r_low; [lia |]. apply Z.log2_lt_pow2; lia. }
    rewrite (Z.sub_nocarry_ldiff _ _ Hlow).
    apply Z.bits_inj'. intros i Hi.
    apply (f_equal (λ z, Z.testbit z i)) in Hlow.
    rewrite Z.ldiff_spec, Z.bits_0 in Hlow.
    rewrite Z.lxor_spec, Z.ldiff_spec.
    by destruct (Z.testbit seed i), (Z.testbit (Z.ones 32) i).
Qed.

(** Flipping the low 32 bits leaves the rest of the seed alone, so the
    flipped seed fits torch's 64-bit seed exactly when the seed does. *)
Lemma flipped_seed_range seed :
  - 2 ^ 63 ≤ DenoiseLatents.flipped_seed seed ≤ 2 ^ 64 - 1 ↔
  - 2 ^ 63 ≤ seed ≤ 2 ^ 64 - 1.
Proof.
  assert (∀ x, - 2 ^ 63 ≤ x ≤ 2 ^ 64 - 1 ↔ - 2 ^ 31 ≤ Z.shiftr x 32 ≤ 2 ^ 32 - 1)
    as Hhigh.
  { intros x. rewrite Z.shiftr_div_pow2 by lia.
    pose proof (Z.div_mod x (2 ^ 32) ltac:(lia)) as Hx.
    pose proof (Z.mod_pos_bound x (2 ^ 32) ltac:(lia)) as Hr.
    change (2 ^ 63) with 9223372036854775808.
    change (2 ^ 64) with 18446744073709551616.
    change (2 ^ 31) with 2147483648.
    change (2 ^ 32) with 4294967296 in *.
    lia. }
  rewrite (Hhigh (DenoiseLatents.flipped_seed seed)), (Hhigh seed).
  unfold DenoiseLatents.flipped_seed.
  rewrite Z.shiftr_lxor.
  change (Z.shiftr 0xFFFFFFFF 32) with 0. by rewrite Z.lxor_0_r.
Qed.

(** ** The denoising node as a whole *)

Section denoise_properties.
Context `{DenoiseRuntime, Diffusers}.
Variable SCHEDULER_MAP : gmap string (string * gmap string cfg_val).
Variable backend : DenoiseBackend.
Implicit Types (context : InvocationContext) (w : World).

(** The conditioning data of a node whose two conditionings are stored.
    For a seed that fits torch's 64-bit generator seed, from [-2^63] to
    [2^64 - 1], the positive conditioning is the text embedding and the
    negative one the unconditioned embedding, both moved to the UNet's
    device and dtype; the guidance scale is the node's [cfg_scale]; and
    the generator that goes to the scheduler is on the UNet's device with
    a seed that is never the node's seed: the seed with its low 32 bits
    flipped, for a 32-bit seed [0xFFFFFFFF - seed].  For any other seed
    [manual_seed] fails and the node raises [RuntimeError]. *)
Theorem get_conditioning_data_spec self context scheduler unet seed
    positive negative c cs uc ucs :
  DenoiseLatents.positive_conditioning self = Some positive →
  get_conditionings backend (ConditioningField.conditioning_name positive)
  = Ok (c :: cs) →
  DenoiseLatents.negative_conditioning self = Some negative →
  get_conditionings backend (ConditioningField.conditioning_name negative)
  = Ok (uc :: ucs) →
  (- 2 ^ 63 ≤ seed ≤ 2 ^ 64 - 1 →
   ∃ data generator,
     DenoiseLatents.get_conditioning_data backend self context scheduler unet seed
     = Ok (add_scheduler_args_if_applicable backend data scheduler 0 generator) ∧
     text_embeddings data = conditioning_to (unet_device unet) (unet_dtype unet) c ∧
     unconditioned_embeddings data
     = conditioning_to (unet_device unet) (unet_dtype unet) uc ∧
     extra data = extra_conditioning (text_embeddings data) ∧
     guidance_scale data = DenoiseLatents.cfg_scale self ∧
     manual_seed (unet_device unet) (Z.lxor seed 0xFFFFFFFF) = Ok generator ∧
     generator_device generator = unet_device unet ∧
     generator_seed generator ≠ seed ∧
     Z.lxor (generator_seed generator) 0xFFFFFFFF = seed ∧
     (0 ≤ seed < 2 ^ 32 →
      generator_seed generator = 2 ^ 32 - 1 - seed ∧
      0 ≤ generator_seed generator < 2 ^ 32)) ∧
  (¬ (- 2 ^ 63 ≤ seed ≤ 2 ^ 64 - 1) →
   DenoiseLatents.get_conditioning_data backend self context scheduler unet seed
   = Raise RuntimeError).
Proof.
  intros Hpos Hc Hneg Huc.
  unfold DenoiseLatents.get_conditioning_data, attr_of, index.
  rewrite Hpos, Hneg. simpl. rewrite Hc, Huc. simpl.
  destruct (flipped_seed_facts seed) as (Hne & Hinv & Hrange).
  pose proof (flipped_seed_range seed) as Hfits.
  unfold manual_seed. fold (DenoiseLatents.flipped_seed seed).
  split; intros Hseed.
  - rewrite bool_decide_eq_true_2 by (by apply Hfits). simpl.
    eexists _, _. split; [reflexivity |]. simpl.
    repeat split; try done; by apply Hrange.
  - rewrite bool_decide_eq_false_2; [done |]. intros Hflipped. by apply Hseed, Hfits.
Qed.

Lemma last_two_app {A : Type} (front : list A) (h w : A) :
  DenoiseLatents.last_two (front ++ [h; w]) = [h; w].
Proof.
  unfold DenoiseLatents.last_two. rewrite length_app. simpl.
  replace (length front + 2 - 2)%nat with (length front) by lia.
  by rewrite drop_app_length.
Qed.

(** Without a mask there is no mask tensor and the image service is not
    asked.  With one, the mask image is converted to mode [L] unless it
    is in that mode already, gets a batch dimension if it has three
    dimensions, is resized to the last two dimensions of the latents, and
    is inverted. *)
Theorem prep_mask_tensor_spec context lantents :
  DenoiseLatents.prep_mask_tensor None context lantents = Ok None ∧
  ∀ mask mask_image front ht wd,
    get_pil_image (services context) (ImageField.image_name mask) = Ok mask_image →
    tensor_size lantents = front ++ [ht; wd] →
    ∃ grey grid,
      DenoiseLatents.prep_mask_tensor (Some mask) context lantents
      = Ok (Some (one_minus (tv_resize_bilinear grid [ht; wd]))) ∧
      (image_mode mask_image = "L" → grey = mask_image) ∧
      (image_mode mask_image ≠ "L" → grey = convert mask_image "L") ∧
      (length (tensor_size (image_resized_to_grid_as_tensor_unnormalized grey)) = 3%nat →
       grid = unsqueeze_0 (image_resized_to_grid_as_tensor_unnormalized grey)) ∧
      (length (tensor_size (image_resized_to_grid_as_tensor_unnormalized grey)) ≠ 3%nat →
       grid = image_resized_to_grid_as_tensor_unnormalized grey).
Proof.
  split; [done |].
  intros mask mask_image front ht wd Himage Hsize.
  unfold DenoiseLatents.prep_mask_tensor. rewrite Himage. simpl.
  rewrite Hsize, last_two_app.
  set (grey := if negb (String.eqb (image_mode mask_image) "L")
               then convert mask_image "L" else mask_image).
  exists grey. eexists. split; [reflexivity |].
  repeat split.
  - intros Hmode. unfold grey. by rewrite Hmode.
  - intros Hmode. unfold grey.
    destruct (String.eqb_spec (image_mode mask_image) "L"); done.
  - intros Hdim. by rewrite bool_decide_eq_true_2.
  - intros Hdim. by rewrite bool_decide_eq_false_2.
Qed.

(** A run of the node's opening that returns left the world alone and
    chose the seed of [resolved_seed]. *)
Lemma invoke_seed_noise_latents_inv inputs context w seed noise latents w0 :
  DenoiseLatentsInvocation.invoke_seed_noise_latents inputs context w
  = Ok ((seed, noise, latents), w0) →
  w0 = w ∧ seed = resolved_seed inputs.
Proof.
  unfold DenoiseLatentsInvocation.invoke_seed_noise_latents, resolved_seed.
  destruct (DenoiseLatentsInvocation.noise inputs) as [nf |]; run_M.
  - destruct (latents_get _ w) as [[nt w1] |] eqn:Hn; [| done].
    apply latents_get_inv in Hn as [-> _]. simpl.
    destruct (DenoiseLatentsInvocation.latents inputs) as [lf |]; simpl.
    + destruct (latents_get _ w) as [[lt w2] |] eqn:Hl; [| done].
      apply latents_get_inv in Hl as [-> _]. simpl.
      intros [= <- <- <- <-].
      by destruct (LatentsField.seed nf), (LatentsField.seed lf).
    + intros [= <- <- <- <-]. by destruct (LatentsField.seed nf).
  - destruct (DenoiseLatentsInvocation.latents inputs) as [lf |]; simpl; [| done].
    destruct (latents_get _ w) as [[lt w2] |] eqn:Hl; [| done].
    apply latents_get_inv in Hl as [-> _]. simpl.
    intros [= <- <- <- <-]. by destruct (LatentsField.seed lf).
Qed.

(** What a run of the denoising node that returns has done.  It sampled
    once, with the seed of [resolved_seed], which is also the seed of the
    output; the timesteps it sampled are a contiguous run of the timesteps
    of the pipeline's scheduler and [init_timestep] is the first of that
    run and what follows it.  The image tensor of every control item it
    sampled with is the result of [prepare_control_image] at 8 times the
    width and height of the latents it sampled from, and that call is the
    one recorded for the item.  The sampled latents, moved to the CPU, were saved under
    ['<graph_execution_state_id>__<node id>'], the only entry of the store
    that changed, and the output reports 8 times their size. *)
Theorem denoise_invoke_spec self context w out w' :
  DenoiseLatents.invoke SCHEDULER_MAP backend self context w = Ok (out, w') →
  let inputs := DenoiseLatents.inputs self in
  let name :=
    graph_execution_state_id context +:+ "__" +:+ DenoiseLatentsInvocation.id inputs in
  ∃ call result maps calls wd ht,
    latents_from_embeddings backend call = Ok (result, maps) ∧
    call_seed call = resolved_seed inputs ∧
    (∃ before after,
       timesteps (pipeline_scheduler (call_pipeline call))
       = before ++ call_timesteps call ++ after ∧
       call_init_timestep call = take 1 (call_timesteps call ++ after)) ∧
    0 ≤ call_num_inference_steps call ≤ Z.of_nat (length (call_timesteps call)) ∧
    tensor_size (call_latents call) !! 3%nat = Some wd ∧
    tensor_size (call_latents call) !! 2%nat = Some ht ∧
    trace w' = trace w ++ calls ++ [CallEmptyCache] ∧
    Forall (λ c, ∃ img device dtype control_mode resize_mode,
              c = CallPrepareControlImage img true (wd * 8) (ht * 8) device dtype
                    control_mode resize_mode) calls ∧
    match call_control_data call with
    | None => calls = []
    | Some control_data =>
        control_data ≠ [] ∧ length calls = length control_data ∧
        Forall2 (prepared_by true (wd * 8) (ht * 8)) calls control_data
    end ∧
    latents_store w' = <[name := tensor_to (Some Cpu) None result]> (latents_store w) ∧
    LatentsOutput.latents out
    = {| LatentsField.latents_name := Some name;
         LatentsField.seed := Some (resolved_seed inputs) |} ∧
    ∃ rw rh,
      tensor_size (tensor_to (Some Cpu) None result) !! 3%nat = Some rw ∧
      tensor_size (tensor_to (Some Cpu) None result) !! 2%nat = Some rh ∧
      LatentsOutput.width out = rw * 8 ∧
      LatentsOutput.height out = rh * 8.
Proof.
  intros Hrun inputs name. unfold DenoiseLatents.invoke in Hrun.
  apply M_bind_inv in Hrun as ([[seed noise] latents] & w0 & Hopening & Hrun).
  apply invoke_seed_noise_latents_inv in Hopening as [-> Hseed].
  cbv beta iota zeta in Hrun.
  apply M_bind_inv in Hrun as (mask & w1 & Hmask & Hrun).
  apply lift_inv in Hmask as [Hmask ->].
  apply M_bind_inv in Hrun as (mapping & w1 & Hmapping & Hrun).
  apply lift_inv in Hmapping as [Hmapping ->].
  apply M_bind_inv in Hrun as (source_node_id & w1 & Hsource & Hrun).
  apply lift_inv in Hsource as [Hsource ->].
  apply M_bind_inv in Hrun as (self_unet & w1 & Hself_unet & Hrun).
  apply lift_inv in Hself_unet as [Hself_unet ->].
  cbv beta iota zeta in Hrun.
  apply M_bind_inv in Hrun as (unet_info & w1 & Hunet_info & Hrun).
  apply lift_inv in Hunet_info as [Hunet_info ->].
  apply M_bind_inv in Hrun as (loras & w1 & Hloras & Hrun).
  apply lift_inv in Hloras as [Hloras ->].
  apply M_bind_inv in Hrun as (unet & w1 & Hunet & Hrun).
  apply lift_inv in Hunet as [Hunet ->].
  cbv beta iota zeta in Hrun.
  apply M_bind_inv in Hrun as (scheduler & w1 & Hscheduler & Hrun).
  apply lift_inv in Hscheduler as [Hscheduler ->].
  cbv beta iota zeta in Hrun.
  apply M_bind_inv in Hrun as (conditioning_data & w1 & Hconditioning & Hrun).
  apply lift_inv in Hconditioning as [Hconditioning ->].
  apply M_bind_inv in Hrun as ([control_data exit_stack] & w1 & Hcontrol & Hrun).
  cbv beta iota zeta in Hrun.
  apply M_bind_inv in Hrun
    as ([[[num_inference_steps ts] init] scheduler'] & w2 & Hinit & Hrun).
  apply lift_inv in Hinit as [Hinit ->].
  cbv beta iota zeta in Hrun.
  apply M_bind_inv in Hrun as ([result maps] & w2 & Hsample & Hrun).
  apply lift_inv in Hsample as [Hsample ->].
  cbv beta iota zeta in Hrun.
  apply M_bind_inv in Hrun as ([] & w2 & Hcache & Hrun).
  injection Hcache as <-.
  apply M_bind_inv in Hrun as ([] & w3 & Hsave & Hrun).
  injection Hsave as <-.
  apply lift_inv in Hrun as [Hout ->].
  apply build_latents_output_inv in Hout as (rw & rh & Hrw & Hrh & ->).
  apply init_scheduler_run in Hinit as (-> & Hrun_of & _ & Hbound).
  apply prep_control_data_run in Hcontrol
    as (Hstore & ht & wd & Hht & Hwd & Hframe).
  set (moved := tensor_to (Some (unet_device unet)) (Some (unet_dtype unet)) latents)
    in *.
  assert (∃ calls,
            trace w1 = trace w ++ calls ∧
            match control_data with
            | None => calls = []
            | Some control_data =>
                control_data ≠ [] ∧ length calls = length control_data ∧
                Forall2 (prepared_by true (wd * 8) (ht * 8)) calls control_data
            end) as (calls & Htrace & Hcalls).
  { destruct control_data as [cd |].
    - destruct Hframe
        as (Hne & entered & calls & cfs & _ & Htrace & _ & Hlen & _ & Hby & _).
      by exists calls.
    - destruct Hframe as [_ ->]. exists []. by rewrite app_nil_r. }
  eexists _, result, maps, calls, wd, ht.
  split; [exact Hsample |]. simpl.
  split; [done |]. split; [exact Hrun_of |]. split; [done |].
  split; [done |]. split; [done |].
  split; [by rewrite Htrace, app_assoc |].
  split.
  { destruct control_data as [cd |].
    - destruct Hcalls as (_ & _ & Hby). by apply prepared_by_calls in Hby.
    - by subst. }
  split; [done |].
  split; [by rewrite Hstore |]. split; [by rewrite Hseed |].
  by exists rw, rh.
Qed.

End denoise_properties.

(** ** The further properties on concrete runs *)

Lemma scale_invoke_spec_witness :
  ∃ out w',
    @ScaleLatentsInvocation.invoke toy_runtime (toy_scale bicubic true)
      toy_context toy_world = Ok (out, w') ∧
    trace w' =
      [@CallInterpolate toy_runtime (toy_to (Some (Cuda 0)) None (toy_latents 64 96))
         (TargetScaleFactor 0.5) bicubic true;
       CallEmptyCache] ∧
    LatentsField.latents_name (LatentsOutput.latents out) = Some "session__scale" ∧
    LatentsField.seed (LatentsOutput.latents out) = Some 42.
Proof.
  edestruct (@scale_invoke_spec toy_runtime (toy_scale bicubic true) toy_context
               toy_world (toy_field "latents" (Some 42)) (toy_latents 64 96))
    as (out & w' & Hrun & Htrace & _ & Hname & Hseed).
  - reflexivity.
  - exact toy_latents_stored.
  - reflexivity.
  - simpl. lia.
  - exists out, w'. repeat split; assumption.
Defined.

Lemma resize_invoke_reported_size_witness :
  ∃ out w',
    @ResizeLatentsInvocation.invoke toy_runtime (toy_resize nearest false)
      toy_context toy_world = Ok (out, w') ∧
    LatentsOutput.width out = 512 ∧
    LatentsOutput.height out = 256.
Proof.
  edestruct (@resize_invoke_reported_size toy_runtime (toy_resize nearest false)
               toy_context toy_world (toy_field "latents" (Some 42))
               (toy_latents 64 96) 260 516)
    as (out & w' & Hrun & Hwidth & Hheight & _).
  - reflexivity.
  - exact toy_latents_stored.
  - reflexivity.
  - reflexivity.
  - reflexivity.
  - reflexivity.
  - exists out, w'. repeat split; assumption.
Defined.

Lemma antialias_passed_witness :
  ∃ out w' t ht wd resized,
    @ResizeLatentsInvocation.invoke toy_runtime (toy_resize bilinear true)
      toy_context toy_world = Ok (out, w') ∧
    @interpolate toy_runtime (toy_to (Some (Cuda 0)) None t)
      (TargetSize (ht / 8) (wd / 8)) bilinear true = Ok resized ∧
    latents_store w' !! "session__resize" = Some (toy_to (Some Cpu) None resized) ∧
    LatentsField.latents_name (LatentsOutput.latents out) = Some "session__resize".
Proof.
  set (out :=
         {| LatentsOutput.latents := toy_field "session__resize" (Some 42);
            LatentsOutput.width := 512;
            LatentsOutput.height := 256 |}).
  set (w' :=
         {| latents_store :=
              <["session__resize" :=
                  toy_to (Some Cpu) None
                    (toy_op "interpolate(antialias)"
                       (toy_reshape [1; 4; 32; 64]
                          (toy_to (Some (Cuda 0)) None (toy_latents 64 96))))]>
                (latents_store toy_world);
            trace :=
              [@CallInterpolate toy_runtime
                 (toy_to (Some (Cuda 0)) None (toy_latents 64 96))
                 (TargetSize 32 64) bilinear true;
               CallEmptyCache] |} : @World toy_runtime).
  assert (@ResizeLatentsInvocation.invoke toy_runtime (toy_resize bilinear true)
            toy_context toy_world = Ok (out, w')) as Hrun
    by reflexivity.
  destruct (@antialias_passed_in_bilinear_bicubic toy_runtime toy_context toy_world)
    as [Hresize _].
  destruct (Hresize (toy_resize bilinear true) out w' (or_introl eq_refl) Hrun)
    as (field & t & ht & wd & resized & _ & _ & _ & _ & Hinterp & Hname & Hsaved & _).
  exists out, w', t, ht, wd, resized.
  split; [exact Hrun |]. split; [exact Hinterp |].
  split; [exact Hsaved | exact Hname].
Defined.

Lemma resize_then_scale_witness :
  ∃ out1 w1 out2 w2,
    @ResizeLatentsInvocation.invoke toy_runtime (toy_resize nearest false)
      toy_context toy_world = Ok (out1, w1) ∧
    @ScaleLatentsInvocation.invoke toy_runtime
      {| ScaleLatentsInvocation.id := "scale";
         ScaleLatentsInvocation.latents := Some (LatentsOutput.latents out1);
         ScaleLatentsInvocation.scale_factor := 2;
         ScaleLatentsInvocation.mode := nearest;
         ScaleLatentsInvocation.antialias := false |}
      toy_context w1 = Ok (out2, w2) ∧
    LatentsField.seed (LatentsOutput.latents out2) = Some 42.
Proof.
  set (out1 :=
         {| LatentsOutput.latents := toy_field "session__resize" (Some 42);
            LatentsOutput.width := 512;
            LatentsOutput.height := 256 |}).
  set (w1 :=
         {| latents_store :=
              <["session__resize" :=
                  toy_to (Some Cpu) None
                    (toy_op "interpolate"
                       (toy_reshape [1; 4; 32; 64]
                          (toy_to (Some (Cuda 0)) None (toy_latents 64 96))))]>
                (latents_store toy_world);
            trace :=
              [@CallInterpolate toy_runtime
                 (toy_to (Some (Cuda 0)) None (toy_latents 64 96))
                 (TargetSize 32 64) nearest false;
               CallEmptyCache] |} : @World toy_runtime).
  assert (@ResizeLatentsInvocation.invoke toy_runtime (toy_resize nearest false)
            toy_context toy_world = Ok (out1, w1)) as Hrun1
    by reflexivity.
  edestruct (@resize_then_scale toy_runtime (toy_resize nearest false)
               {| ScaleLatentsInvocation.id := "scale";
                  ScaleLatentsInvocation.latents := Some (LatentsOutput.latents out1);
                  ScaleLatentsInvocation.scale_factor := 2;
                  ScaleLatentsInvocation.mode := nearest;
                  ScaleLatentsInvocation.antialias := false |}
               toy_context toy_world out1 w1 (toy_field "latents" (Some 42)))
    as (out2 & w2 & saved & _ & Hrun2 & _ & Hseed).
  - reflexivity.
  - exact Hrun1.
  - reflexivity.
  - intros saved Hsaved. vm_compute in Hsaved.
    injection Hsaved as <-. reflexivity.
  - simpl. lia.
  - by exists out1, w1, out2, w2.
Defined.

Lemma latents_to_image_precision_witness :
  ∃ out w' vae latents,
    @LatentsToImageInvocation.invoke toy_runtime (toy_l2i false) toy_context toy_world
    = Ok (out, w') ∧
    ImageField.image_name (ImageOutput.image out) = "l2i" ∧
    trace w' = [CallEmptyCache; CallVaeDecode vae latents; CallEmptyCache;
                @CallImagesCreate toy_runtime "decoded" "l2i" "session"] ∧
    vae_dtype vae = Float16 ∧
    tt_dtype latents = Float16.
Proof.
  destruct (@latents_to_image_precision toy_runtime (toy_l2i false) toy_context
              toy_world (toy_field "latents" None) (toy_latents 64 96)
              {| VaeField.vae := toy_model_info "vae" |} toy_vae)
    as (out & w' & vae & latents & Hrun & Hout & Htrace & _ & _ & _ & Hdtype & Hhalf & _);
    [reflexivity | by exists "latents" | reflexivity | reflexivity |].
  destruct (Hhalf eq_refl) as (_ & _ & _ & ->).
  exists out, w', vae. eexists.
  split; [exact Hrun |]. split; [by rewrite Hout |].
  split; [exact Htrace |]. by split.
Defined.

Lemma image_to_latents_spec_witness :
  ∃ out w' vae,
    @ImageToLatentsInvocation.invoke toy_runtime (toy_i2l false) toy_context toy_world
    = Ok (out, w') ∧
    out = {| LatentsOutput.latents := toy_field "session__i2l" None;
             LatentsOutput.width := 512;
             LatentsOutput.height := 512 |} ∧
    (∃ saved, latents_store w' = <["session__i2l" := saved]> (latents_store toy_world)) ∧
    vae_dtype vae = Float32 ∧
    post_quant_conv_dtype vae = Float16.
Proof.
  destruct (@image_to_latents_spec toy_runtime (toy_i2l false) toy_context toy_world
              {| ImageField.image_name := "photo" |} "photo"
              {| VaeField.vae := toy_model_info "vae" |} toy_vae)
    as (w' & vae & sampled & _ & Hrun & _ & -> & _ & Hstore & Hdtype & Hblocks & _);
    [reflexivity | reflexivity | reflexivity | reflexivity |].
  eexists _, w', vae. split; [apply (Hrun 64 64); reflexivity |].
  split; [reflexivity |]. split; [by eexists |]. by split.
Defined.

Lemma get_conditioning_data_spec_witness :
  (∃ data generator,
     @DenoiseLatents.get_conditioning_data toy_runtime toy_denoise_runtime toy_backend
       toy_denoise_node toy_context ddim_1000 toy_unet 7
     = Ok (add_scheduler_args_if_applicable toy_backend data ddim_1000 0 generator) ∧
     text_embeddings data = "positive" ∧
     unconditioned_embeddings data = "negative" ∧
     generator_seed generator = 4294967288) ∧
  @DenoiseLatents.get_conditioning_data toy_runtime toy_denoise_runtime toy_backend
    toy_denoise_node toy_context ddim_1000 toy_unet (2 ^ 64)
  = Raise RuntimeError.
Proof.
  split.
  - destruct (@get_conditioning_data_spec toy_runtime toy_denoise_runtime toy_backend
                toy_denoise_node toy_context ddim_1000 toy_unet 7
                {| ConditioningField.conditioning_name := "positive" |}
                {| ConditioningField.conditioning_name := "negative" |}
                "positive" [] "negative" [] eq_refl eq_refl eq_refl eq_refl)
      as [Hfits _].
    destruct Hfits
      as (data & generator & Hrun & Htext & Huncond & _ & _ & _ & _ & _ & _ & Hrange);
      [lia |].
    exists data, generator.
    destruct Hrange as [Hseed _]; [lia |].
    by repeat split.
  - destruct (@get_conditioning_data_spec toy_runtime toy_denoise_runtime toy_backend
                toy_denoise_node toy_context ddim_1000 toy_unet (2 ^ 64)
                {| ConditioningField.conditioning_name := "positive" |}
                {| ConditioningField.conditioning_name := "negative" |}
                "positive" [] "negative" [] eq_refl eq_refl eq_refl eq_refl)
      as [_ Hoverflow].
    apply Hoverflow. lia.
Defined.

Lemma prep_mask_tensor_spec_witness :
  ∃ grid,
    @DenoiseLatents.prep_mask_tensor toy_runtime toy_denoise_runtime
      (Some {| ImageField.image_name := "mask" |}) toy_context (toy_latents 64 96)
    = Ok (Some (@one_minus toy_runtime toy_denoise_runtime
                  (@tv_resize_bilinear toy_runtime toy_denoise_runtime grid [64; 96]))).
Proof.
  destruct (@prep_mask_tensor_spec toy_runtime toy_denoise_runtime toy_context
              (toy_latents 64 96)) as [_ Hmask].
  destruct (Hmask {| ImageField.image_name := "mask" |} "mask" [1; 4] 64 96
              eq_refl eq_refl) as (grey & grid & Hrun & _).
  by exists grid.
Defined.

Lemma denoise_invoke_spec_witness :
  ∃ out w' calls,
    @DenoiseLatents.invoke toy_runtime toy_denoise_runtime leading_diffusers
      toy_scheduler_map toy_backend toy_denoise_node toy_context toy_world
    = Ok (out, w') ∧
    LatentsOutput.latents out
    = {| LatentsField.latents_name := Some "session__denoise";
         LatentsField.seed := Some 7 |} ∧
    trace w' = calls ++ [CallEmptyCache].
Proof.
  set (out :=
         {| LatentsOutput.latents := toy_field "session__denoise" (Some 7);
            LatentsOutput.width := 768;
            LatentsOutput.height := 512 |}).
  set (w' :=
         {| latents_store :=
              <["session__denoise" :=
                  toy_to (Some Cpu) None
                    (toy_op "denoise"
                       (toy_to (Some (Cuda 0)) (Some Float16)
                          (@zeros_like toy_runtime
                             (toy_op "randn" (toy_latents 64 96)))))]>
                (latents_store toy_world);
            trace :=
              [@CallPrepareControlImage toy_runtime "edges" true 768 512 (Cuda 0)
                 Float16 "balanced" "just_resize";
               CallEmptyCache] |} : @World toy_runtime).
  assert (@DenoiseLatents.invoke toy_runtime toy_denoise_runtime leading_diffusers
            toy_scheduler_map toy_backend toy_denoise_node toy_context toy_world
          = Ok (out, w')) as Hrun
    by reflexivity.
  destruct (@denoise_invoke_spec toy_runtime toy_denoise_runtime leading_diffusers
              toy_scheduler_map toy_backend toy_denoise_node toy_context toy_world
              out w' Hrun)
    as (call & result & maps & calls & wd & ht & _ & _ & _ & _ & _ & _ & Htrace
        & _ & _ & _ & Hout & _).
  exists out, w', calls. split; [exact Hrun |]. split; [exact Hout |]. exact Htrace.
Defined.
